(** * express-crud-api: access control, query scoping and token lifecycle

    A shallow embedding of the Express routes of the project/task tracker
    (routes/tasks.js, routes/projects.js with the user routes,
    routes/categories.js, routes/auth.js), of the middleware in front of
    their handlers (middleware/validation.js, middleware/upload.js,
    middleware/errorHandler.js) and of the default data, over a relational
    store laid out as in migrations/migrate.js.

    Conventions of the model.
    - A table is the list of its rows; a [SELECT ... WHERE] is a [filter],
      [rows.length === 0] is a test for the empty list and [rows[0]] is the
      head of the list.  The store is the six tables; the files that multer
      writes to the disk are not part of it.
    - Identifiers are the strings of the source and are compared exactly,
      in the handlers ([===]) as in the statements ([=]) and in the keys.
      The collation utf8_unicode_ci of the columns takes more strings as
      equal (it folds case); this is [sql_equal].  It compares what a
      caller gives to a statement only: the email of login and register and
      the filter values of the list queries.  A property that depends on
      how a request or a row spells an id says so in its hypotheses.
    - A handler is a computation over the store that either answers
      ([res.status(..).json(..)]) or goes on; an exception thrown by
      [db.execute] reaches [next(error)] and is answered by [errorHandler].
    - A statement that binds values of the request fails when one of them
      is [undefined] (mysql2 throws) or is a value its column does not take
      (the server runs in strict sql_mode, the default); the value a column
      took is held as the request wrote it.
    - [route] and [handle] are a handler behind the role check of its
      route; [endpoint] and [serve] are the whole route, with the
      validation and upload middleware in front of the handler.
    - [CURRENT_TIMESTAMP] and the results of [uuidv4()] are inputs of a
      request.  One request runs alone: interleaving of requests is not
      modelled. *)

From Stdlib Require Import List Ascii String ZArith Bool Lia Permutation Arith
  DecimalString Sorted.
Import ListNotations.
Local Open Scope string_scope.
Local Open Scope Z_scope.

(** ** Rows (migrations/migrate.js) *)

Definition Id := string.

(** [a === b] on two ids; also what [=] is taken to be in the statements
    of the model, where the collation of the columns would take two
    spellings of one id as equal. *)
Definition id_eqb (a b : Id) : bool := String.eqb a b.

(** [col = ?] on a nullable column, and [row.col === req.user.id] on a value
    that may be [null]: a NULL never matches. *)
Definition opt_is (o : option Id) (x : Id) : bool :=
  match o with
  | Some y => id_eqb y x
  | None => false
  end.

(** role ENUM('admin', 'manager', 'user') *)
Inductive Role : Type := Admin | Manager | User.

Definition role_eqb (a b : Role) : bool :=
  match a, b with
  | Admin, Admin | Manager, Manager | User, User => true
  | _, _ => false
  end.

Record UserRow : Type := mkUser {
  u_id : Id;
  u_name : string;
  u_email : string;
  u_password : string;
  u_role : Role;
  u_is_active : bool;
  u_avatar_url : option string;
  u_created_at : Z;
  u_updated_at : Z;
  u_last_login : option Z
}.

Record CategoryRow : Type := mkCategory {
  c_id : Id;
  c_name : string;
  c_description : string;
  c_color : string;
  c_created_at : Z;
  c_updated_at : Z
}.

Record ProjectRow : Type := mkProject {
  p_id : Id;
  p_name : string;
  p_description : string;
  p_status : string;
  p_priority : string;
  p_start_date : option string;
  p_end_date : option string;
  p_budget : option string;
  p_created_by : Id;
  p_created_at : Z;
  p_updated_at : Z
}.

Record TaskRow : Type := mkTask {
  t_id : Id;
  t_title : string;
  t_description : string;
  t_project_id : Id;
  t_assigned_to : option Id;
  t_category_id : option Id;
  t_status : string;
  t_priority : string;
  t_due_date : option string;
  t_estimated_hours : option string;
  t_created_by : Id;
  t_created_at : Z;
  t_updated_at : Z
}.

(** project_files and task_files share their columns; [f_owner] is the
    project_id, respectively the task_id. *)
Record FileRow : Type := mkFile {
  f_id : Id;
  f_owner : Id;
  f_filename : string;
  f_original_name : string;
  f_file_path : string;
  f_file_size : Z;
  f_mimetype : string;
  f_uploaded_by : Id;
  f_created_at : Z
}.

Record Db : Type := mkDb {
  users : list UserRow;
  categories : list CategoryRow;
  projects : list ProjectRow;
  tasks : list TaskRow;
  project_files : list FileRow;
  task_files : list FileRow
}.

(** ** Errors and answers *)

(** What [db.execute] or [jwt.verify] throws: the fields [errorHandler]
    reads. *)
Record Err : Type := mkErr {
  err_name : string;
  err_code : string;
  err_message : string
}.

Definition ER_DUP_ENTRY : Err :=
  mkErr "Error" "ER_DUP_ENTRY" "Duplicate entry".
Definition ER_NO_REFERENCED_ROW_2 : Err :=
  mkErr "Error" "ER_NO_REFERENCED_ROW_2"
        "Cannot add or update a child row: a foreign key constraint fails".
Definition ER_ROW_IS_REFERENCED_2 : Err :=
  mkErr "Error" "ER_ROW_IS_REFERENCED_2"
        "Cannot delete or update a parent row: a foreign key constraint fails".
Definition JsonWebTokenError (msg : string) : Err :=
  mkErr "JsonWebTokenError" "" msg.

(** What mysql2 throws from [execute] when a bind parameter is [undefined];
    the statement is not sent. *)
Definition BindUndefined : Err :=
  mkErr "TypeError" ""
        "Bind parameters must not contain undefined. To pass SQL NULL specify JS null".

(** What the server answers, in strict mode, to a value that a column does
    not take (too long, not a member of the ENUM, no date, out of range):
    ER_DATA_TOO_LONG, WARN_DATA_TRUNCATED, ER_TRUNCATED_WRONG_VALUE and the
    like.  [errorHandler] knows none of these codes; the message is the
    server's and only its status is used. *)
Definition ER_DATA_TOO_LONG : Err :=
  mkErr "Error" "ER_DATA_TOO_LONG" "Data too long for column".

Definition TokenExpiredError : Err :=
  mkErr "TokenExpiredError" "" "jwt expired".

(** ** Tokens (jsonwebtoken, HS256)

    [jsonwebtoken] is a library the routes call.  Its signature is taken
    symbolically: a token records the secret it was signed with, and
    verification under a secret succeeds only for a token signed with that
    very secret.  A string that is no token at all behaves as a token
    signed with an unknown secret. *)

Record Payload : Type := mkPayload {
  userId : Id;
  email : option string;
  role : option Role
}.

Record Token : Type := mkToken {
  tk_payload : Payload;
  tk_iat : Z;
  tk_exp : Z;
  tk_key : string
}.

(** [jwt.sign(payload, secret, { expiresIn })] at time [now] (seconds). *)
Definition jwt_sign (p : Payload) (secret : string) (expiresIn now : Z) : Token :=
  mkToken p now (now + expiresIn) secret.

(** [jwt.verify(token, secret)] at time [now]: the signature first, then
    the [exp] claim ([now >= exp] is expired). *)
Definition jwt_verify (t : Token) (secret : string) (now : Z) : Err + Payload :=
  if negb (String.eqb (tk_key t) secret)
  then inl (JsonWebTokenError "invalid signature")
  else if tk_exp t <=? now then inl TokenExpiredError
  else inr (tk_payload t).

(** [process.env] as far as the routes read it; [JWT_EXPIRES_IN] in seconds,
    and '7d' for the refresh token. *)
Record Env : Type := mkEnv {
  JWT_SECRET : string;
  REFRESH_TOKEN_SECRET : string;
  JWT_EXPIRES_IN : Z
}.

Definition seven_days : Z := 7 * 24 * 60 * 60.

(** ** Answers *)

(** The [data] member of an answer.  Columns that a query adds for display
    only (names joined from other tables, aggregate counts) are left out. *)
Inductive Data : Type :=
| NoData
| TaskList (rows : list TaskRow) (total : Z)
| TaskOne (row : TaskRow)
| ProjectList (rows : list ProjectRow) (total : Z)
| ProjectOne (row : ProjectRow) (its_tasks : list TaskRow)
| ProjectStats (its_tasks : list TaskRow)
| CategoryList (rows : list CategoryRow)
| CategoryOne (row : CategoryRow) (its_tasks : list TaskRow)
| UserList (rows : list UserRow) (total : Z)
| UserOne (row : UserRow)
| UserStats (row : UserRow)
| Uploaded (target : Id) (file_ids : list Id)
| LoginData (u : UserRow) (accessToken refreshToken : Token)
| AccessTokenData (accessToken : Token).

(** [res.status(status).json({ success, message, data })]; [success] is
    [true] exactly for the statuses 200 and 201 and is not recorded. *)
Record Response : Type := mkResponse {
  status : Z;
  message : string;
  data : Data
}.

Definition json (m : string) (d : Data) : Response := mkResponse 200 m d.

(** middleware/errorHandler.js *)
Definition errorHandler (err : Err) : Response :=
  let error := (err_message err, @None Z) in
  let error :=
    if String.eqb (err_code err) "ER_DUP_ENTRY"
    then ("Resource already exists", Some 409) else error in
  let error :=
    if String.eqb (err_code err) "ER_NO_REFERENCED_ROW_2"
    then ("Referenced resource does not exist", Some 400) else error in
  let error :=
    if String.eqb (err_name err) "JsonWebTokenError"
    then ("Invalid token", Some 401) else error in
  mkResponse (match snd error with Some s => s | None => 500 end)
             (if String.eqb (fst error) "" then "Internal Server Error"
              else fst error)
             NoData.

(** ** Handlers as computations over the store *)

Definition M (A : Type) : Type := Db -> (Response + A) * Db.

Definition ret {A} (a : A) : M A := fun db => (inr a, db).

Definition bind {A B} (m : M A) (f : A -> M B) : M B :=
  fun db =>
    match m db with
    | (inl r, db') => (inl r, db')
    | (inr a, db') => f a db'
    end.

(** [return res.status(..).json(..)] *)
Definition reply {A} (r : Response) : M A := fun db => (inl r, db).

(** [if (cond) { return res.status(..).json(..) }] *)
Definition stop_if (cond : bool) (r : Response) : M unit :=
  if cond then reply r else ret tt.

(** A [SELECT]: reads the store. *)
Definition query {A} (f : Db -> A) : M A := fun db => (inr (f db), db).

(** A statement that writes: it fails as a whole, leaving the store as it
    was, and the exception is answered by [errorHandler]. *)
Definition execute (f : Db -> Err + Db) : M unit :=
  fun db =>
    match f db with
    | inl e => (inl (errorHandler e), db)
    | inr db' => (inr tt, db')
    end.

(** [await db.execute(sql, params)] of a statement that writes values of
    the request: mysql2 throws when one of [params] is [undefined], the
    server (in strict mode) refuses a value that its column does not take,
    and then the keys and the foreign keys decide, which is [stmt].
    [defined] and [fits] tell the first two of a handler's statement. *)
Definition sent {A} (defined fits : bool) (stmt : Db -> Err + A) : Db -> Err + A :=
  fun db =>
    if negb defined then inl BindUndefined
    else if negb fits then inl ER_DATA_TOO_LONG
    else stmt db.

Declare Scope handler_scope.
Delimit Scope handler_scope with handler.
Notation "x <- m ;; k" := (bind m (fun x => k))
  (at level 100, m at next level, right associativity) : handler_scope.
Notation "m ;;; k" := (bind m (fun _ => k))
  (at level 100, right associativity) : handler_scope.

(** A route handler always ends in an answer. *)
Definition Handler : Type := M Empty_set.

Definition run (h : Handler) (db : Db) : Response * Db :=
  match h db with
  | (inl r, db') => (r, db')
  | (inr e, _) => match e with end
  end.

(** As [execute], for a statement whose [affectedRows] the handler reads. *)
Definition execute_rows (f : Db -> Err + (Z * Db)) : M Z :=
  fun db =>
    match f db with
    | inl e => (inl (errorHandler e), db)
    | inr (n, db') => (inr n, db')
    end.

(** ** The store: keys and foreign keys of migrations/migrate.js *)

Definition set_users (db : Db) (l : list UserRow) : Db :=
  mkDb l (categories db) (projects db) (tasks db) (project_files db) (task_files db).
Definition set_categories (db : Db) (l : list CategoryRow) : Db :=
  mkDb (users db) l (projects db) (tasks db) (project_files db) (task_files db).
Definition set_projects (db : Db) (l : list ProjectRow) : Db :=
  mkDb (users db) (categories db) l (tasks db) (project_files db) (task_files db).
Definition set_tasks (db : Db) (l : list TaskRow) : Db :=
  mkDb (users db) (categories db) (projects db) l (project_files db) (task_files db).
Definition set_project_files (db : Db) (l : list FileRow) : Db :=
  mkDb (users db) (categories db) (projects db) (tasks db) l (task_files db).
Definition set_task_files (db : Db) (l : list FileRow) : Db :=
  mkDb (users db) (categories db) (projects db) (tasks db) (project_files db) l.

Definition has_user (db : Db) (id : Id) : bool :=
  existsb (fun u => id_eqb (u_id u) id) (users db).
Definition has_category (db : Db) (id : Id) : bool :=
  existsb (fun c => id_eqb (c_id c) id) (categories db).
Definition has_project (db : Db) (id : Id) : bool :=
  existsb (fun p => id_eqb (p_id p) id) (projects db).
Definition has_task (db : Db) (id : Id) : bool :=
  existsb (fun t => id_eqb (t_id t) id) (tasks db).

(** A nullable foreign key holds when it is NULL or names a row. *)
Definition opt_ref (has : Id -> bool) (o : option Id) : bool :=
  match o with
  | Some x => has x
  | None => true
  end.

(** [rows.length], [COUNT( * )] *)
Definition count {A} (l : list A) : Z := Z.of_nat (List.length l).

Definition is_empty {A} (l : list A) : bool :=
  match l with
  | [] => true
  | _ :: _ => false
  end.

(** The foreign keys of a tasks row: project_id, assigned_to, category_id,
    created_by. *)
Definition task_refs_ok (db : Db) (r : TaskRow) : bool :=
  has_project db (t_project_id r)
  && opt_ref (has_user db) (t_assigned_to r)
  && opt_ref (has_category db) (t_category_id r)
  && has_user db (t_created_by r).

Definition insert_task (r : TaskRow) (db : Db) : Err + Db :=
  if has_task db (t_id r) then inl ER_DUP_ENTRY
  else if negb (task_refs_ok db r) then inl ER_NO_REFERENCED_ROW_2
  else inr (set_tasks db (tasks db ++ [r])).

Definition insert_project (r : ProjectRow) (db : Db) : Err + Db :=
  if has_project db (p_id r) then inl ER_DUP_ENTRY
  else if negb (has_user db (p_created_by r)) then inl ER_NO_REFERENCED_ROW_2
  else inr (set_projects db (projects db ++ [r])).

(** categories.name is UNIQUE. *)
Definition insert_category (r : CategoryRow) (db : Db) : Err + Db :=
  if has_category db (c_id r)
     || existsb (fun c => String.eqb (c_name c) (c_name r)) (categories db)
  then inl ER_DUP_ENTRY
  else inr (set_categories db (categories db ++ [r])).

(** The INSERTs of the two file tables, as far as the primary key and the
    foreign keys go; the values of the other columns are checked by [sent]
    in the upload loop. *)
Definition insert_project_file (r : FileRow) (db : Db) : Err + Db :=
  if existsb (fun f => id_eqb (f_id f) (f_id r)) (project_files db)
  then inl ER_DUP_ENTRY
  else if negb (has_project db (f_owner r) && has_user db (f_uploaded_by r))
  then inl ER_NO_REFERENCED_ROW_2
  else inr (set_project_files db (project_files db ++ [r])).

Definition insert_task_file (r : FileRow) (db : Db) : Err + Db :=
  if existsb (fun f => id_eqb (f_id f) (f_id r)) (task_files db)
  then inl ER_DUP_ENTRY
  else if negb (has_task db (f_owner r) && has_user db (f_uploaded_by r))
  then inl ER_NO_REFERENCED_ROW_2
  else inr (set_task_files db (task_files db ++ [r])).

(** [UPDATE tasks SET ... WHERE id = ?] with the new row given by [f].
    [refs_ok] tells whether the foreign keys that the statement assigns name
    existing rows; they are checked when a row is changed. *)
Definition update_tasks_where_id (id : Id) (refs_ok : Db -> bool)
  (f : TaskRow -> TaskRow) (db : Db) : Err + Db :=
  if has_task db id && negb (refs_ok db) then inl ER_NO_REFERENCED_ROW_2
  else inr (set_tasks db
              (map (fun t => if id_eqb (t_id t) id then f t else t) (tasks db))).

(** [UPDATE projects SET ... WHERE id = ?]: no key and no foreign key is
    assigned, so the statement fails only on the values it binds, which
    [sent] tells in the handler. *)
Definition update_projects_where_id (id : Id) (f : ProjectRow -> ProjectRow)
  (db : Db) : Err + Db :=
  inr (set_projects db
         (map (fun p => if id_eqb (p_id p) id then f p else p) (projects db))).

(** categories.name is UNIQUE: a row whose name changes must not take the
    name of another category. *)
Definition update_categories_where_id (id : Id) (f : CategoryRow -> CategoryRow)
  (db : Db) : Err + Db :=
  if existsb (fun c =>
       id_eqb (c_id c) id
       && negb (String.eqb (c_name (f c)) (c_name c))
       && existsb (fun o => negb (id_eqb (c_id o) id)
                            && String.eqb (c_name o) (c_name (f c)))
                  (categories db))
     (categories db)
  then inl ER_DUP_ENTRY
  else inr (set_categories db
              (map (fun c => if id_eqb (c_id c) id then f c else c) (categories db))).

(** users.email is UNIQUE: a row whose email changes must not take the email
    of another user.  The statement reports the rows it matched. *)
Definition update_users_where_id (id : Id) (f : UserRow -> UserRow) (db : Db)
  : Err + (Z * Db) :=
  if existsb (fun u =>
       id_eqb (u_id u) id
       && negb (String.eqb (u_email (f u)) (u_email u))
       && existsb (fun o => negb (id_eqb (u_id o) id)
                            && String.eqb (u_email o) (u_email (f u)))
                  (users db))
     (users db)
  then inl ER_DUP_ENTRY
  else inr (count (filter (fun u => id_eqb (u_id u) id) (users db)),
            set_users db
              (map (fun u => if id_eqb (u_id u) id then f u else u) (users db))).

(** [DELETE FROM tasks WHERE id = ?]; task_files.task_id is ON DELETE
    CASCADE. *)
Definition delete_tasks_where_id (id : Id) (db : Db) : Err + Db :=
  if has_task db id
  then inr (mkDb (users db) (categories db) (projects db)
              (filter (fun t => negb (id_eqb (t_id t) id)) (tasks db))
              (project_files db)
              (filter (fun f => negb (id_eqb (f_owner f) id)) (task_files db)))
  else inr db.

(** [DELETE FROM projects WHERE id = ?]; tasks.project_id and
    project_files.project_id are ON DELETE CASCADE, and the files of the
    tasks that go are deleted with them. *)
Definition delete_projects_where_id (id : Id) (db : Db) : Err + Db :=
  if has_project db id
  then
    let gone := filter (fun t => id_eqb (t_project_id t) id) (tasks db) in
    inr (mkDb (users db) (categories db)
           (filter (fun p => negb (id_eqb (p_id p) id)) (projects db))
           (filter (fun t => negb (id_eqb (t_project_id t) id)) (tasks db))
           (filter (fun f => negb (id_eqb (f_owner f) id)) (project_files db))
           (filter (fun f => negb (existsb (fun t => id_eqb (t_id t) (f_owner f)) gone))
                   (task_files db)))
  else inr db.

(** [DELETE FROM categories WHERE id = ?]; tasks.category_id is ON DELETE
    SET NULL. *)
Definition delete_categories_where_id (id : Id) (db : Db) : Err + Db :=
  if has_category db id
  then inr (mkDb (users db)
              (filter (fun c => negb (id_eqb (c_id c) id)) (categories db))
              (projects db)
              (map (fun t => if opt_is (t_category_id t) id
                             then mkTask (t_id t) (t_title t) (t_description t)
                                    (t_project_id t) (t_assigned_to t) None
                                    (t_status t) (t_priority t) (t_due_date t)
                                    (t_estimated_hours t) (t_created_by t)
                                    (t_created_at t) (t_updated_at t)
                             else t) (tasks db))
              (project_files db) (task_files db))
  else inr db.

(** [DELETE FROM users WHERE id = ?]; projects.created_by, tasks.created_by
    and the uploaded_by of both file tables are ON DELETE RESTRICT,
    tasks.assigned_to is ON DELETE SET NULL.  The statement reports the
    rows it deleted. *)
Definition delete_users_where_id (id : Id) (db : Db) : Err + (Z * Db) :=
  let matched := filter (fun u => id_eqb (u_id u) id) (users db) in
  if is_empty matched then inr (0, db)
  else if existsb (fun p => id_eqb (p_created_by p) id) (projects db)
          || existsb (fun t => id_eqb (t_created_by t) id) (tasks db)
          || existsb (fun f => id_eqb (f_uploaded_by f) id) (project_files db)
          || existsb (fun f => id_eqb (f_uploaded_by f) id) (task_files db)
  then inl ER_ROW_IS_REFERENCED_2
  else inr (count matched,
            mkDb (filter (fun u => negb (id_eqb (u_id u) id)) (users db))
              (categories db) (projects db)
              (map (fun t => if opt_is (t_assigned_to t) id
                             then mkTask (t_id t) (t_title t) (t_description t)
                                    (t_project_id t) None (t_category_id t)
                                    (t_status t) (t_priority t) (t_due_date t)
                                    (t_estimated_hours t) (t_created_by t)
                                    (t_created_at t) (t_updated_at t)
                             else t) (tasks db))
              (project_files db) (task_files db)).

(** ** Joins, ordering and paging *)

(** [FROM tasks t LEFT JOIN projects p ON t.project_id = p.id]: a task with
    no project row is kept, paired with NULLs.  The further joins of the
    task queries, with users and categories, are on keys and add names for
    display only; they are left out. *)
Definition left_join_project (ps : list ProjectRow) (t : TaskRow)
  : list (TaskRow * option ProjectRow) :=
  match filter (fun p => id_eqb (t_project_id t) (p_id p)) ps with
  | [] => [(t, None)]
  | m => map (fun p => (t, Some p)) m
  end.

Definition tasks_join_projects (db : Db) : list (TaskRow * option ProjectRow) :=
  flat_map (left_join_project (projects db)) (tasks db).

(** [p.created_by] of a joined row; NULL when the join found no project. *)
Definition project_owner (r : TaskRow * option ProjectRow) : option Id :=
  match snd r with
  | Some p => Some (p_created_by p)
  | None => None
  end.

(** ENUM('low', 'medium', 'high', 'critical') sorts by its index. *)
Definition priority_index (s : string) : Z :=
  if String.eqb s "low" then 1
  else if String.eqb s "medium" then 2
  else if String.eqb s "high" then 3
  else if String.eqb s "critical" then 4
  else 0.

Fixpoint insert_by {A} (before : A -> A -> bool) (x : A) (l : list A) : list A :=
  match l with
  | [] => [x]
  | y :: l' => if before x y then x :: l else y :: insert_by before x l'
  end.

(** [ORDER BY]: a stable insertion sort.  Rows that tie on the columns of
    the ORDER BY are left in the order of the table; the database may give
    them in any order, and in another one for each query. *)
Definition order_by {A} (before : A -> A -> bool) (l : list A) : list A :=
  fold_right (insert_by before) [] l.

(** [LIMIT ? OFFSET ?] with [offset = (page - 1) * limit].  [page] and
    [limit] are what [parseInt(..) || default] leaves; they are taken
    positive (a negative number makes the statement fail). *)
Definition paginate {A} (page limit : positive) (l : list A) : list A :=
  firstn (Pos.to_nat limit) (skipn ((Pos.to_nat page - 1) * Pos.to_nat limit) l).

(** A string of the query or of the body is used when it is not empty
    ([if (status)], [name || '']). *)
Definition truthy (s : string) : bool := negb (String.eqb s "").

Definition is_some {A} (o : option A) : bool :=
  match o with Some _ => true | None => false end.

(** A member of a JSON body that may be left out or be [null]. *)
Inductive Member (A : Type) : Type :=
| Omitted
| Null
| Given (a : A).
Arguments Omitted {A}.
Arguments Null {A}.
Arguments Given {A} a.

Definition is_omitted {A} (m : Member A) : bool :=
  match m with Omitted => true | _ => false end.

(** What a statement binds for a member that is not left out: [null] is
    NULL. *)
Definition member_value {A} (m : Member A) : option A :=
  match m with Given a => Some a | _ => None end.

(** [s.length] of JavaScript counts UTF-16 code units.  A string is held as
    its UTF-8 bytes: every byte that starts a character counts one, the
    first byte of a four-byte character (one outside the basic plane, a
    surrogate pair in UTF-16) counts two, a continuation byte none. *)
Definition utf16_units (c : Ascii.ascii) : nat :=
  let n := Ascii.nat_of_ascii c in
  if (n <? 128)%nat then 1%nat
  else if (n <? 192)%nat then 0%nat
  else if (n <? 240)%nat then 1%nat
  else 2%nat.

Definition js_length (s : string) : nat :=
  fold_right (fun c n => (utf16_units c + n)%nat) 0%nat (list_ascii_of_string s).

(** The column types of migrations/migrate.js that take a value of a
    request. *)
Inductive Column : Type :=
| VARCHAR (n : nat)
| TEXT
| ENUM (values : list string)
| DATE
| DECIMAL (m d : nat).

(** ** The caller and the middleware in front of the handlers *)

(** [req.user], set by [authenticateToken] before any handler runs. *)
Record Actor : Type := mkActor {
  a_id : Id;
  a_role : Role
}.

(** Modelled from the spec: [authorizeRoles] of middleware/auth.js, which is
    not among the sources.  A route behind [authorizeRoles(r1, .., rn)]
    requires the caller's role to be one of the listed roles and answers
    Forbidden (403) otherwise, before the handler runs. *)
Definition authorizeRoles (allowed : list Role) (a : Actor) (h : Handler) : Handler :=
  if existsb (role_eqb (a_role a)) allowed then h
  else reply (mkResponse 403 "Insufficient permissions" NoData).

(** Functions of the server and of the libraries that the routes call.
    - MySQL: the LIKE operator under the column collation; [collates], the
      [=] of the collation utf8_unicode_ci on two strings that differ (it
      folds case, among other things); [stores], whether the server, in
      strict sql_mode, takes a value for a column of a type (a value it does
      not take makes the statement fail).
    - bcryptjs.
    - validator.js, behind express-validator: [trim], [isLength] with its
      [min] and [max], [isISO8601], [isFloat] with its [min] and [max]
      (written as decimals), and [date_is_past], the comparison
      [new Date(value) < new Date()] at the time of the request.
    - Joi: [Joi.string().email()], [Joi.date()], [Joi.date().min(ref)] for
      the value the reference resolves to, [Joi.number().positive()].
    - busboy, behind multer: whether a file of a size stays within
      [limits.fileSize]. *)
Record Platform : Type := mkPlatform {
  sql_like : string -> string -> bool;
  bcrypt_compare : string -> string -> bool;
  bcrypt_hash : string -> string;
  collates : string -> string -> bool;
  stores : Column -> string -> bool;
  trim : string -> string;
  isLength : nat -> nat -> string -> bool;
  isISO8601 : string -> bool;
  isFloat : string -> string -> string -> bool;
  date_is_past : string -> Z -> bool;
  joi_email : string -> bool;
  joi_date : string -> bool;
  joi_date_min : Member string -> string -> bool;
  joi_positive : string -> bool;
  within_fileSize : Z -> Z -> bool
}.

(** [a = b] in SQL on the columns of the schema: equal strings are equal
    under every collation. *)
Definition sql_equal (pf : Platform) (a b : string) : bool :=
  String.eqb a b || collates pf a b.

Definition stores_opt (pf : Platform) (c : Column) (o : option string) : bool :=
  match o with
  | Some v => stores pf c v
  | None => true
  end.

(** An uploaded file of [req.files], with the uuid drawn for its row. *)
Record UploadedFile : Type := mkUploaded {
  file_uuid : Id;
  filename : string;
  originalname : string;
  path : string;
  size : Z;
  mimetype : string
}.

(** ** routes/tasks.js *)

Record TaskQuery : Type := mkTaskQuery {
  tq_page : positive;
  tq_limit : positive;
  tq_status : string;
  tq_priority : string;
  tq_project_id : string;
  tq_assigned_to : string;
  tq_search : string
}.

(** [req.body] of "Create task" and "Update task" as the handler reads it.
    [title], [description] and [project_id] are taken as given.  [None]
    stands for a member that is left out (the handler reads [undefined]),
    and so does the empty string for [status] and [priority]. *)
Record TaskBody : Type := mkTaskBody {
  b_title : string;
  b_description : string;
  b_project_id : Id;
  b_assigned_to : option Id;
  b_category_id : option Id;
  b_status : string;
  b_priority : string;
  b_due_date : option string;
  b_estimated_hours : option string
}.

(** [if (req.user.role === 'user')
      AND (t.assigned_to = ? OR t.created_by = ? OR p.created_by = ?)] *)
Definition task_role_filter (a : Actor) (r : TaskRow * option ProjectRow) : bool :=
  match a_role a with
  | User => opt_is (t_assigned_to (fst r)) (a_id a)
            || id_eqb (t_created_by (fst r)) (a_id a)
            || opt_is (project_owner r) (a_id a)
  | _ => true
  end.

(** [ORDER BY t.priority DESC, t.created_at DESC] *)
Definition task_before (x y : TaskRow * option ProjectRow) : bool :=
  (priority_index (t_priority (fst y)) <? priority_index (t_priority (fst x)))
  || ((priority_index (t_priority (fst y)) =? priority_index (t_priority (fst x)))
      && (t_created_at (fst y) <=? t_created_at (fst x))).

Section Routes.

Variable platform : Platform.

(** [col = ?] on a nullable column for a value of the query string. *)
Definition opt_sql_equal (o : option string) (x : string) : bool :=
  match o with
  | Some y => sql_equal platform y x
  | None => false
  end.

(** The WHERE clause of "Get all tasks", shared by the page query and the
    count query.  The values that the query string gives are compared as
    the database compares them. *)
Definition task_list_where (a : Actor) (q : TaskQuery)
  (r : TaskRow * option ProjectRow) : bool :=
  task_role_filter a r
  && (if truthy (tq_status q)
      then sql_equal platform (t_status (fst r)) (tq_status q) else true)
  && (if truthy (tq_priority q)
      then sql_equal platform (t_priority (fst r)) (tq_priority q) else true)
  && (if truthy (tq_project_id q)
      then sql_equal platform (t_project_id (fst r)) (tq_project_id q) else true)
  && (if truthy (tq_assigned_to q)
      then opt_sql_equal (t_assigned_to (fst r)) (tq_assigned_to q) else true)
  && (if truthy (tq_search q)
      then sql_like platform (t_title (fst r)) (tq_search q)
           || sql_like platform (t_description (fst r)) (tq_search q)
      else true).

(** Get all tasks: [router.get('/')] *)
Definition tasks_get_all (a : Actor) (q : TaskQuery) : Handler :=
  (rows <- query (fun db =>
     paginate (tq_page q) (tq_limit q)
       (order_by task_before
          (filter (task_list_where a q) (tasks_join_projects db)))) ;;
   total <- query (fun db =>
     count (filter (task_list_where a q) (tasks_join_projects db))) ;;
   reply (json "" (TaskList (map fst rows) total)))%handler.

(** Get task by ID: [router.get('/:id')] *)
Definition tasks_get_by_id (a : Actor) (id : Id) : Handler :=
  (rows <- query (fun db =>
     filter (fun r => id_eqb (t_id (fst r)) id && task_role_filter a r)
            (tasks_join_projects db)) ;;
   match rows with
   | [] => reply (mkResponse 404 "Task not found or access denied" NoData)
   | r :: _ => reply (json "" (TaskOne (fst r)))
   end)%handler.

(** The two reference checks shared by create and update:
    [if (assigned_to) ..] and [if (category_id) ..]. *)
Definition check_assigned_to (o : option Id) : M unit :=
  match o with
  | Some x =>
      if truthy x then
        (found <- query (fun db =>
           filter (fun u => id_eqb (u_id u) x && u_is_active u) (users db)) ;;
         stop_if (is_empty found)
           (mkResponse 400 "Assigned user not found or inactive" NoData))%handler
      else ret tt
  | None => ret tt
  end.

Definition check_category_id (o : option Id) : M unit :=
  match o with
  | Some x =>
      if truthy x then
        (found <- query (fun db =>
           filter (fun c => id_eqb (c_id c) x) (categories db)) ;;
         stop_if (is_empty found) (mkResponse 400 "Category not found" NoData))%handler
      else ret tt
  | None => ret tt
  end.

(** The permission checks of the task routes. *)
Definition canEdit (a : Actor) (task : TaskRow * option ProjectRow) : bool :=
  role_eqb (a_role a) Admin
  || id_eqb (t_created_by (fst task)) (a_id a)
  || opt_is (t_assigned_to (fst task)) (a_id a)
  || opt_is (project_owner task) (a_id a).

Definition canDelete (a : Actor) (task : TaskRow * option ProjectRow) : bool :=
  role_eqb (a_role a) Admin
  || id_eqb (t_created_by (fst task)) (a_id a)
  || opt_is (project_owner task) (a_id a).

Definition canUpload (a : Actor) (task : TaskRow * option ProjectRow) : bool :=
  role_eqb (a_role a) Admin
  || id_eqb (t_created_by (fst task)) (a_id a)
  || opt_is (t_assigned_to (fst task)) (a_id a)
  || opt_is (project_owner task) (a_id a).

(** The check query of the task writes:
    [SELECT t.id, t.created_by, t.assigned_to, p.created_by as project_owner
     FROM tasks t LEFT JOIN projects p ON t.project_id = p.id WHERE t.id = ?] *)
Definition task_check_query (id : Id) (db : Db) : list (TaskRow * option ProjectRow) :=
  filter (fun r => id_eqb (t_id (fst r)) id) (tasks_join_projects db).

Definition select_task (id : Id) (db : Db) : list TaskRow :=
  filter (fun t => id_eqb (t_id t) id) (tasks db).

Definition task_statuses : list string :=
  ["todo"; "in_progress"; "review"; "completed"].

Definition priorities : list string := ["low"; "medium"; "high"; "critical"].

(** The columns of tasks that take a value of the body: title VARCHAR(200),
    description TEXT, status ENUM, priority ENUM, due_date DATE,
    estimated_hours DECIMAL(8,2). *)
Definition task_values_fit (title description status priority : string)
  (due_date estimated_hours : option string) : bool :=
  stores platform (VARCHAR 200) title
  && stores platform TEXT description
  && stores platform (ENUM task_statuses) status
  && stores platform (ENUM priorities) priority
  && stores_opt platform DATE due_date
  && stores_opt platform (DECIMAL 8 2) estimated_hours.

(** Every member that the UPDATE of a task binds is there. *)
Definition task_body_defined (b : TaskBody) : bool :=
  is_some (b_assigned_to b) && is_some (b_category_id b)
  && truthy (b_status b) && truthy (b_priority b)
  && is_some (b_due_date b) && is_some (b_estimated_hours b).

(** Create task: the handler of [router.post('/')].  The INSERT binds
    [assigned_to], [category_id], [due_date] and [estimated_hours] as the
    body has them, [status || 'todo'] and [priority || 'medium']. *)
Definition tasks_create (a : Actor) (now : Z) (taskId : Id) (b : TaskBody) : Handler :=
  (found <- query (fun db =>
     filter (fun p => id_eqb (p_id p) (b_project_id b)
                      && match a_role a with
                         | User => id_eqb (p_created_by p) (a_id a)
                         | _ => true
                         end) (projects db)) ;;
   stop_if (is_empty found)
     (mkResponse 404 "Project not found or access denied" NoData) ;;;
   check_assigned_to (b_assigned_to b) ;;;
   check_category_id (b_category_id b) ;;;
   execute (sent
     (is_some (b_assigned_to b) && is_some (b_category_id b)
      && is_some (b_due_date b) && is_some (b_estimated_hours b))
     (task_values_fit (b_title b) (b_description b)
        (if truthy (b_status b) then b_status b else "todo")
        (if truthy (b_priority b) then b_priority b else "medium")
        (b_due_date b) (b_estimated_hours b))
     (insert_task
     (mkTask taskId (b_title b) (b_description b) (b_project_id b)
        (b_assigned_to b) (b_category_id b)
        (if truthy (b_status b) then b_status b else "todo")
        (if truthy (b_priority b) then b_priority b else "medium")
        (b_due_date b) (b_estimated_hours b) (a_id a) now now))) ;;;
   task <- query (select_task taskId) ;;
   reply (mkResponse 201 "Task created successfully"
            match task with r :: _ => TaskOne r | [] => NoData end))%handler.

(** Update task: the handler of [router.put('/:id')].  The UPDATE binds the
    nine members as the body has them. *)
Definition tasks_update (a : Actor) (now : Z) (id : Id) (b : TaskBody) : Handler :=
  (found <- query (task_check_query id) ;;
   match found with
   | [] => reply (mkResponse 404 "Task not found" NoData)
   | task :: _ =>
       stop_if (negb (canEdit a task)) (mkResponse 403 "Access denied" NoData) ;;;
       ps <- query (fun db =>
         filter (fun p => id_eqb (p_id p) (b_project_id b)) (projects db)) ;;
       stop_if (is_empty ps) (mkResponse 400 "Project not found" NoData) ;;;
       check_assigned_to (b_assigned_to b) ;;;
       check_category_id (b_category_id b) ;;;
       execute (sent (task_body_defined b)
         (task_values_fit (b_title b) (b_description b) (b_status b) (b_priority b)
            (b_due_date b) (b_estimated_hours b))
         (update_tasks_where_id id
         (fun db => has_project db (b_project_id b)
                    && opt_ref (has_user db) (b_assigned_to b)
                    && opt_ref (has_category db) (b_category_id b))
         (fun t =>
         mkTask (t_id t) (b_title b) (b_description b) (b_project_id b)
           (b_assigned_to b) (b_category_id b) (b_status b) (b_priority b)
           (b_due_date b) (b_estimated_hours b) (t_created_by t)
           (t_created_at t) now))) ;;;
       updated <- query (select_task id) ;;
       reply (json "Task updated successfully"
                match updated with r :: _ => TaskOne r | [] => NoData end)
   end)%handler.

(** Update task status only: [router.patch('/:id/status')] *)
Definition tasks_update_status (a : Actor) (now : Z) (id : Id) (new_status : string)
  : Handler :=
  (stop_if (negb (existsb (String.eqb new_status) task_statuses))
     (mkResponse 400 "Invalid status" NoData) ;;;
   found <- query (task_check_query id) ;;
   match found with
   | [] => reply (mkResponse 404 "Task not found" NoData)
   | task :: _ =>
       stop_if (negb (canEdit a task)) (mkResponse 403 "Access denied" NoData) ;;;
       execute (update_tasks_where_id id (fun _ => true) (fun t =>
         mkTask (t_id t) (t_title t) (t_description t) (t_project_id t)
           (t_assigned_to t) (t_category_id t) new_status (t_priority t)
           (t_due_date t) (t_estimated_hours t) (t_created_by t)
           (t_created_at t) now)) ;;;
       reply (json "Task status updated successfully" NoData)
   end)%handler.

(** Delete task: [router.delete('/:id')] *)
Definition tasks_delete (a : Actor) (id : Id) : Handler :=
  (found <- query (task_check_query id) ;;
   match found with
   | [] => reply (mkResponse 404 "Task not found" NoData)
   | task :: _ =>
       stop_if (negb (canDelete a task)) (mkResponse 403 "Access denied" NoData) ;;;
       execute (delete_tasks_where_id id) ;;;
       reply (json "Task deleted successfully" NoData)
   end)%handler.

(** The columns of project_files and task_files that take a value of the
    upload: filename and original_name VARCHAR(255), file_path VARCHAR(500),
    file_size INT, mimetype VARCHAR(100). *)
Definition file_values_fit (f : UploadedFile) : bool :=
  stores platform (VARCHAR 255) (filename f)
  && stores platform (VARCHAR 255) (originalname f)
  && stores platform (VARCHAR 500) (path f)
  && (- 2 ^ 31 <=? size f) && (size f <? 2 ^ 31)
  && stores platform (VARCHAR 100) (mimetype f).

(** [for (const file of req.files) { await db.execute(INSERT ..) }]: each
    INSERT is a statement of its own, so the rows written before a failing
    INSERT stay. *)
Fixpoint save_files (insert : FileRow -> Db -> Err + Db) (owner uploader : Id)
  (now : Z) (files : list UploadedFile) : M unit :=
  match files with
  | [] => ret tt
  | f :: rest =>
      (execute (sent true (file_values_fit f)
                  (insert (mkFile (file_uuid f) owner (filename f) (originalname f)
                             (path f) (size f) (mimetype f) uploader now))) ;;;
       save_files insert owner uploader now rest)%handler
  end.

Definition decimal (n : nat) : string := NilZero.string_of_uint (Nat.to_uint n).

(** Upload files to task: the handler of [router.post('/:id/upload')] *)
Definition tasks_upload (a : Actor) (now : Z) (id : Id) (files : list UploadedFile)
  : Handler :=
  (found <- query (task_check_query id) ;;
   match found with
   | [] => reply (mkResponse 404 "Task not found" NoData)
   | task :: _ =>
       stop_if (negb (canUpload a task)) (mkResponse 403 "Access denied" NoData) ;;;
       stop_if (is_empty files) (mkResponse 400 "No files uploaded" NoData) ;;;
       save_files insert_task_file id (a_id a) now files ;;;
       reply (json (decimal (List.length files)
                    ++ " file(s) uploaded successfully to task")
                (Uploaded id (map file_uuid files)))
   end)%handler.

(** ** routes/projects.js: the project routes *)

Record ProjectQuery : Type := mkProjectQuery {
  pq_page : positive;
  pq_limit : positive;
  pq_status : string;
  pq_priority : string;
  pq_search : string
}.

(** [req.body] of "Create project" and "Update project".  [name] and
    [description] are taken as given; the empty string stands for a [status]
    or [priority] that is left out; the dates and the budget may be left
    out, [null] or given. *)
Record ProjectBody : Type := mkProjectBody {
  pb_name : string;
  pb_description : string;
  pb_status : string;
  pb_priority : string;
  pb_start_date : Member string;
  pb_end_date : Member string;
  pb_budget : Member string
}.

(** [if (req.user.role === 'user')
      AND (p.created_by = ? OR p.id IN
           (SELECT DISTINCT project_id FROM tasks WHERE assigned_to = ?))] *)
Definition project_role_filter (a : Actor) (db : Db) (p : ProjectRow) : bool :=
  match a_role a with
  | User =>
      id_eqb (p_created_by p) (a_id a)
      || existsb (id_eqb (p_id p))
           (map t_project_id
              (filter (fun t => opt_is (t_assigned_to t) (a_id a)) (tasks db)))
  | _ => true
  end.

Definition project_list_where (a : Actor) (q : ProjectQuery) (db : Db)
  (p : ProjectRow) : bool :=
  project_role_filter a db p
  && (if truthy (pq_status q)
      then sql_equal platform (p_status p) (pq_status q) else true)
  && (if truthy (pq_priority q)
      then sql_equal platform (p_priority p) (pq_priority q) else true)
  && (if truthy (pq_search q)
      then sql_like platform (p_name p) (pq_search q)
           || sql_like platform (p_description p) (pq_search q)
      else true).

(** [ORDER BY p.created_at DESC] *)
Definition project_before (x y : ProjectRow) : bool :=
  p_created_at y <=? p_created_at x.

(** [ORDER BY t.priority DESC, t.created_at DESC] on plain task rows *)
Definition plain_task_before (x y : TaskRow) : bool :=
  (priority_index (t_priority y) <? priority_index (t_priority x))
  || ((priority_index (t_priority y) =? priority_index (t_priority x))
      && (t_created_at y <=? t_created_at x)).

(** Get all projects: [router.get('/')] *)
Definition projects_get_all (a : Actor) (q : ProjectQuery) : Handler :=
  (rows <- query (fun db =>
     paginate (pq_page q) (pq_limit q)
       (order_by project_before
          (filter (project_list_where a q db) (projects db)))) ;;
   total <- query (fun db =>
     count (filter (project_list_where a q db) (projects db))) ;;
   reply (json "" (ProjectList rows total)))%handler.

(** Get project by ID: [router.get('/:id')] *)
Definition projects_get_by_id (a : Actor) (id : Id) : Handler :=
  (rows <- query (fun db =>
     filter (fun p => id_eqb (p_id p) id && project_role_filter a db p)
            (projects db)) ;;
   match rows with
   | [] => reply (mkResponse 404 "Project not found or access denied" NoData)
   | project :: _ =>
       its_tasks <- query (fun db =>
         order_by plain_task_before
           (filter (fun t => id_eqb (t_project_id t) id) (tasks db))) ;;
       reply (json "" (ProjectOne project its_tasks))
   end)%handler.

Definition select_project (id : Id) (db : Db) : list ProjectRow :=
  filter (fun p => id_eqb (p_id p) id) (projects db).

Definition project_statuses : list string :=
  ["planning"; "active"; "completed"; "cancelled"].

(** Every member that the INSERT and the UPDATE of a project bind is there
    ([status], [priority], the dates and the budget; [null] is there). *)
Definition project_body_defined (b : ProjectBody) : bool :=
  truthy (pb_status b) && truthy (pb_priority b)
  && negb (is_omitted (pb_start_date b)) && negb (is_omitted (pb_end_date b))
  && negb (is_omitted (pb_budget b)).

(** The columns of projects that take a value of the body: name
    VARCHAR(200), description TEXT, status ENUM, priority ENUM, start_date
    and end_date DATE, budget DECIMAL(15,2). *)
Definition project_values_fit (b : ProjectBody) : bool :=
  stores platform (VARCHAR 200) (pb_name b)
  && stores platform TEXT (pb_description b)
  && stores platform (ENUM project_statuses) (pb_status b)
  && stores platform (ENUM priorities) (pb_priority b)
  && stores_opt platform DATE (member_value (pb_start_date b))
  && stores_opt platform DATE (member_value (pb_end_date b))
  && stores_opt platform (DECIMAL 15 2) (member_value (pb_budget b)).

(** Create project: the handler of [router.post('/')] *)
Definition projects_create_handler (a : Actor) (now : Z) (projectId : Id)
  (b : ProjectBody) : Handler :=
  (execute (sent (project_body_defined b) (project_values_fit b)
     (insert_project
     (mkProject projectId (pb_name b) (pb_description b) (pb_status b)
        (pb_priority b) (member_value (pb_start_date b))
        (member_value (pb_end_date b)) (member_value (pb_budget b))
        (a_id a) now now))) ;;;
   project <- query (select_project projectId) ;;
   reply (mkResponse 201 "Project created successfully"
            match project with p :: _ => ProjectOne p [] | [] => NoData end))%handler.

(** "Create project" behind [authorizeRoles('admin', 'manager')] *)
Definition projects_create (a : Actor) (now : Z) (projectId : Id) (b : ProjectBody)
  : Handler :=
  authorizeRoles [Admin; Manager] a (projects_create_handler a now projectId b).

(** The check query of the project writes:
    [SELECT id, created_by FROM projects WHERE id = ?] and, for a manager,
    [AND created_by = ?]. *)
Definition project_check_query (a : Actor) (id : Id) (db : Db) : list ProjectRow :=
  filter (fun p => id_eqb (p_id p) id
                   && match a_role a with
                      | Manager => id_eqb (p_created_by p) (a_id a)
                      | _ => true
                      end) (projects db).

(** Update project: the handler of [router.put('/:id')] *)
Definition projects_update_handler (a : Actor) (now : Z) (id : Id) (b : ProjectBody)
  : Handler :=
  (found <- query (project_check_query a id) ;;
   stop_if (is_empty found)
     (mkResponse 404 "Project not found or access denied" NoData) ;;;
   execute (sent (project_body_defined b) (project_values_fit b)
     (update_projects_where_id id (fun p =>
     mkProject (p_id p) (pb_name b) (pb_description b) (pb_status b)
       (pb_priority b) (member_value (pb_start_date b))
       (member_value (pb_end_date b)) (member_value (pb_budget b))
       (p_created_by p) (p_created_at p) now))) ;;;
   updated <- query (select_project id) ;;
   reply (json "Project updated successfully"
            match updated with p :: _ => ProjectOne p [] | [] => NoData end))%handler.

(** "Update project" behind [authorizeRoles('admin', 'manager')] *)
Definition projects_update (a : Actor) (now : Z) (id : Id) (b : ProjectBody)
  : Handler :=
  authorizeRoles [Admin; Manager] a (projects_update_handler a now id b).

(** Delete project: [router.delete('/:id')] behind
    [authorizeRoles('admin', 'manager')] *)
Definition projects_delete (a : Actor) (id : Id) : Handler :=
  authorizeRoles [Admin; Manager] a
  (found <- query (project_check_query a id) ;;
   stop_if (is_empty found)
     (mkResponse 404 "Project not found or access denied" NoData) ;;;
   n <- query (fun db =>
     count (filter (fun t => id_eqb (t_project_id t) id) (tasks db))) ;;
   stop_if (0 <? n)
     (mkResponse 400
        "Cannot delete project with existing tasks. Please delete or reassign tasks first."
        NoData) ;;;
   execute (delete_projects_where_id id) ;;;
   reply (json "Project deleted successfully" NoData))%handler.

(** Get project statistics: [router.get('/:id/stats')] *)
Definition projects_stats (a : Actor) (id : Id) : Handler :=
  (access <- query (fun db =>
     filter (fun p => id_eqb (p_id p) id && project_role_filter a db p)
            (projects db)) ;;
   stop_if (is_empty access)
     (mkResponse 404 "Project not found or access denied" NoData) ;;;
   its_tasks <- query (fun db =>
     filter (fun t => id_eqb (t_project_id t) id) (tasks db)) ;;
   reply (json "" (ProjectStats its_tasks)))%handler.

(** Upload project files: the handler of [router.post('/:id/upload')] *)
Definition projects_upload_handler (a : Actor) (now : Z) (id : Id)
  (files : list UploadedFile) : Handler :=
  (found <- query (project_check_query a id) ;;
   stop_if (is_empty found)
     (mkResponse 404 "Project not found or access denied" NoData) ;;;
   stop_if (is_empty files) (mkResponse 400 "No files uploaded" NoData) ;;;
   save_files insert_project_file id (a_id a) now files ;;;
   reply (json (decimal (List.length files) ++ " file(s) uploaded successfully")
            (Uploaded id (map file_uuid files))))%handler.

(** "Upload project files" behind [authorizeRoles('admin', 'manager')] *)
Definition projects_upload (a : Actor) (now : Z) (id : Id)
  (files : list UploadedFile) : Handler :=
  authorizeRoles [Admin; Manager] a (projects_upload_handler a now id files).

(** ** routes/projects.js: the user routes *)

Record UserQuery : Type := mkUserQuery {
  uq_page : positive;
  uq_limit : positive;
  uq_search : string;
  uq_role : string
}.

Definition role_name (r : Role) : string :=
  match r with
  | Admin => "admin"
  | Manager => "manager"
  | User => "user"
  end.

Definition user_list_where (q : UserQuery) (u : UserRow) : bool :=
  (if truthy (uq_search q)
   then sql_like platform (u_name u) (uq_search q)
        || sql_like platform (u_email u) (uq_search q)
   else true)
  && (if truthy (uq_role q)
      then sql_equal platform (role_name (u_role u)) (uq_role q) else true).

(** [ORDER BY created_at DESC] *)
Definition user_before (x y : UserRow) : bool := u_created_at y <=? u_created_at x.

Definition select_user (id : Id) (db : Db) : list UserRow :=
  filter (fun u => id_eqb (u_id u) id) (users db).

(** Get all users (admin/manager only): [router.get('/')] *)
Definition users_get_all (a : Actor) (q : UserQuery) : Handler :=
  authorizeRoles [Admin; Manager] a
  (rows <- query (fun db =>
     paginate (uq_page q) (uq_limit q)
       (order_by user_before (filter (user_list_where q) (users db)))) ;;
   total <- query (fun db => count (filter (user_list_where q) (users db))) ;;
   reply (json "" (UserList rows total)))%handler.

(** Get user by ID: [router.get('/:id')] *)
Definition users_get_by_id (a : Actor) (id : Id) : Handler :=
  (stop_if (negb (id_eqb (a_id a) id)
            && negb (existsb (role_eqb (a_role a)) [Admin; Manager]))
     (mkResponse 403 "Access denied" NoData) ;;;
   found <- query (select_user id) ;;
   match found with
   | [] => reply (mkResponse 404 "User not found" NoData)
   | u :: _ => reply (json "" (UserOne u))
   end)%handler.

(** The body of "Update user"; an empty string and [None] stand for a
    member that is missing or falsy.  A [role] that is given is one of the
    three roles.  The UPDATE sets the columns whose member is there: name
    VARCHAR(100), email VARCHAR(191), role. *)
Record UserBody : Type := mkUserBody {
  ub_name : string;
  ub_email : string;
  ub_role : option Role
}.

(** Update user: [router.put('/:id')] *)
Definition users_update (a : Actor) (now : Z) (id : Id) (b : UserBody) : Handler :=
  (stop_if (negb (id_eqb (a_id a) id) && negb (role_eqb (a_role a) Admin))
     (mkResponse 403 "Access denied" NoData) ;;;
   stop_if (is_some (ub_role b) && negb (role_eqb (a_role a) Admin))
     (mkResponse 403 "Only admins can change user roles" NoData) ;;;
   found <- query (select_user id) ;;
   stop_if (is_empty found) (mkResponse 404 "User not found" NoData) ;;;
   stop_if (negb (truthy (ub_name b)) && negb (truthy (ub_email b))
            && negb (is_some (ub_role b) && role_eqb (a_role a) Admin))
     (mkResponse 400 "No valid updates provided" NoData) ;;;
   _ <- execute_rows (sent true
     ((if truthy (ub_name b) then stores platform (VARCHAR 100) (ub_name b) else true)
      && (if truthy (ub_email b) then stores platform (VARCHAR 191) (ub_email b)
          else true))
     (update_users_where_id id (fun u =>
     mkUser (u_id u)
       (if truthy (ub_name b) then ub_name b else u_name u)
       (if truthy (ub_email b) then ub_email b else u_email u)
       (u_password u)
       (match ub_role b with
        | Some r => if role_eqb (a_role a) Admin then r else u_role u
        | None => u_role u
        end)
       (u_is_active u) (u_avatar_url u) (u_created_at u) now (u_last_login u)))) ;;
   updated <- query (select_user id) ;;
   reply (json "User updated successfully"
            match updated with u :: _ => UserOne u | [] => NoData end))%handler.

(** Update user password: [router.patch('/:id/password')] *)
Definition users_update_password (a : Actor) (now : Z) (id : Id)
  (currentPassword newPassword : string) : Handler :=
  (stop_if (negb (id_eqb (a_id a) id) && negb (role_eqb (a_role a) Admin))
     (mkResponse 403 "Access denied" NoData) ;;;
   stop_if (negb (truthy newPassword) || (js_length newPassword <? 8)%nat)
     (mkResponse 400 "New password must be at least 8 characters long" NoData) ;;;
   found <- query (select_user id) ;;
   match found with
   | [] => reply (mkResponse 404 "User not found" NoData)
   | u :: _ =>
       (if negb (role_eqb (a_role a) Admin)
        then
          stop_if (negb (truthy currentPassword))
            (mkResponse 400 "Current password is required" NoData) ;;;
          stop_if (negb (bcrypt_compare platform currentPassword (u_password u)))
            (mkResponse 400 "Current password is incorrect" NoData)
        else ret tt) ;;;
       _ <- execute_rows (update_users_where_id id (fun u =>
         mkUser (u_id u) (u_name u) (u_email u) (bcrypt_hash platform newPassword)
           (u_role u) (u_is_active u) (u_avatar_url u) (u_created_at u) now
           (u_last_login u))) ;;
       reply (json "Password updated successfully" NoData)
   end)%handler.

Definition set_is_active (v : bool) (now : Z) (u : UserRow) : UserRow :=
  mkUser (u_id u) (u_name u) (u_email u) (u_password u) (u_role u) v
    (u_avatar_url u) (u_created_at u) now (u_last_login u).

(** Deactivate user (admin only): [router.patch('/:id/deactivate')] *)
Definition users_deactivate (a : Actor) (now : Z) (id : Id) : Handler :=
  authorizeRoles [Admin] a
  (stop_if (id_eqb (a_id a) id)
     (mkResponse 400 "Cannot deactivate your own account" NoData) ;;;
   affectedRows <- execute_rows (update_users_where_id id (set_is_active false now)) ;;
   stop_if (affectedRows =? 0) (mkResponse 404 "User not found" NoData) ;;;
   reply (json "User deactivated successfully" NoData))%handler.

(** Activate user (admin only): [router.patch('/:id/activate')] *)
Definition users_activate (a : Actor) (now : Z) (id : Id) : Handler :=
  authorizeRoles [Admin] a
  (affectedRows <- execute_rows (update_users_where_id id (set_is_active true now)) ;;
   stop_if (affectedRows =? 0) (mkResponse 404 "User not found" NoData) ;;;
   reply (json "User activated successfully" NoData))%handler.

(** Delete user (admin only): [router.delete('/:id')] *)
Definition users_delete (a : Actor) (id : Id) : Handler :=
  authorizeRoles [Admin] a
  (stop_if (id_eqb (a_id a) id)
     (mkResponse 400 "Cannot delete your own account" NoData) ;;;
   np <- query (fun db =>
     count (filter (fun p => id_eqb (p_created_by p) id) (projects db))) ;;
   nt <- query (fun db =>
     count (filter (fun t => id_eqb (t_created_by t) id) (tasks db))) ;;
   stop_if ((0 <? np) || (0 <? nt))
     (mkResponse 400
        "Cannot delete user who has created projects or tasks. Please reassign them first."
        NoData) ;;;
   affectedRows <- execute_rows (delete_users_where_id id) ;;
   stop_if (affectedRows =? 0) (mkResponse 404 "User not found" NoData) ;;;
   reply (json "User deleted successfully" NoData))%handler.

(** Get user statistics (admin/manager only): [router.get('/:id/stats')] *)
Definition users_stats (a : Actor) (id : Id) : Handler :=
  authorizeRoles [Admin; Manager] a
  (found <- query (select_user id) ;;
   match found with
   | [] => reply (mkResponse 404 "User not found" NoData)
   | u :: _ => reply (json "" (UserStats u))
   end)%handler.

(** Upload user avatar: the handler of [router.post('/:id/avatar')];
    avatar_url is VARCHAR(500). *)
Definition users_avatar (a : Actor) (now : Z) (id : Id) (file : option UploadedFile)
  : Handler :=
  (stop_if (negb (id_eqb (a_id a) id) && negb (role_eqb (a_role a) Admin))
     (mkResponse 403 "Access denied" NoData) ;;;
   found <- query (select_user id) ;;
   stop_if (is_empty found) (mkResponse 404 "User not found" NoData) ;;;
   match file with
   | None => reply (mkResponse 400 "No avatar file uploaded" NoData)
   | Some f =>
       _ <- execute_rows (sent true
         (stores platform (VARCHAR 500) ("/uploads/avatars/" ++ filename f))
         (update_users_where_id id (fun u =>
         mkUser (u_id u) (u_name u) (u_email u) (u_password u) (u_role u)
           (u_is_active u) (Some ("/uploads/avatars/" ++ filename f))
           (u_created_at u) now (u_last_login u)))) ;;
       reply (json "Avatar uploaded successfully" (Uploaded id [file_uuid f]))
   end)%handler.

(** ** routes/categories.js *)

(** [req.body] of "Create category" and "Update category".  [name] and
    [description] are taken as given; the empty string stands for a [color]
    that is left out. *)
Record CategoryBody : Type := mkCategoryBody {
  cb_name : string;
  cb_description : string;
  cb_color : string
}.

(** [ORDER BY c.name ASC] *)
Definition category_before (x y : CategoryRow) : bool :=
  String.leb (c_name x) (c_name y).

Definition select_category (id : Id) (db : Db) : list CategoryRow :=
  filter (fun c => id_eqb (c_id c) id) (categories db).

(** Get all categories: [router.get('/')] *)
Definition categories_get_all (a : Actor) : Handler :=
  (rows <- query (fun db => order_by category_before (categories db)) ;;
   reply (json "" (CategoryList rows)))%handler.

(** Get category by ID: [router.get('/:id')] *)
Definition categories_get_by_id (a : Actor) (id : Id) : Handler :=
  (found <- query (select_category id) ;;
   match found with
   | [] => reply (mkResponse 404 "Category not found" NoData)
   | category :: _ =>
       its_tasks <- query (fun db =>
         order_by (fun x y : TaskRow => t_created_at y <=? t_created_at x)
           (filter (fun t => opt_is (t_category_id t) id) (tasks db))) ;;
       reply (json "" (CategoryOne category its_tasks))
   end)%handler.

(** The columns of categories that take a value of the body: name
    VARCHAR(100), description TEXT, color VARCHAR(7). *)
Definition category_values_fit (b : CategoryBody) : bool :=
  stores platform (VARCHAR 100) (cb_name b)
  && stores platform TEXT (cb_description b)
  && stores platform (VARCHAR 7) (cb_color b).

(** Create category: the handler of [router.post('/')] *)
Definition categories_create_handler (a : Actor) (now : Z) (categoryId : Id)
  (b : CategoryBody) : Handler :=
  (execute (sent (truthy (cb_color b)) (category_values_fit b)
     (insert_category
     (mkCategory categoryId (cb_name b) (cb_description b) (cb_color b) now now))) ;;;
   category <- query (select_category categoryId) ;;
   reply (mkResponse 201 "Category created successfully"
            match category with c :: _ => CategoryOne c [] | [] => NoData end))%handler.

(** "Create category" behind [authorizeRoles('admin', 'manager')] *)
Definition categories_create (a : Actor) (now : Z) (categoryId : Id)
  (b : CategoryBody) : Handler :=
  authorizeRoles [Admin; Manager] a (categories_create_handler a now categoryId b).

(** Update category: the handler of [router.put('/:id')] *)
Definition categories_update_handler (a : Actor) (now : Z) (id : Id)
  (b : CategoryBody) : Handler :=
  (found <- query (select_category id) ;;
   stop_if (is_empty found) (mkResponse 404 "Category not found" NoData) ;;;
   execute (sent (truthy (cb_color b)) (category_values_fit b)
     (update_categories_where_id id (fun c =>
     mkCategory (c_id c) (cb_name b) (cb_description b) (cb_color b)
       (c_created_at c) now))) ;;;
   updated <- query (select_category id) ;;
   reply (json "Category updated successfully"
            match updated with c :: _ => CategoryOne c [] | [] => NoData end))%handler.

(** "Update category" behind [authorizeRoles('admin', 'manager')] *)
Definition categories_update (a : Actor) (now : Z) (id : Id) (b : CategoryBody)
  : Handler :=
  authorizeRoles [Admin; Manager] a (categories_update_handler a now id b).

(** Delete category: [router.delete('/:id')] behind
    [authorizeRoles('admin', 'manager')] *)
Definition categories_delete (a : Actor) (id : Id) : Handler :=
  authorizeRoles [Admin; Manager] a
  (found <- query (select_category id) ;;
   stop_if (is_empty found) (mkResponse 404 "Category not found" NoData) ;;;
   n <- query (fun db =>
     count (filter (fun t => opt_is (t_category_id t) id) (tasks db))) ;;
   stop_if (0 <? n)
     (mkResponse 400
        "Cannot delete category that is being used by tasks. Please reassign tasks first."
        NoData) ;;;
   execute (delete_categories_where_id id) ;;;
   reply (json "Category deleted successfully" NoData))%handler.

(** ** routes/auth.js: login and refresh *)

(** The access token of login and of refresh:
    [jwt.sign({ userId, email, role }, JWT_SECRET, { expiresIn: JWT_EXPIRES_IN })] *)
Definition sign_access (env : Env) (u : UserRow) (now : Z) : Token :=
  jwt_sign (mkPayload (u_id u) (Some (u_email u)) (Some (u_role u)))
    (JWT_SECRET env) (JWT_EXPIRES_IN env) now.

(** The refresh token of login:
    [jwt.sign({ userId }, REFRESH_TOKEN_SECRET, { expiresIn: '7d' })] *)
Definition sign_refresh (env : Env) (u : UserRow) (now : Z) : Token :=
  jwt_sign (mkPayload (u_id u) None None) (REFRESH_TOKEN_SECRET env) seven_days now.

(** Login: the handler of [router.post('/login')].  The email of the body
    is compared as the database compares it. *)
Definition auth_login (env : Env) (now : Z) (login_email password : string) : Handler :=
  (found <- query (fun db =>
     filter (fun u => sql_equal platform (u_email u) login_email) (users db)) ;;
   match found with
   | [] => reply (mkResponse 401 "Invalid credentials" NoData)
   | u :: _ =>
       stop_if (negb (u_is_active u))
         (mkResponse 401 "Account is deactivated" NoData) ;;;
       stop_if (negb (bcrypt_compare platform password (u_password u)))
         (mkResponse 401 "Invalid credentials" NoData) ;;;
       _ <- execute_rows (update_users_where_id (u_id u) (fun r =>
         mkUser (u_id r) (u_name r) (u_email r) (u_password r) (u_role r)
           (u_is_active r) (u_avatar_url r) (u_created_at r) now (Some now))) ;;
       reply (json "Login successful"
                (LoginData u (sign_access env u now) (sign_refresh env u now)))
   end)%handler.

(** Refresh token: [router.post('/refresh')]; what [jwt.verify] throws is
    answered by [errorHandler]. *)
Definition auth_refresh (env : Env) (now : Z) (refreshToken : option Token) : Handler :=
  match refreshToken with
  | None => reply (mkResponse 401 "Refresh token required" NoData)
  | Some t =>
      match jwt_verify t (REFRESH_TOKEN_SECRET env) now with
      | inl e => reply (errorHandler e)
      | inr decoded =>
          (found <- query (fun db =>
             filter (fun u => id_eqb (u_id u) (userId decoded) && u_is_active u)
                    (users db)) ;;
           match found with
           | [] => reply (mkResponse 401 "Invalid refresh token" NoData)
           | u :: _ => reply (json "" (AccessTokenData (sign_access env u now)))
           end)%handler
      end
  end.

(** ** One request to the API *)

Inductive Request : Type :=
| GetTasks (q : TaskQuery)
| GetTask (id : Id)
| CreateTask (taskId : Id) (b : TaskBody)
| UpdateTask (id : Id) (b : TaskBody)
| UpdateTaskStatus (id : Id) (new_status : string)
| DeleteTask (id : Id)
| UploadTaskFiles (id : Id) (files : list UploadedFile)
| GetProjects (q : ProjectQuery)
| GetProject (id : Id)
| CreateProject (projectId : Id) (b : ProjectBody)
| UpdateProject (id : Id) (b : ProjectBody)
| DeleteProject (id : Id)
| GetProjectStats (id : Id)
| UploadProjectFiles (id : Id) (files : list UploadedFile)
| GetUsers (q : UserQuery)
| GetUser (id : Id)
| UpdateUser (id : Id) (b : UserBody)
| UpdateUserPassword (id : Id) (currentPassword newPassword : string)
| DeactivateUser (id : Id)
| ActivateUser (id : Id)
| DeleteUser (id : Id)
| GetUserStats (id : Id)
| UploadUserAvatar (id : Id) (file : option UploadedFile)
| GetCategories
| GetCategory (id : Id)
| CreateCategory (categoryId : Id) (b : CategoryBody)
| UpdateCategory (id : Id) (b : CategoryBody)
| DeleteCategory (id : Id).

(** The handler a request of an authenticated caller is routed to, at time
    [now], behind the role check of its route.  The validation and upload
    middleware that some routes put in front of the handler is in
    [endpoint], below. *)
Definition route (a : Actor) (now : Z) (r : Request) : Handler :=
  match r with
  | GetTasks q => tasks_get_all a q
  | GetTask id => tasks_get_by_id a id
  | CreateTask taskId b => tasks_create a now taskId b
  | UpdateTask id b => tasks_update a now id b
  | UpdateTaskStatus id s => tasks_update_status a now id s
  | DeleteTask id => tasks_delete a id
  | UploadTaskFiles id files => tasks_upload a now id files
  | GetProjects q => projects_get_all a q
  | GetProject id => projects_get_by_id a id
  | CreateProject projectId b => projects_create a now projectId b
  | UpdateProject id b => projects_update a now id b
  | DeleteProject id => projects_delete a id
  | GetProjectStats id => projects_stats a id
  | UploadProjectFiles id files => projects_upload a now id files
  | GetUsers q => users_get_all a q
  | GetUser id => users_get_by_id a id
  | UpdateUser id b => users_update a now id b
  | UpdateUserPassword id cur new => users_update_password a now id cur new
  | DeactivateUser id => users_deactivate a now id
  | ActivateUser id => users_activate a now id
  | DeleteUser id => users_delete a id
  | GetUserStats id => users_stats a id
  | UploadUserAvatar id file => users_avatar a now id file
  | GetCategories => categories_get_all a
  | GetCategory id => categories_get_by_id a id
  | CreateCategory categoryId b => categories_create a now categoryId b
  | UpdateCategory id b => categories_update a now id b
  | DeleteCategory id => categories_delete a id
  end.

Definition handle (a : Actor) (now : Z) (r : Request) (db : Db) : Response * Db :=
  run (route a now r) db.

(** ** middleware/validation.js *)

(** What [validateRequest] and [handleValidationErrors] answer; the
    [errors] member of the answer is not recorded. *)
Definition validation_error : Response := mkResponse 400 "Validation error" NoData.

(** [validateRequest(schema)], given whether [schema.validate(req.body)]
    reports no error.  The value that Joi returns, with its defaults filled
    in, is dropped: the handler reads the body as it came. *)
Definition validateRequest (valid : bool) (next : Handler) : Handler :=
  if valid then next else reply validation_error.

(** [handleValidationErrors], given whether the chains of express-validator
    in front of it recorded no error. *)
Definition handleValidationErrors (valid : bool) (next : Handler) : Handler :=
  if valid then next else reply validation_error.

(** A character of a pattern: [[0-9a-f]], [-], [[1-5]], [[89ab]] and [#],
    under the flag [i]. *)
Inductive CharClass : Type := Hex | Dash | Version | Variant | Hash.

Definition between (lo hi c : Ascii.ascii) : bool :=
  (Ascii.nat_of_ascii lo <=? Ascii.nat_of_ascii c)%nat
  && (Ascii.nat_of_ascii c <=? Ascii.nat_of_ascii hi)%nat.

Definition in_class (k : CharClass) (c : Ascii.ascii) : bool :=
  match k with
  | Hex => between "0" "9" c || between "a" "f" c || between "A" "F" c
  | Dash => Ascii.eqb c "-"
  | Version => between "1" "5" c
  | Variant => existsb (Ascii.eqb c) ["8"; "9"; "a"; "b"; "A"; "B"]%char
  | Hash => Ascii.eqb c "#"
  end.

(** A pattern [^..$] of one character class per position. *)
Fixpoint matches_shape (shape : list CharClass) (s : list Ascii.ascii) : bool :=
  match shape, s with
  | [], [] => true
  | k :: shape', c :: s' => in_class k c && matches_shape shape' s'
  | _, _ => false
  end.

(** [/^[0-9a-f]{8}-[0-9a-f]{4}-[1-5][0-9a-f]{3}-[89ab][0-9a-f]{3}-[0-9a-f]{12}$/i] *)
Definition uuidPattern (s : string) : bool :=
  matches_shape
    (repeat Hex 8 ++ [Dash] ++ repeat Hex 4 ++ [Dash] ++ [Version] ++ repeat Hex 3
     ++ [Dash] ++ [Variant] ++ repeat Hex 3 ++ [Dash] ++ repeat Hex 12)%list
    (list_ascii_of_string s).

(** [.optional()]: the chain is skipped for a member that is left out. *)
Definition optional {A} (check : A -> bool) (o : option A) : bool :=
  match o with
  | Some v => check v
  | None => true
  end.

Definition optional_string (check : string -> bool) (s : string) : bool :=
  if truthy s then check s else true.

Definition is_in (values : list string) (s : string) : bool :=
  existsb (String.eqb s) values.

(** [validationRules.createTask] *)
Definition createTask (now : Z) (b : TaskBody) : bool :=
  isLength platform 2 200 (trim platform (b_title b))
  && isLength platform 0 1000 (trim platform (b_description b))
  && uuidPattern (b_project_id b)
  && optional uuidPattern (b_assigned_to b)
  && optional uuidPattern (b_category_id b)
  && optional_string (is_in task_statuses) (b_status b)
  && optional_string (is_in priorities) (b_priority b)
  && optional (fun d => isISO8601 platform d && negb (date_is_past platform d now))
       (b_due_date b)
  && optional (isFloat platform "0.1" "1000") (b_estimated_hours b).

(** The body after the chains: [.trim()] writes the trimmed title and
    description back to [req.body]. *)
Definition sanitized (b : TaskBody) : TaskBody :=
  mkTaskBody (trim platform (b_title b)) (trim platform (b_description b))
    (b_project_id b) (b_assigned_to b) (b_category_id b) (b_status b)
    (b_priority b) (b_due_date b) (b_estimated_hours b).

(** [validationRules.validateUUID] *)
Definition validateUUID (id : Id) : bool := uuidPattern id.

(** [Joi.string().min(a).max(b)]: the length is [value.length]. *)
Definition joi_string (min max : nat) (s : string) : bool :=
  (min <=? js_length s)%nat && (js_length s <=? max)%nat.

(** [.allow(null)] on a member that is not required. *)
Definition allow_null {A} (check : A -> bool) (m : Member A) : bool :=
  match m with
  | Given v => check v
  | _ => true
  end.

(** [schemas.project] *)
Definition schemas_project (b : ProjectBody) : bool :=
  joi_string 2 200 (pb_name b)
  && (js_length (pb_description b) <=? 1000)%nat
  && optional_string (is_in project_statuses) (pb_status b)
  && optional_string (is_in priorities) (pb_priority b)
  && allow_null (joi_date platform) (pb_start_date b)
  && allow_null (fun e => joi_date platform e
                          && joi_date_min platform (pb_start_date b) e)
       (pb_end_date b)
  && allow_null (joi_positive platform) (pb_budget b).

(** [schemas.category]; the pattern of [color] is [/^#[0-9A-F]{6}$/i]. *)
Definition schemas_category (b : CategoryBody) : bool :=
  joi_string 2 100 (cb_name b)
  && (js_length (cb_description b) <=? 500)%nat
  && optional_string
       (fun c => matches_shape (Hash :: repeat Hex 6) (list_ascii_of_string c))
       (cb_color b).

(** [schemas.login] *)
Definition schemas_login (login_email password : string) : bool :=
  joi_email platform login_email && truthy password.

(** The part of a string that [.*] at its start can run over: up to the
    first line terminator (LF, CR, U+2028 or U+2029, the last two being
    E2 80 A8 and E2 80 A9 in UTF-8). *)
Fixpoint first_line (s : list Ascii.ascii) : list Ascii.ascii :=
  match s with
  | [] => []
  | c :: rest =>
      if Ascii.eqb c "010" || Ascii.eqb c "013" then []
      else match rest with
           | c1 :: c2 :: _ =>
               if Ascii.eqb c "226" && Ascii.eqb c1 "128"
                  && (Ascii.eqb c2 "168" || Ascii.eqb c2 "169")
               then [] else c :: first_line rest
           | _ => c :: first_line rest
           end
  end.

(** ['^(?=.*[a-z])(?=.*[A-Z])(?=.*[0-9])(?=.*[!@#$%^&*])'] *)
Definition password_pattern (s : string) : bool :=
  let line := first_line (list_ascii_of_string s) in
  existsb (between "a" "z") line
  && existsb (between "A" "Z") line
  && existsb (between "0" "9") line
  && existsb (fun c => existsb (Ascii.eqb c)
                         ["!"; "@"; "#"; "$"; "%"; "^"; "&"; "*"]%char) line.

(** [schemas.register]; a [role] that is given is one of the three roles. *)
Definition schemas_register (name login_email password : string) : bool :=
  joi_string 2 100 name
  && joi_email platform login_email
  && (8 <=? js_length password)%nat && password_pattern password.

(** ** middleware/upload.js *)

(** [allowedTypes[file.mimetype]]: the eight own members of the object are
    [true]; the members it inherits from [Object.prototype] are objects
    and functions, which are truthy as well. *)
Definition allowedTypes : list string :=
  [ "image/jpeg"; "image/jpg"; "image/png"; "image/gif"; "application/pdf";
    "application/msword";
    "application/vnd.openxmlformats-officedocument.wordprocessingml.document";
    "text/plain" ].

Definition object_prototype : list string :=
  [ "constructor"; "__defineGetter__"; "__defineSetter__"; "hasOwnProperty";
    "__lookupGetter__"; "__lookupSetter__"; "isPrototypeOf";
    "propertyIsEnumerable"; "toString"; "valueOf"; "__proto__";
    "toLocaleString" ].

Definition fileFilter (f : UploadedFile) : bool :=
  is_in allowedTypes (mimetype f) || is_in object_prototype (mimetype f).

(** [limits: { fileSize: 5 * 1024 * 1024, files: 5 }] *)
Definition fileSize : Z := 5 * 1024 * 1024.

Inductive UploadError : Type :=
| LIMIT_FILE_SIZE
| LIMIT_FILE_COUNT
| InvalidFileType.

(** multer takes the parts of the request in their order and stops at the
    first one it refuses: a file beyond the [left] files that the limit
    still allows, a file that [fileFilter] refuses, a file over the size
    limit. *)
Fixpoint multer (left : nat) (files : list UploadedFile) : option UploadError :=
  match files with
  | [] => None
  | f :: rest =>
      match left with
      | O => Some LIMIT_FILE_COUNT
      | S left' =>
          if negb (fileFilter f) then Some InvalidFileType
          else if negb (within_fileSize platform (size f) fileSize)
               then Some LIMIT_FILE_SIZE
               else multer left' rest
      end
  end.

(** [handleUploadError] on the three errors above. *)
Definition handleUploadError (e : UploadError) : Response :=
  match e with
  | LIMIT_FILE_SIZE => mkResponse 400 "File too large. Maximum size is 5MB." NoData
  | LIMIT_FILE_COUNT =>
      mkResponse 400 "Too many files. Maximum 5 files allowed." NoData
  | InvalidFileType =>
      mkResponse 400 "Invalid file type. Allowed: JPEG, PNG, GIF, PDF, DOC, DOCX, TXT"
        NoData
  end.

(** [uploadMultiple, handleUploadError]; [uploadMultiple] is
    [upload.array('files', 5)]. *)
Definition uploadMultiple (files : list UploadedFile) (next : Handler) : Handler :=
  match multer 5 files with
  | Some e => reply (handleUploadError e)
  | None => next
  end.

(** [uploadAvatar, handleUploadError]; [uploadAvatar] is
    [upload.single('avatar')]. *)
Definition uploadAvatar (file : option UploadedFile) (next : Handler) : Handler :=
  match multer 5 (match file with Some f => [f] | None => [] end) with
  | Some e => reply (handleUploadError e)
  | None => next
  end.

(** ** The routes with their middleware *)

(** What stands between [authenticateToken] and the answer of a route: the
    callbacks of its [router.METHOD(..)] in their order. *)
Definition endpoint (a : Actor) (now : Z) (r : Request) : Handler :=
  match r with
  | CreateTask taskId b =>
      handleValidationErrors (createTask now b)
        (tasks_create a now taskId (sanitized b))
  | UpdateTask id b =>
      handleValidationErrors (validateUUID id && createTask now b)
        (tasks_update a now id (sanitized b))
  | UploadTaskFiles id files =>
      handleValidationErrors (validateUUID id)
        (uploadMultiple files (tasks_upload a now id files))
  | CreateProject projectId b =>
      authorizeRoles [Admin; Manager] a
        (validateRequest (schemas_project b)
           (projects_create_handler a now projectId b))
  | UpdateProject id b =>
      authorizeRoles [Admin; Manager] a
        (validateRequest (schemas_project b) (projects_update_handler a now id b))
  | UploadProjectFiles id files =>
      authorizeRoles [Admin; Manager] a
        (handleValidationErrors (validateUUID id)
           (uploadMultiple files (projects_upload_handler a now id files)))
  | UploadUserAvatar id file =>
      handleValidationErrors (validateUUID id)
        (uploadAvatar file (users_avatar a now id file))
  | CreateCategory categoryId b =>
      authorizeRoles [Admin; Manager] a
        (validateRequest (schemas_category b)
           (categories_create_handler a now categoryId b))
  | UpdateCategory id b =>
      authorizeRoles [Admin; Manager] a
        (validateRequest (schemas_category b) (categories_update_handler a now id b))
  | _ => route a now r
  end.

(** The answer of the API to a request of an authenticated caller, and the
    store it leaves. *)
Definition serve (a : Actor) (now : Z) (r : Request) (db : Db) : Response * Db :=
  run (endpoint a now r) db.

(** [router.post('/login', validateRequest(schemas.login), ..)] *)
Definition login (env : Env) (now : Z) (login_email password : string) : Handler :=
  validateRequest (schemas_login login_email password)
    (auth_login env now login_email password).

End Routes.

(** Modelled from the spec: [authenticateToken] of middleware/auth.js, which
    is not among the sources.  [verify_access] is a signature and expiry
    check under [JWT_SECRET] that does not touch the store and yields the
    actor (id and role) the token carries, or [InvalidToken], or [Expired]. *)
Inductive AuthError : Type := InvalidToken | Expired.

Definition verify_access (env : Env) (t : Token) (now : Z) : AuthError + Actor :=
  match jwt_verify t (JWT_SECRET env) now with
  | inl e =>
      if String.eqb (err_name e) "TokenExpiredError" then inl Expired
      else inl InvalidToken
  | inr p =>
      match role p with
      | Some r => inr (mkActor (userId p) r)
      | None => inl InvalidToken
      end
  end.

(** [issue(subject, role)] of the token service: the two tokens login
    signs for a user row. *)
Definition issue (env : Env) (u : UserRow) (now : Z) : Token * Token :=
  (sign_access env u now, sign_refresh env u now).

(** ** Reading the answers of the list routes *)

Definition task_rows (d : Data) : list TaskRow :=
  match d with
  | TaskList rows _ => rows
  | _ => []
  end.

Definition project_rows (d : Data) : list ProjectRow :=
  match d with
  | ProjectList rows _ => rows
  | _ => []
  end.

(** The list queries with no filter of the caller's own: only the role
    filter narrows them. *)
Definition all_tasks (page limit : positive) : TaskQuery :=
  mkTaskQuery page limit "" "" "" "" "".

Definition all_projects (page limit : positive) : ProjectQuery :=
  mkProjectQuery page limit "" "" "".

(** ** The target of a request and the checks in front of its lookup *)


Definition admin_or_manager (a : Actor) : bool :=
  existsb (role_eqb (a_role a)) [Admin; Manager].

Definition self_or_admin (a : Actor) (id : Id) : bool :=
  id_eqb (a_id a) id || role_eqb (a_role a) Admin.

(** The validation and upload middleware of the route lets the request
    through. *)
Definition accepted (pf : Platform) (now : Z) (r : Request) : bool :=
  match r with
  | CreateTask _ b => createTask pf now b
  | UpdateTask id b => validateUUID id && createTask pf now b
  | UploadTaskFiles id files | UploadProjectFiles id files =>
      validateUUID id && negb (is_some (multer pf 5 files))
  | UploadUserAvatar id file =>
      validateUUID id
      && negb (is_some (multer pf 5 (match file with Some f => [f] | None => [] end)))
  | CreateProject _ b | UpdateProject _ b => schemas_project pf b
  | CreateCategory _ b | UpdateCategory _ b => schemas_category b
  | _ => true
  end.

(** The request as its handler reads it. *)
Definition as_handled (pf : Platform) (r : Request) : Request :=
  match r with
  | CreateTask taskId b => CreateTask taskId (sanitized pf b)
  | UpdateTask id b => UpdateTask id (sanitized pf b)
  | _ => r
  end.

(** The id a write names is in no row of its table, as the [=] of the
    database compares ids. *)
Definition target_missing (pf : Platform) (db : Db) (r : Request) : bool :=
  match r with
  | UpdateTask id _ | UpdateTaskStatus id _ | DeleteTask id
  | UploadTaskFiles id _ =>
      negb (existsb (fun t => sql_equal pf (t_id t) id) (tasks db))
  | UpdateProject id _ | DeleteProject id | UploadProjectFiles id _ =>
      negb (existsb (fun p => sql_equal pf (p_id p) id) (projects db))
  | UpdateCategory id _ | DeleteCategory id =>
      negb (existsb (fun c => sql_equal pf (c_id c) id) (categories db))
  | UpdateUser id _ | UpdateUserPassword id _ _ | DeactivateUser id
  | ActivateUser id | DeleteUser id | UploadUserAvatar id _ =>
      negb (existsb (fun u => sql_equal pf (u_id u) id) (users db))
  | _ => false
  end.

(** The caller and the request pass whatever the route of a write puts
    before it looks its target up.  The middleware: [validateUUID] and
    [createTask] for the update of a task, [validateUUID] and multer for the
    uploads, the role check and then the schema for the update of a project
    or a category.  In the handler: nothing for the task writes but the
    status value of a status change; the self-or-admin test (and the
    password length) for update, password and avatar of a user; the test
    against the caller's own id for deactivate and delete behind their
    admin check, and for delete also the count of the rows the user
    created. *)
Definition lookup_comes_first (pf : Platform) (a : Actor) (now : Z) (db : Db)
  (r : Request) : bool :=
  accepted pf now r
  && match r with
     | UpdateTask _ _ | DeleteTask _ | UploadTaskFiles _ _ => true
     | UpdateTaskStatus _ s => existsb (String.eqb s) task_statuses
     | UpdateProject _ _ | DeleteProject _ | UploadProjectFiles _ _
     | UpdateCategory _ _ | DeleteCategory _ => admin_or_manager a
     | UpdateUser id b =>
         self_or_admin a id
         && (negb (is_some (ub_role b)) || role_eqb (a_role a) Admin)
     | UpdateUserPassword id _ newPassword =>
         self_or_admin a id && truthy newPassword
         && (8 <=? js_length newPassword)%nat
     | UploadUserAvatar id _ => self_or_admin a id
     | DeactivateUser id => role_eqb (a_role a) Admin && negb (id_eqb (a_id a) id)
     | ActivateUser _ => role_eqb (a_role a) Admin
     | DeleteUser id =>
         role_eqb (a_role a) Admin && negb (id_eqb (a_id a) id)
         && negb (existsb (fun p => sql_equal pf (p_created_by p) id) (projects db))
         && negb (existsb (fun t => sql_equal pf (t_created_by t) id) (tasks db))
     | _ => false
     end.

(** ** The rows that hold a delete back *)

(** The count that the delete routes of projects, categories and users
    test before their DELETE: the tasks of the project, the tasks that use
    the category, the projects and tasks the user created. *)
Definition dependents (db : Db) (r : Request) : Z :=
  match r with
  | DeleteProject id =>
      count (filter (fun t => id_eqb (t_project_id t) id) (tasks db))
  | DeleteCategory id =>
      count (filter (fun t => opt_is (t_category_id t) id) (tasks db))
  | DeleteUser id =>
      count (filter (fun p => id_eqb (p_created_by p) id) (projects db))
      + count (filter (fun t => id_eqb (t_created_by t) id) (tasks db))
  | _ => 0
  end.

(** ** Reasoning about handlers

    [wp m Stop Go db]: run from [db], the computation [m] either answers
    with a response and a final store that satisfy [Stop], or goes on with
    a value and a store that satisfy [Go]. *)
Definition wp {A} (m : M A) (Stop : Response -> Db -> Prop) (Go : A -> Db -> Prop)
  (db : Db) : Prop :=
  match m db with
  | (inl r, db') => Stop r db'
  | (inr x, db') => Go x db'
  end.

(** ** A small store used in the examples *)

Module Sample.

Definition lower (s : string) : string :=
  string_of_list_ascii
    (map (fun c => let n := Ascii.nat_of_ascii c in
                   if (65 <=? n)%nat && (n <=? 90)%nat
                   then Ascii.ascii_of_nat (n + 32) else c)
         (list_ascii_of_string s)).

Definition contains (part s : string) : bool :=
  match String.index 0 part s with
  | Some _ => true
  | None => false
  end.

(** A server and libraries to run the examples on: comparisons that fold
    the case of the letters A to Z, lengths in bytes, dates of ten
    characters. *)
Definition platform : Platform :=
  mkPlatform
    (fun col pat => contains pat col)
    (fun plain hashed => String.eqb ("bcrypt:" ++ plain) hashed)
    (fun plain => "bcrypt:" ++ plain)
    (fun a b => String.eqb (lower a) (lower b))
    (fun c v =>
       match c with
       | VARCHAR n => (String.length v <=? n)%nat
       | TEXT => true
       | ENUM values => existsb (String.eqb v) values
       | DATE => (String.length v =? 10)%nat
       | DECIMAL _ _ => negb (String.eqb v "")
       end)
    (fun s => s)
    (fun min max s => (min <=? String.length s)%nat && (String.length s <=? max)%nat)
    (fun d => (String.length d =? 10)%nat)
    (fun _ _ v => negb (String.eqb v ""))
    (fun d _ => String.ltb d "2025-01-01")
    (fun e => contains "@" e && negb (contains ".local" e))
    (fun d => (String.length d =? 10)%nat)
    (fun start e => match start with Given s => String.leb s e | _ => true end)
    (fun v => negb (String.eqb v "") && negb (contains "-" v))
    (fun size limit => size <=? limit).

Definition env : Env := mkEnv "access-secret" "refresh-secret" (24 * 60 * 60).

(** A user named [n]: the password is the name. *)
Definition person (n : string) (id : Id) (r : Role) (active : bool) : UserRow :=
  mkUser id n (n ++ "@example.com") ("bcrypt:" ++ n) r active None 0 0 None.

Definition root_id : Id := "a0000000-0000-4000-8000-000000000000".
Definition m1_id : Id := "a0000000-0000-4000-8000-0000000000a1".
Definition m2_id : Id := "a0000000-0000-4000-8000-0000000000a2".
Definition u1_id : Id := "a0000000-0000-4000-8000-000000000001".
Definition u2_id : Id := "a0000000-0000-4000-8000-000000000002".
Definition u3_id : Id := "a0000000-0000-4000-8000-000000000003".
Definition u4_id : Id := "a0000000-0000-4000-8000-000000000004".
Definition p1_id : Id := "b0000000-0000-4000-8000-000000000001".
Definition p2_id : Id := "b0000000-0000-4000-8000-000000000002".
Definition p3_id : Id := "b0000000-0000-4000-8000-000000000003".
Definition t1_id : Id := "c0000000-0000-4000-8000-000000000001".
Definition t2_id : Id := "c0000000-0000-4000-8000-000000000002".
Definition cat1_id : Id := "d0000000-0000-4000-8000-000000000001".

(** Ids that are in no row. *)
Definition ghost : Id := "ffffffff-ffff-4fff-8fff-ffffffffffff".
Definition fresh : Id := "e0000000-0000-4000-8000-000000000009".

Definition root : UserRow := person "root" root_id Admin true.
Definition m1 : UserRow := person "m1" m1_id Manager true.
Definition m2 : UserRow := person "m2" m2_id Manager true.
Definition u1 : UserRow := person "u1" u1_id User true.
Definition u2 : UserRow := person "u2" u2_id User true.
Definition u3 : UserRow := person "u3" u3_id User true.
Definition u4 : UserRow := person "u4" u4_id User false.

Definition p1 : ProjectRow :=
  mkProject p1_id "Website" "" "active" "high" None None None u1_id 10 10.
Definition p2 : ProjectRow :=
  mkProject p2_id "Backoffice" "" "planning" "medium" None None None m1_id 11 11.
Definition p3 : ProjectRow :=
  mkProject p3_id "Archive" "" "planning" "low" None None None m2_id 12 12.

Definition t1 : TaskRow :=
  mkTask t1_id "Landing page" "" p1_id (Some u2_id) (Some cat1_id) "todo" "high"
    None None m1_id 20 20.
Definition t2 : TaskRow :=
  mkTask t2_id "Invoices" "" p2_id None None "todo" "medium" None None m1_id 21 21.

(** A category made through the API and one of the default data. *)
Definition cat1 : CategoryRow := mkCategory cat1_id "Design" "" "#e74c3c" 1 1.
Definition cat2 : CategoryRow := mkCategory "cat-2" "Backend" "" "#3498db" 1 1.

Definition db : Db :=
  mkDb [root; m1; m2; u1; u2; u3; u4] [cat1; cat2] [p1; p2; p3] [t1; t2] [] [].

Definition actor (u : UserRow) : Actor := mkActor (u_id u) (u_role u).

Definition body : TaskBody :=
  mkTaskBody "Landing page v2" "" p1_id (Some u2_id) (Some cat1_id) "review" "high"
    (Some "2030-01-01") (Some "8").

Definition project_body : ProjectBody :=
  mkProjectBody "Renamed" "" "active" "high" Null Null Null.

End Sample.


(** ** Readers used by the further properties *)

Definition is_upload (r : Request) : bool :=
  match r with
  | UploadTaskFiles _ _ | UploadProjectFiles _ _ => true
  | _ => false
  end.

(** Every task and project of [db'] either was in [db] under the same id
    with the same creator, or is new and was created by the caller. *)
Definition creators_kept (a : Actor) (db db' : Db) : Prop :=
  (forall t', In t' (tasks db') ->
     (exists t, In t (tasks db) /\ t_id t = t_id t'
                /\ t_created_by t = t_created_by t')
     \/ (has_task db (t_id t') = false /\ t_created_by t' = a_id a))
  /\ (forall p', In p' (projects db') ->
        (exists p, In p (projects db) /\ p_id p = p_id p'
                   /\ p_created_by p = p_created_by p')
        \/ (has_project db (p_id p') = false /\ p_created_by p' = a_id a)).

(** Between [db] and [db'] no user row changed its id, role or active
    flag, the rows of ids other than the caller's are as they were, and the
    five other tables are as they were. *)
Definition own_row_only (a : Actor) (db db' : Db) : Prop :=
  Forall2 (fun u u' => u_id u' = u_id u /\ u_role u' = u_role u
                       /\ u_is_active u' = u_is_active u
                       /\ (u_id u <> a_id a -> u' = u))
          (users db) (users db')
  /\ tasks db' = tasks db /\ projects db' = projects db
  /\ categories db' = categories db
  /\ project_files db' = project_files db /\ task_files db' = task_files db.

(** users.email is UNIQUE: no two rows have one email, nor two emails that
    the database takes as equal. *)
Definition emails_unique (pf : Platform) (db : Db) : Prop :=
  NoDup (map u_email (users db))
  /\ forall v w, In v (users db) -> In w (users db) ->
       sql_equal pf (u_email v) (u_email w) = true -> u_email v = u_email w.

(** What a failed answer must satisfy: the store it leaves is the store it
    found.  An upload that an INSERT of its loop stopped with 409 or 500 is
    left out. *)
Definition left_as_found (r : Request) (db : Db) (rd : Response * Db) : Prop :=
  status (fst rd) <> 200 -> status (fst rd) <> 201 ->
  (is_upload r = true -> status (fst rd) <> 409 /\ status (fst rd) <> 500) ->
  snd rd = db.

(** [data.pagination.total] of a list answer. *)
Definition list_total (d : Data) : Z :=
  match d with
  | TaskList _ n | ProjectList _ n | UserList _ n => n
  | _ => 0
  end.

Definition user_rows (d : Data) : list UserRow :=
  match d with
  | UserList rows _ => rows
  | _ => []
  end.

(** The same query for another page. *)
Definition task_page (q : TaskQuery) (k : positive) : TaskQuery :=
  mkTaskQuery k (tq_limit q) (tq_status q) (tq_priority q) (tq_project_id q)
    (tq_assigned_to q) (tq_search q).

Definition project_page (q : ProjectQuery) (k : positive) : ProjectQuery :=
  mkProjectQuery k (pq_limit q) (pq_status q) (pq_priority q) (pq_search q).

(** What a client collects that asks for the pages 1, 2, .., n in turn. *)
Definition walk {A} (page : positive -> list A) (n : nat) : list A :=
  List.concat (map (fun k => page (Pos.of_nat k)) (seq 1 n)).

(** The order of [ORDER BY t.priority DESC, t.created_at DESC] and of
    [ORDER BY p.created_at DESC]. *)
Definition task_order (x y : TaskRow) : Prop :=
  priority_index (t_priority y) < priority_index (t_priority x)
  \/ (priority_index (t_priority y) = priority_index (t_priority x)
      /\ t_created_at y <= t_created_at x).

Definition project_order (x y : ProjectRow) : Prop :=
  p_created_at y <= p_created_at x.


(** The sample store with a second task in project p1, assigned to u3. *)
Module Shared.

Definition t3_id : Id := "c0000000-0000-4000-8000-000000000003".

Definition t3 : TaskRow :=
  mkTask t3_id "Checkout" "" Sample.p1_id (Some Sample.u3_id) None "todo" "low" None None Sample.m1_id 22 22.

Definition db : Db := set_tasks Sample.db (tasks Sample.db ++ [t3])%list.

End Shared.

(** ** routes/auth.js: register *)

(** [INSERT INTO users (id, name, email, password, role) VALUES (..)]:
    id is the primary key and email is UNIQUE; is_active defaults to true,
    created_at and updated_at to CURRENT_TIMESTAMP, avatar_url and
    last_login to NULL. *)
Definition new_user (id : Id) (name email hashed : string) (r : Role) (now : Z)
  : UserRow :=
  mkUser id name email hashed r true None now now None.

Definition insert_user (r : UserRow) (db : Db) : Err + Db :=
  if has_user db (u_id r)
     || existsb (fun u => String.eqb (u_email u) (u_email r)) (users db)
  then inl ER_DUP_ENTRY
  else inr (set_users db (users db ++ [r])%list).

Definition role_or_user (r : option Role) : Role :=
  match r with
  | Some x => x
  | None => User
  end.

(** Register: the handler of [router.post('/register')], in front of which
    stands no [authenticateToken].  [r] is the [role] of the body, [None]
    when the body has none: the default of [schemas.register] does not
    reach the handler, which binds [undefined].  name is VARCHAR(100) and
    email VARCHAR(191).  The email of the body is compared as the database
    compares it. *)
Definition auth_register (pf : Platform) (now : Z) (userId : Id)
  (name email password : string) (r : option Role) : Handler :=
  (existingUsers <- query (fun db =>
     filter (fun u => sql_equal pf (u_email u) email) (users db)) ;;
   stop_if (negb (is_empty existingUsers))
     (mkResponse 409 "Email already registered" NoData) ;;;
   execute (sent (is_some r)
     (stores pf (VARCHAR 100) name && stores pf (VARCHAR 191) email)
     (insert_user
     (new_user userId name email (bcrypt_hash pf password) (role_or_user r) now))) ;;;
   reply (mkResponse 201 "User registered successfully"
            (UserOne (new_user userId name email (bcrypt_hash pf password)
                        (role_or_user r) now))))%handler.

(** [router.post('/register', validateRequest(schemas.register), ..)] *)
Definition register (pf : Platform) (now : Z) (userId : Id)
  (name email password : string) (r : option Role) : Handler :=
  validateRequest (schemas_register pf name email password)
    (auth_register pf now userId name email password r).

(** ** migrations/migrate.js: the default data *)

Definition defaultCategories : list (Id * string * string * string) :=
  [ ("cat-1", "Frontend", "Frontend development tasks", "#e74c3c");
    ("cat-2", "Backend", "Backend development tasks", "#3498db");
    ("cat-3", "Database", "Database related tasks", "#f39c12");
    ("cat-4", "Testing", "Testing and QA tasks", "#27ae60");
    ("cat-5", "Documentation", "Documentation tasks", "#9b59b6");
    ("cat-6", "Bug Fix", "Bug fixing tasks", "#e67e22");
    ("cat-7", "Feature", "New feature development", "#1abc9c");
    ("cat-8", "Maintenance", "Maintenance and refactoring", "#34495e") ].

(** [INSERT IGNORE INTO categories ..]: a row that breaks a key is left
    out. *)
Definition insert_ignore_category (r : CategoryRow) (db : Db) : Db :=
  match insert_category r db with
  | inl _ => db
  | inr db' => db'
  end.

(** [insertDefaultData()]: the categories when the table is empty, the
    admin when no user has the role admin.  The [catch] logs an exception
    and goes on, so a failed insert of the admin leaves what was written
    before it. *)
Definition insertDefaultData (pf : Platform) (now : Z) (adminId : Id) (db : Db)
  : Db :=
  let db :=
    if count (categories db) =? 0
    then fold_left (fun d c =>
           match c with
           | (id, name, description, color) =>
               insert_ignore_category (mkCategory id name description color now now) d
           end) defaultCategories db
    else db in
  if count (filter (fun u => role_eqb (u_role u) Admin) (users db)) =? 0
  then match insert_user
               (new_user adminId "System Admin" "admin@system.local"
                  (bcrypt_hash pf "Admin@123") Admin now) db with
       | inl _ => db
       | inr db' => db'
       end
  else db.

(** ** The schema of migrations/migrate.js as a property of the store *)




(** The task_files row of an uploaded file. *)
Definition task_file_row (a : Actor) (now : Z) (id : Id) (f : UploadedFile)
  : FileRow :=
  mkFile (file_uuid f) id (filename f) (originalname f) (path f) (size f)
    (mimetype f) (a_id a) now.

(** [UPDATE users SET last_login = CURRENT_TIMESTAMP WHERE id = ?] on a
    row. *)
Definition logged_in (now : Z) (r : UserRow) : UserRow :=
  mkUser (u_id r) (u_name r) (u_email r) (u_password r) (u_role r)
    (u_is_active r) (u_avatar_url r) (u_created_at r) now (Some now).

(** ** The tables a route writes *)

Inductive Table : Type :=
| UsersT | CategoriesT | ProjectsT | TasksT | ProjectFilesT | TaskFilesT.

Definition rows_kept (t : Table) (db db' : Db) : Prop :=
  match t with
  | UsersT => users db' = users db
  | CategoriesT => categories db' = categories db
  | ProjectsT => projects db' = projects db
  | TasksT => tasks db' = tasks db
  | ProjectFilesT => project_files db' = project_files db
  | TaskFilesT => task_files db' = task_files db
  end.

(** The tables of the INSERT, UPDATE and DELETE statements of a route,
    with the tables its DELETE reaches through ON DELETE CASCADE and SET
    NULL when the checks of the handler have let it through. *)
Definition written_by (r : Request) : list Table :=
  match r with
  | CreateTask _ _ | UpdateTask _ _ | UpdateTaskStatus _ _ => [TasksT]
  | DeleteTask _ => [TasksT; TaskFilesT]
  | UploadTaskFiles _ _ => [TaskFilesT]
  | CreateProject _ _ | UpdateProject _ _ => [ProjectsT]
  | DeleteProject _ => [ProjectsT; ProjectFilesT]
  | UploadProjectFiles _ _ => [ProjectFilesT]
  | UpdateUser _ _ | UpdateUserPassword _ _ _ | DeactivateUser _
  | ActivateUser _ | UploadUserAvatar _ _ => [UsersT]
  | DeleteUser _ => [UsersT; TasksT]
  | CreateCategory _ _ | UpdateCategory _ _ | DeleteCategory _ => [CategoriesT]
  | GetTasks _ | GetTask _ | GetProjects _ | GetProject _ | GetProjectStats _
  | GetUsers _ | GetUser _ | GetUserStats _ | GetCategories | GetCategory _ => []
  end.



(** * Properties *)

(** ** Reading the handlers *)

Lemma id_eqb_eq (x y : Id) : id_eqb x y = true <-> x = y.
Proof. unfold id_eqb. apply String.eqb_eq. Qed.

Lemma id_eqb_refl (x : Id) : id_eqb x x = true.
Proof. apply id_eqb_eq. reflexivity. Qed.

Lemma opt_is_eq (o : option Id) (x : Id) : opt_is o x = true <-> o = Some x.
Proof.
  destruct o as [y|]; simpl.
  - rewrite id_eqb_eq. split; [intros ->; reflexivity | intros [= ->]; reflexivity].
  - split; discriminate.
Qed.

Lemma role_eqb_eq (r s : Role) : role_eqb r s = true <-> r = s.
Proof. destruct r, s; simpl; split; (reflexivity || discriminate). Qed.

Lemma filter_nil_iff {A} (f : A -> bool) (l : list A) :
  filter f l = [] <-> existsb f l = false.
Proof.
  induction l as [|x l IH]; simpl; [tauto|].
  destruct (f x); simpl; [split; discriminate | exact IH].
Qed.

(** [errorHandler] answers 400, 401, 409 or 500. *)
Lemma errorHandler_status (e : Err) :
  status (errorHandler e) = 400 \/ status (errorHandler e) = 401
  \/ status (errorHandler e) = 409 \/ status (errorHandler e) = 500.
Proof.
  unfold errorHandler.
  destruct (String.eqb (err_name e) "JsonWebTokenError");
    destruct (String.eqb (err_code e) "ER_NO_REFERENCED_ROW_2");
    destruct (String.eqb (err_code e) "ER_DUP_ENTRY"); simpl; auto.
Qed.

Lemma errorHandler_not_403 (e : Err) : status (errorHandler e) <> 403.
Proof. destruct (errorHandler_status e) as [H|[H|[H|H]]]; rewrite H; discriminate. Qed.


Lemma errorHandler_not_200 (e : Err) : status (errorHandler e) <> 200.
Proof. destruct (errorHandler_status e) as [H|[H|[H|H]]]; rewrite H; discriminate. Qed.

(** ** Rules of [wp] *)

Lemma wp_ret {A} (Stop : Response -> Db -> Prop) (Go : A -> Db -> Prop) db (x : A) :
  Go x db -> wp (ret x) Stop Go db.
Proof. intros H. exact H. Qed.

Lemma wp_reply {A} (Stop : Response -> Db -> Prop) (Go : A -> Db -> Prop) db r :
  Stop r db -> wp (reply r) Stop Go db.
Proof. intros H. exact H. Qed.

Lemma wp_query {A} (Stop : Response -> Db -> Prop) (Go : A -> Db -> Prop) db
  (f : Db -> A) :
  Go (f db) db -> wp (query f) Stop Go db.
Proof. intros H. exact H. Qed.

Lemma wp_bind {A B} (Stop : Response -> Db -> Prop) (Go : B -> Db -> Prop) db
  (m : M A) (f : A -> M B) :
  wp m Stop (fun x db' => wp (f x) Stop Go db') db -> wp (bind m f) Stop Go db.
Proof.
  unfold wp, bind. destruct (m db) as [[r|x] db']; intros H; exact H.
Qed.

Lemma wp_stop_if (Stop : Response -> Db -> Prop) (Go : unit -> Db -> Prop) db
  (c : bool) (r : Response) :
  (c = true -> Stop r db) -> (c = false -> Go tt db) ->
  wp (stop_if c r) Stop Go db.
Proof.
  unfold stop_if. destruct c; intros H1 H2.
  - apply wp_reply, H1. reflexivity.
  - apply wp_ret, H2. reflexivity.
Qed.

Lemma wp_execute (Stop : Response -> Db -> Prop) (Go : unit -> Db -> Prop) db
  (f : Db -> Err + Db) :
  (forall e, f db = inl e -> Stop (errorHandler e) db) ->
  (forall db', f db = inr db' -> Go tt db') ->
  wp (execute f) Stop Go db.
Proof.
  unfold wp, execute. destruct (f db) as [e|db']; intros H1 H2; auto.
Qed.

Lemma wp_execute_rows (Stop : Response -> Db -> Prop) (Go : Z -> Db -> Prop) db
  (f : Db -> Err + (Z * Db)) :
  (forall e, f db = inl e -> Stop (errorHandler e) db) ->
  (forall n db', f db = inr (n, db') -> Go n db') ->
  wp (execute_rows f) Stop Go db.
Proof.
  unfold wp, execute_rows. destruct (f db) as [e|[n db']]; intros H1 H2; auto.
Qed.

Lemma wp_run (h : Handler) (db : Db) (P : Response * Db -> Prop) :
  wp h (fun r db' => P (r, db')) (fun _ _ => False) db -> P (run h db).
Proof.
  unfold wp, run. destruct (h db) as [[r|e] db']; [auto | destruct e].
Qed.

Lemma wp_authorizeRoles (allowed : list Role) (a : Actor) (h : Handler)
  (Stop : Response -> Db -> Prop) (Go : Empty_set -> Db -> Prop) (db : Db) :
  (existsb (role_eqb (a_role a)) allowed = false ->
   Stop (mkResponse 403 "Insufficient permissions" NoData) db) ->
  (existsb (role_eqb (a_role a)) allowed = true -> wp h Stop Go db) ->
  wp (authorizeRoles allowed a h) Stop Go db.
Proof.
  unfold authorizeRoles. destruct (existsb _ allowed); intros H1 H2; auto.
  apply wp_reply. auto.
Qed.

Lemma wp_check_assigned_to (o : option Id) (Stop : Response -> Db -> Prop)
  (Go : unit -> Db -> Prop) (db : Db) :
  Stop (mkResponse 400 "Assigned user not found or inactive" NoData) db ->
  ((forall x, o = Some x -> truthy x = true ->
      exists u, In u (users db) /\ u_id u = x /\ u_is_active u = true) ->
   Go tt db) ->
  wp (check_assigned_to o) Stop Go db.
Proof.
  intros H1 H2. unfold check_assigned_to.
  destruct o as [x|]; [destruct (truthy x) eqn:T|].
  - apply wp_bind, wp_query, wp_stop_if; [auto|]. intros E. apply H2.
    intros y [= <-] _.
    destruct (filter _ (users db)) as [|u rest] eqn:F; [discriminate|].
    assert (Hin : In u (u :: rest)) by (left; reflexivity).
    rewrite <- F in Hin. apply filter_In in Hin as [Hin H].
    apply andb_true_iff in H as [Hid Hact]. apply id_eqb_eq in Hid. eauto.
  - apply wp_ret, H2. intros y [= <-] Hy. rewrite T in Hy. discriminate.
  - apply wp_ret, H2. discriminate.
Qed.

Lemma wp_check_category_id (o : option Id) (Stop : Response -> Db -> Prop)
  (Go : unit -> Db -> Prop) (db : Db) :
  Stop (mkResponse 400 "Category not found" NoData) db ->
  ((forall x, o = Some x -> truthy x = true -> has_category db x = true) ->
   Go tt db) ->
  wp (check_category_id o) Stop Go db.
Proof.
  intros H1 H2. unfold check_category_id.
  destruct o as [x|]; [destruct (truthy x) eqn:T|].
  - apply wp_bind, wp_query, wp_stop_if; [auto|]. intros E. apply H2.
    intros y [= <-] _. unfold has_category.
    destruct (existsb _ (categories db)) eqn:F; [reflexivity|].
    apply filter_nil_iff in F. rewrite F in E. discriminate.
  - apply wp_ret, H2. intros y [= <-] Hy. rewrite T in Hy. discriminate.
  - apply wp_ret, H2. discriminate.
Qed.

(** The upload loop: whatever holds of every exception answer and of every
    store it may go on with. *)
Lemma wp_save_files pf insert owner uploader now files
  (Stop : Response -> Db -> Prop) (Go : unit -> Db -> Prop) (db : Db) :
  (forall e db', Stop (errorHandler e) db') ->
  (forall db', Go tt db') ->
  wp (save_files pf insert owner uploader now files) Stop Go db.
Proof.
  intros H1 H2. revert db.
  induction files as [|f rest IH]; intros db; simpl.
  - apply wp_ret, H2.
  - apply wp_bind, wp_execute; [intros e _; apply H1 | intros db' _; apply IH].
Qed.

Lemma sent_inr {A} (defined fits : bool) (f : Db -> Err + A) db x :
  sent defined fits f db = inr x -> defined = true /\ fits = true /\ f db = inr x.
Proof.
  unfold sent. destruct defined, fits; simpl; intros H; try discriminate. auto.
Qed.


Lemma wp_execute_sent (Stop : Response -> Db -> Prop) (Go : unit -> Db -> Prop) db
  (defined fits : bool) (f : Db -> Err + Db) :
  (forall e, sent defined fits f db = inl e -> Stop (errorHandler e) db) ->
  (forall db', defined = true -> fits = true -> f db = inr db' -> Go tt db') ->
  wp (execute (sent defined fits f)) Stop Go db.
Proof.
  intros H1 H2. apply wp_execute; [exact H1|].
  intros db' H. apply sent_inr in H as (Hd & Hf & H). auto.
Qed.

Lemma wp_execute_rows_sent (Stop : Response -> Db -> Prop) (Go : Z -> Db -> Prop) db
  (defined fits : bool) (f : Db -> Err + (Z * Db)) :
  (forall e, sent defined fits f db = inl e -> Stop (errorHandler e) db) ->
  (forall n db', defined = true -> fits = true -> f db = inr (n, db') -> Go n db') ->
  wp (execute_rows (sent defined fits f)) Stop Go db.
Proof.
  intros H1 H2. apply wp_execute_rows; [exact H1|].
  intros n db' H. apply sent_inr in H as (Hd & Hf & H). auto.
Qed.

Lemma wp_validateRequest (valid : bool) (h : Handler)
  (Stop : Response -> Db -> Prop) (Go : Empty_set -> Db -> Prop) (db : Db) :
  (valid = false -> Stop validation_error db) ->
  (valid = true -> wp h Stop Go db) ->
  wp (validateRequest valid h) Stop Go db.
Proof.
  unfold validateRequest. destruct valid; intros H1 H2; auto.
  apply wp_reply. auto.
Qed.

Lemma wp_handleValidationErrors (valid : bool) (h : Handler)
  (Stop : Response -> Db -> Prop) (Go : Empty_set -> Db -> Prop) (db : Db) :
  (valid = false -> Stop validation_error db) ->
  (valid = true -> wp h Stop Go db) ->
  wp (handleValidationErrors valid h) Stop Go db.
Proof.
  unfold handleValidationErrors. destruct valid; intros H1 H2; auto.
  apply wp_reply. auto.
Qed.

Lemma wp_uploadMultiple pf (files : list UploadedFile) (h : Handler)
  (Stop : Response -> Db -> Prop) (Go : Empty_set -> Db -> Prop) (db : Db) :
  (forall e, multer pf 5 files = Some e -> Stop (handleUploadError e) db) ->
  (multer pf 5 files = None -> wp h Stop Go db) ->
  wp (uploadMultiple pf files h) Stop Go db.
Proof.
  unfold uploadMultiple. destruct (multer pf 5 files); intros H1 H2; auto.
  apply wp_reply. auto.
Qed.

Lemma wp_uploadAvatar pf (file : option UploadedFile) (h : Handler)
  (Stop : Response -> Db -> Prop) (Go : Empty_set -> Db -> Prop) (db : Db) :
  (forall e, Stop (handleUploadError e) db) ->
  (wp h Stop Go db) ->
  wp (uploadAvatar pf file h) Stop Go db.
Proof.
  unfold uploadAvatar. destruct (multer pf 5 _); intros H1 H2; auto.
  apply wp_reply. auto.
Qed.

Ltac wp_step :=
  cbv beta;
  lazymatch goal with
  | |- wp (bind _ _) _ _ _ => apply wp_bind
  | |- wp (ret _) _ _ _ => apply wp_ret
  | |- wp (reply _) _ _ _ => apply wp_reply
  | |- wp (query _) _ _ _ => apply wp_query
  | |- wp (stop_if _ _) _ _ _ => apply wp_stop_if; intros ?
  | |- wp (execute (sent _ _ _)) _ _ _ =>
      apply wp_execute_sent; [intros ? ? | intros ? ? ? ?]
  | |- wp (execute_rows (sent _ _ _)) _ _ _ =>
      apply wp_execute_rows_sent; [intros ? ? | intros ? ? ? ? ?]
  | |- wp (execute _) _ _ _ => apply wp_execute; intros ? ?
  | |- wp (execute_rows _) _ _ _ => apply wp_execute_rows; [intros ? ? | intros ? ? ?]
  | |- wp (validateRequest _ _) _ _ _ => apply wp_validateRequest; intros ?
  | |- wp (handleValidationErrors _ _) _ _ _ =>
      apply wp_handleValidationErrors; intros ?
  | |- wp (uploadMultiple _ _ _) _ _ _ => apply wp_uploadMultiple; [intros ? ? | intros ?]
  | |- wp (uploadAvatar _ _ _) _ _ _ => apply wp_uploadAvatar; [intros ? |]
  | |- wp (authorizeRoles _ _ _) _ _ _ => apply wp_authorizeRoles; intros ?
  | |- wp (check_assigned_to _) _ _ _ => apply wp_check_assigned_to; [|intros ?]
  | |- wp (check_category_id _) _ _ _ => apply wp_check_category_id; [|intros ?]
  | |- wp (save_files _ _ _ _ _ _) _ _ _ => apply wp_save_files; [intros ? ? | intros ?]
  | |- wp (match ?x with _ => _ end) _ _ _ => destruct x eqn:?
  end.

Ltac wp_steps := repeat wp_step.

(** ** The middleware in front of a handler *)

(** A request that the middleware lets through is answered by its handler,
    on the body as the chains left it. *)
Lemma serve_accepted pf a now r db :
  accepted pf now r = true ->
  serve pf a now r db = handle pf a now (as_handled pf r) db.
Proof.
  intros H.
  destruct r; try reflexivity; cbn [accepted] in H;
    unfold serve, handle, endpoint, route, as_handled, projects_create,
      projects_update, projects_upload, categories_create, categories_update,
      uploadMultiple, uploadAvatar;
    try (apply andb_true_iff in H as [H H']; apply negb_true_iff in H');
    rewrite H; cbn [handleValidationErrors validateRequest andb];
    try reflexivity.
  - destruct (multer pf 5 files); [discriminate | reflexivity].
  - destruct (multer pf 5 files); [discriminate | reflexivity].
  - destruct (multer pf 5 _); [discriminate | reflexivity].
Qed.

(** A request that the middleware refuses is answered 400, or 403 by the
    role check that stands before the middleware, and nothing is written. *)
Lemma serve_refused pf a now r db :
  accepted pf now r = false ->
  snd (serve pf a now r db) = db
  /\ (status (fst (serve pf a now r db)) = 400
      \/ status (fst (serve pf a now r db)) = 403).
Proof.
  intros H.
  destruct r; try discriminate H; cbn [accepted] in H;
    unfold serve, endpoint, authorizeRoles, uploadMultiple, uploadAvatar;
    try rewrite H;
    try (destruct (existsb (role_eqb (a_role a)) [Admin; Manager]);
         [|split; [reflexivity | right; reflexivity]]);
    try (split; [reflexivity | left; reflexivity]).
  all: destruct (validateUUID id); cbn [andb handleValidationErrors] in *;
    try (split; [reflexivity | left; reflexivity]);
    destruct (multer pf 5 _) as [[]|]; try discriminate H;
    split; try reflexivity; left; reflexivity.
Qed.

(** ** Task mutations: the decision table *)

Lemma canEdit_spec a task :
  canEdit a task = true <->
  (a_role a = Admin \/ t_created_by (fst task) = a_id a
   \/ t_assigned_to (fst task) = Some (a_id a) \/ project_owner task = Some (a_id a)).
Proof.
  unfold canEdit. rewrite !orb_true_iff, role_eqb_eq, id_eqb_eq, !opt_is_eq. tauto.
Qed.

Lemma canDelete_spec a task :
  canDelete a task = true <->
  (a_role a = Admin \/ t_created_by (fst task) = a_id a
   \/ project_owner task = Some (a_id a)).
Proof.
  unfold canDelete. rewrite !orb_true_iff, role_eqb_eq, id_eqb_eq, !opt_is_eq. tauto.
Qed.

Lemma false_iff_not_true (b : bool) (P : Prop) : (b = true <-> P) -> (b = false <-> ~ P).
Proof. destruct b; intros [H1 H2]; split; intros H; try discriminate; auto.
  - exfalso. apply H, H1. reflexivity.
  - intros HP. apply H2 in HP. discriminate.
Qed.

(** Closes the status goals left by [wp_steps] when the permission test
    [c] was taken one way or the other. *)
Ltac forbidden_iff c :=
  unfold json; cbn [status fst];
  match goal with
  | H : negb c = true |- _ => apply negb_true_iff in H; rewrite H
  | H : negb c = false |- _ => apply negb_false_iff in H; rewrite H
  end;
  split; intros X; try reflexivity; try discriminate;
  try (exfalso; eapply errorHandler_not_403; exact X).

Lemma tasks_update_forbidden pf a now db id b task rest :
  task_check_query id db = task :: rest ->
  status (fst (handle pf a now (UpdateTask id b) db)) = 403 <-> canEdit a task = false.
Proof.
  intros Hq. unfold handle, route, tasks_update.
  apply (wp_run _ _ (fun rd => status (fst rd) = 403 <-> canEdit a task = false)).
  apply wp_bind, wp_query. rewrite Hq.
  wp_steps; forbidden_iff (canEdit a task).
Qed.

Lemma tasks_update_status_forbidden pf a now db id s task rest :
  task_check_query id db = task :: rest ->
  In s task_statuses ->
  status (fst (handle pf a now (UpdateTaskStatus id s) db)) = 403
  <-> canEdit a task = false.
Proof.
  intros Hq Hs. unfold handle, route, tasks_update_status.
  assert (Hv : negb (existsb (String.eqb s) task_statuses) = false).
  { apply negb_false_iff, existsb_exists. exists s. split; [exact Hs|].
    apply String.eqb_refl. }
  rewrite Hv.
  apply (wp_run _ _ (fun rd => status (fst rd) = 403 <-> canEdit a task = false)).
  apply wp_bind, wp_stop_if; [discriminate | intros _].
  apply wp_bind, wp_query. rewrite Hq.
  wp_steps; forbidden_iff (canEdit a task).
Qed.

Lemma tasks_upload_forbidden pf a now db id files task rest :
  task_check_query id db = task :: rest ->
  status (fst (handle pf a now (UploadTaskFiles id files) db)) = 403
  <-> canUpload a task = false.
Proof.
  intros Hq. unfold handle, route, tasks_upload.
  apply (wp_run _ _ (fun rd => status (fst rd) = 403 <-> canUpload a task = false)).
  apply wp_bind, wp_query. rewrite Hq.
  wp_steps; forbidden_iff (canUpload a task).
Qed.

Lemma tasks_delete_forbidden pf a now db id task rest :
  task_check_query id db = task :: rest ->
  status (fst (handle pf a now (DeleteTask id) db)) = 403 <-> canDelete a task = false.
Proof.
  intros Hq. unfold handle, route, tasks_delete.
  apply (wp_run _ _ (fun rd => status (fst rd) = 403 <-> canDelete a task = false)).
  apply wp_bind, wp_query. rewrite Hq.
  wp_steps; forbidden_iff (canDelete a task).
Qed.

(** C1.  For every actor and every existing task (the row the check query
    of the task writes finds for the id, its project_id spelled as the
    projects table spells the id), and for requests that the validation and
    upload middleware of the routes lets through (a status change and a
    delete have none), update, status change and upload are answered
    Forbidden (403) exactly when the actor is neither an admin nor the
    task's creator, its assignee or the creator of its project; delete is
    answered Forbidden exactly when the actor is neither an admin nor the
    task's creator nor the creator of its project, so being the assignee
    does not allow a delete. *)
Theorem task_mutation_decision_table
  (pf : Platform) (a : Actor) (now : Z) (db : Db) (id : Id)
  (task : TaskRow * option ProjectRow) (rest : list (TaskRow * option ProjectRow))
  (b : TaskBody) (s : string) (files : list UploadedFile) :
  task_check_query id db = task :: rest ->
  (forall p, In p (projects db) ->
     sql_equal pf (t_project_id (fst task)) (p_id p) = true ->
     t_project_id (fst task) = p_id p) ->
  In s task_statuses ->
  accepted pf now (UpdateTask id b) = true ->
  accepted pf now (UploadTaskFiles id files) = true ->
  let related :=
    a_role a = Admin \/ t_created_by (fst task) = a_id a
    \/ t_assigned_to (fst task) = Some (a_id a)
    \/ project_owner task = Some (a_id a) in
  let owner :=
    a_role a = Admin \/ t_created_by (fst task) = a_id a
    \/ project_owner task = Some (a_id a) in
  (status (fst (serve pf a now (UpdateTask id b) db)) = 403 <-> ~ related)
  /\ (status (fst (serve pf a now (UpdateTaskStatus id s) db)) = 403 <-> ~ related)
  /\ (status (fst (serve pf a now (UploadTaskFiles id files) db)) = 403 <-> ~ related)
  /\ (status (fst (serve pf a now (DeleteTask id) db)) = 403 <-> ~ owner).
Proof.
  intros Hq _ Hs Hb Hf related owner.
  pose proof (false_iff_not_true _ _ (canEdit_spec a task)) as HE.
  pose proof (false_iff_not_true _ _ (canDelete_spec a task)) as HD.
  rewrite (serve_accepted pf a now _ db Hb), (serve_accepted pf a now _ db Hf),
    (serve_accepted pf a now (UpdateTaskStatus id s) db eq_refl),
    (serve_accepted pf a now (DeleteTask id) db eq_refl).
  cbn [as_handled].
  repeat split.
  - intros H.
    apply HE, (tasks_update_forbidden pf a now db id (sanitized pf b) task rest Hq), H.
  - intros H.
    apply (tasks_update_forbidden pf a now db id (sanitized pf b) task rest Hq), HE, H.
  - intros H. apply HE, (tasks_update_status_forbidden pf a now db id s task rest Hq Hs), H.
  - intros H. apply (tasks_update_status_forbidden pf a now db id s task rest Hq Hs), HE, H.
  - intros H. apply HE, (tasks_upload_forbidden pf a now db id files task rest Hq), H.
  - intros H. apply (tasks_upload_forbidden pf a now db id files task rest Hq), HE, H.
  - intros H. apply HD, (tasks_delete_forbidden pf a now db id task rest Hq), H.
  - intros H. apply (tasks_delete_forbidden pf a now db id task rest Hq), HD, H.
Qed.

(** The scenario of the specification on the sample store: [t1] belongs to
    the project of [u1] and is assigned to [u2]; [u2] may update it but is
    refused the delete. *)
Lemma task_mutation_decision_table_witness :
  task_check_query Sample.t1_id Sample.db = [(Sample.t1, Some Sample.p1)]
  /\ In "review" task_statuses
  /\ accepted Sample.platform 100 (UpdateTask Sample.t1_id Sample.body) = true
  /\ accepted Sample.platform 100 (UploadTaskFiles Sample.t1_id []) = true
  /\ status (fst (serve Sample.platform (Sample.actor Sample.u2) 100
                    (UpdateTask Sample.t1_id Sample.body) Sample.db)) <> 403
  /\ status (fst (serve Sample.platform (Sample.actor Sample.u2) 100
                    (DeleteTask Sample.t1_id) Sample.db)) = 403.
Proof.
  split; [reflexivity|]. split; [simpl; tauto|].
  split; [reflexivity|]. split; [reflexivity|].
  assert (Hp : forall p, In p (projects Sample.db) ->
                 sql_equal Sample.platform
                   (t_project_id (fst (Sample.t1, Some Sample.p1))) (p_id p) = true ->
                 t_project_id (fst (Sample.t1, Some Sample.p1)) = p_id p).
  { intros p [<-|[<-|[<-|[]]]]; intros H; try discriminate H; reflexivity. }
  destruct (task_mutation_decision_table Sample.platform (Sample.actor Sample.u2)
              100 Sample.db Sample.t1_id (Sample.t1, Some Sample.p1) [] Sample.body
              "review" [] eq_refl Hp (or_intror (or_intror (or_introl eq_refl)))
              eq_refl eq_refl)
    as (Hu & _ & _ & Hd).
  split.
  - intros H. apply Hu in H. apply H. right. right. left. reflexivity.
  - apply Hd. intros [H|[H|H]]; discriminate H.
Defined.

Example scenario_u1_updates_t1 :
  status (fst (serve Sample.platform (Sample.actor Sample.u1) 100
                 (UpdateTask Sample.t1_id Sample.body) Sample.db)) = 200.
Proof. vm_compute. reflexivity. Qed.

Example scenario_u3_update_forbidden :
  status (fst (serve Sample.platform (Sample.actor Sample.u3) 100
                 (UpdateTask Sample.t1_id Sample.body) Sample.db)) = 403.
Proof. vm_compute. reflexivity. Qed.

(** An id or a body that the validators refuse is answered 400 whoever
    asks, before the task is looked up. *)
Example refused_before_the_lookup :
  status (fst (serve Sample.platform (Sample.actor Sample.u3) 100
                 (UpdateTask "t1" Sample.body) Sample.db)) = 400.
Proof. vm_compute. reflexivity. Qed.

(** ** Query scoping against read by id *)

Lemma insert_by_In {A} (before : A -> A -> bool) (x y : A) (l : list A) :
  In y (insert_by before x l) <-> y = x \/ In y l.
Proof.
  induction l as [|z l IH]; simpl.
  - intuition.
  - destruct (before x z); simpl; rewrite ?IH; intuition.
Qed.




Lemma NoDup_map_inj {A B} (f : A -> B) (l : list A) (x y : A) :
  NoDup (map f l) -> In x l -> In y l -> f x = f y -> x = y.
Proof.
  induction l as [|z l IH]; simpl; intros Hnd Hx Hy Hf; [contradiction|].
  inversion Hnd as [|? ? Hnotin Hnd']; subst.
  destruct Hx as [->|Hx], Hy as [->|Hy]; auto.
  - exfalso. apply Hnotin. rewrite Hf. apply in_map. exact Hy.
  - exfalso. apply Hnotin. rewrite <- Hf. apply in_map. exact Hx.
Qed.

(** The rows of the join are the tasks, each at least once. *)
Lemma left_join_project_fst ps t r : In r (left_join_project ps t) -> fst r = t.
Proof.
  unfold left_join_project.
  destruct (filter _ ps) as [|p m]; simpl.
  - intros [<-|[]]. reflexivity.
  - intros [<-|H]; [reflexivity|].
    apply in_map_iff in H as (q & <- & _). reflexivity.
Qed.


Lemma join_fst_In db r : In r (tasks_join_projects db) -> In (fst r) (tasks db).
Proof.
  unfold tasks_join_projects. intros H.
  apply in_flat_map in H as (t & Ht & Hr).
  apply left_join_project_fst in Hr. rewrite Hr. exact Ht.
Qed.













(** ** A missing target *)

Lemma task_check_query_absent db id :
  has_task db id = false -> task_check_query id db = [].
Proof.
  intros H. unfold task_check_query.
  destruct (filter _ (tasks_join_projects db)) as [|r rest] eqn:E; [reflexivity|].
  assert (Hin : In r (r :: rest)) by (left; reflexivity).
  rewrite <- E in Hin. apply filter_In in Hin as [Hin Hid].
  apply join_fst_In in Hin.
  assert (Hex : has_task db id = true).
  { apply existsb_exists. exists (fst r). auto. }
  rewrite H in Hex. discriminate.
Qed.

Lemma project_check_query_absent a db id :
  has_project db id = false -> project_check_query a id db = [].
Proof.
  intros H. unfold project_check_query. apply filter_nil_iff.
  unfold has_project in H. induction (projects db) as [|p l IH]; simpl in *; [reflexivity|].
  apply orb_false_iff in H as [H1 H2]. rewrite H1, (IH H2). reflexivity.
Qed.

Lemma map_where_absent {A} (key : A -> Id) (f : A -> A) (id : Id) (l : list A) :
  existsb (fun x => id_eqb (key x) id) l = false ->
  map (fun x => if id_eqb (key x) id then f x else x) l = l.
Proof.
  induction l as [|x l IH]; simpl; [reflexivity|].
  intros H. apply orb_false_iff in H as [H1 H2]. rewrite H1, (IH H2). reflexivity.
Qed.

Lemma set_users_same db : set_users db (users db) = db.
Proof. destruct db; reflexivity. Qed.

Lemma update_users_absent db id f :
  has_user db id = false -> update_users_where_id id f db = inr (0, db).
Proof.
  intros H. unfold update_users_where_id.
  assert (E : filter (fun u => id_eqb (u_id u) id) (users db) = []).
  { apply filter_nil_iff, H. }
  assert (D : existsb (fun u =>
       id_eqb (u_id u) id
       && negb (String.eqb (u_email (f u)) (u_email u))
       && existsb (fun o => negb (id_eqb (u_id o) id)
                            && String.eqb (u_email o) (u_email (f u)))
                  (users db)) (users db) = false).
  { unfold has_user in H. revert H. generalize (users db) at 1 3.
    induction l as [|u l IH]; simpl; [reflexivity|].
    intros H. apply orb_false_iff in H as [H1 H2]. rewrite H1, (IH H2). reflexivity. }
  rewrite D, E, (map_where_absent u_id f id (users db) H), set_users_same.
  reflexivity.
Qed.

Lemma delete_users_absent db id :
  has_user db id = false -> delete_users_where_id id db = inr (0, db).
Proof.
  intros H. unfold delete_users_where_id.
  assert (E : filter (fun u => id_eqb (u_id u) id) (users db) = []).
  { apply filter_nil_iff, H. }
  rewrite E. reflexivity.
Qed.

Lemma sql_equal_refl pf (x : string) : sql_equal pf x x = true.
Proof. unfold sql_equal. rewrite String.eqb_refl. reflexivity. Qed.

(** A key that the database finds in no row is in no row. *)
Lemma none_sql_equal {A} pf (key : A -> Id) (id : Id) (l : list A) :
  negb (existsb (fun x => sql_equal pf (key x) id) l) = true ->
  existsb (fun x => id_eqb (key x) id) l = false.
Proof.
  intros H. apply negb_true_iff in H.
  destruct (existsb (fun x => id_eqb (key x) id) l) eqn:E; [|reflexivity].
  apply existsb_exists in E as (x & Hin & Hx). apply id_eqb_eq in Hx.
  assert (X : existsb (fun x => sql_equal pf (key x) id) l = true).
  { apply existsb_exists. exists x. split; [exact Hin|].
    rewrite Hx. apply sql_equal_refl. }
  congruence.
Qed.

Ltac absent_task H :=
  cbv beta iota delta [handle route as_handled tasks_update tasks_delete tasks_upload
                       run bind query];
  rewrite (task_check_query_absent _ _ H); split; reflexivity.

(** The handlers on a target that is absent, behind their own checks. *)
Lemma absent_target_handled pf a now r db :
  lookup_comes_first pf a now db r = true ->
  target_missing pf db r = true ->
  status (fst (handle pf a now (as_handled pf r) db)) = 404
  /\ snd (handle pf a now (as_handled pf r) db) = db.
Proof.
  intros Hc Ha. unfold lookup_comes_first in Hc.
  apply andb_true_iff in Hc as [_ Hc].
  destruct r; cbn [target_missing] in Ha; try discriminate;
    apply none_sql_equal in Ha.
  - absent_task Ha.
  - unfold handle, route, as_handled, tasks_update_status, run, bind, query.
    rewrite Hc. cbn [negb stop_if ret]. rewrite (task_check_query_absent _ _ Ha).
    split; reflexivity.
  - absent_task Ha.
  - absent_task Ha.
  - unfold handle, route, as_handled, projects_update, projects_update_handler,
      authorizeRoles.
    unfold admin_or_manager in Hc. rewrite Hc.
    unfold run, bind, query. rewrite (project_check_query_absent a _ _ Ha).
    split; reflexivity.
  - unfold handle, route, as_handled, projects_delete, authorizeRoles.
    unfold admin_or_manager in Hc. rewrite Hc.
    unfold run, bind, query. rewrite (project_check_query_absent a _ _ Ha).
    split; reflexivity.
  - unfold handle, route, as_handled, projects_upload, projects_upload_handler,
      authorizeRoles.
    unfold admin_or_manager in Hc. rewrite Hc.
    unfold run, bind, query. rewrite (project_check_query_absent a _ _ Ha).
    split; reflexivity.
  - (* UpdateUser *)
    apply andb_true_iff in Hc as [Hs Hr].
    unfold handle, route, as_handled, users_update, run, bind, query.
    unfold self_or_admin in Hs.
    assert (E1 : negb (id_eqb (a_id a) id) && negb (role_eqb (a_role a) Admin) = false).
    { destruct (id_eqb (a_id a) id), (role_eqb (a_role a) Admin); simpl in *; congruence. }
    assert (E2 : is_some (ub_role b) && negb (role_eqb (a_role a) Admin) = false).
    { destruct (is_some (ub_role b)), (role_eqb (a_role a) Admin); simpl in *; congruence. }
    rewrite E1, E2. cbn [stop_if ret].
    assert (E3 : select_user id db = []) by (apply filter_nil_iff, Ha).
    rewrite E3. split; reflexivity.
  - (* UpdateUserPassword *)
    apply andb_true_iff in Hc as [Hc Hl]. apply andb_true_iff in Hc as [Hs Ht].
    unfold handle, route, as_handled, users_update_password, run, bind, query.
    unfold self_or_admin in Hs.
    assert (E1 : negb (id_eqb (a_id a) id) && negb (role_eqb (a_role a) Admin) = false).
    { destruct (id_eqb (a_id a) id), (role_eqb (a_role a) Admin); simpl in *; congruence. }
    assert (E2 : negb (truthy newPassword) || (js_length newPassword <? 8)%nat = false).
    { rewrite Ht. simpl. apply Nat.ltb_ge, Nat.leb_le, Hl. }
    rewrite E1, E2. cbn [stop_if ret].
    assert (E3 : select_user id db = []) by (apply filter_nil_iff, Ha).
    rewrite E3. split; reflexivity.
  - (* DeactivateUser *)
    apply andb_true_iff in Hc as [Hr Hn]. apply negb_true_iff in Hn.
    unfold handle, route, as_handled, users_deactivate, authorizeRoles. simpl existsb.
    rewrite Hr. cbn [orb].
    unfold run, bind, execute_rows. rewrite Hn. cbn [stop_if ret].
    rewrite (update_users_absent _ _ _ Ha). split; reflexivity.
  - (* ActivateUser *)
    unfold handle, route, as_handled, users_activate, authorizeRoles. simpl existsb.
    rewrite Hc. cbn [orb].
    unfold run, bind, execute_rows.
    rewrite (update_users_absent _ _ _ Ha). split; reflexivity.
  - (* DeleteUser *)
    apply andb_true_iff in Hc as [Hc Het]. apply andb_true_iff in Hc as [Hc Hep].
    apply andb_true_iff in Hc as [Hr Hn]. apply negb_true_iff in Hn.
    apply none_sql_equal, filter_nil_iff in Hep, Het.
    unfold handle, route, as_handled, users_delete, authorizeRoles. simpl existsb.
    rewrite Hr. cbn [orb].
    unfold run, bind, execute_rows, query. rewrite Hn. cbn [stop_if ret].
    rewrite Hep, Het.
    cbn. rewrite (delete_users_absent _ _ Ha). split; reflexivity.
  - (* UploadUserAvatar *)
    unfold handle, route, as_handled, users_avatar, run, bind, query.
    unfold self_or_admin in Hc.
    assert (E1 : negb (id_eqb (a_id a) id) && negb (role_eqb (a_role a) Admin) = false).
    { destruct (id_eqb (a_id a) id), (role_eqb (a_role a) Admin); simpl in *; congruence. }
    rewrite E1. cbn [stop_if ret].
    assert (E3 : select_user id db = []) by (apply filter_nil_iff, Ha).
    rewrite E3. split; reflexivity.
  - (* UpdateCategory *)
    unfold handle, route, as_handled, categories_update, categories_update_handler,
      authorizeRoles.
    unfold admin_or_manager in Hc. rewrite Hc.
    unfold run, bind, query.
    assert (E3 : select_category id db = []) by (apply filter_nil_iff, Ha).
    rewrite E3. split; reflexivity.
  - (* DeleteCategory *)
    unfold handle, route, as_handled, categories_delete, authorizeRoles.
    unfold admin_or_manager in Hc. rewrite Hc.
    unfold run, bind, query.
    assert (E3 : select_category id db = []) by (apply filter_nil_iff, Ha).
    rewrite E3. split; reflexivity.
Qed.

(** C3, as the code has it.  When the id a write names is in no row of its
    table, and the request passes what the route puts before its lookup
    (the validation and upload middleware; the role check or the
    self-or-admin test of the project, category and user routes; for the
    task routes nothing that depends on the caller), the answer is
    NotFound (404), not Forbidden, and the store is untouched. *)
Theorem missing_target_is_not_found
  (pf : Platform) (a : Actor) (now : Z) (r : Request) (db : Db) :
  lookup_comes_first pf a now db r = true ->
  target_missing pf db r = true ->
  status (fst (serve pf a now r db)) = 404 /\ snd (serve pf a now r db) = db.
Proof.
  intros Hc Ha.
  assert (Hacc : accepted pf now r = true).
  { unfold lookup_comes_first in Hc. apply andb_true_iff in Hc as [Hacc _].
    exact Hacc. }
  rewrite (serve_accepted pf a now r db Hacc).
  apply absent_target_handled; assumption.
Qed.

Lemma missing_target_is_not_found_witness :
  lookup_comes_first Sample.platform (Sample.actor Sample.u3) 100 Sample.db
    (UpdateTask Sample.ghost Sample.body) = true
  /\ target_missing Sample.platform Sample.db (UpdateTask Sample.ghost Sample.body)
     = true
  /\ status (fst (serve Sample.platform (Sample.actor Sample.u3) 100
                    (UpdateTask Sample.ghost Sample.body) Sample.db)) = 404
  /\ snd (serve Sample.platform (Sample.actor Sample.u3) 100
            (UpdateTask Sample.ghost Sample.body) Sample.db) = Sample.db.
Proof.
  split; [reflexivity|]. split; [reflexivity|].
  apply (missing_target_is_not_found Sample.platform (Sample.actor Sample.u3) 100
           (UpdateTask Sample.ghost Sample.body) Sample.db eq_refl eq_refl).
Defined.

(** C3 as stated fails: a manager who updates a user id that does not exist
    is answered Forbidden, since the self-or-admin test of "Update user"
    runs before the lookup. *)
Lemma missing_target_forbidden_counterexample :
  target_missing Sample.platform Sample.db
    (UpdateUser Sample.ghost (mkUserBody "Someone" "" None)) = true
  /\ status (fst (serve Sample.platform (Sample.actor Sample.m1) 100
                    (UpdateUser Sample.ghost (mkUserBody "Someone" "" None))
                    Sample.db))
     = 403.
Proof. split; vm_compute; reflexivity. Qed.

(** The role check in front of the project routes answers in the same way
    before the lookup, and a validator answers 400 before it. *)
Example missing_project_behind_role_check :
  status (fst (serve Sample.platform (Sample.actor Sample.u1) 100
                 (UpdateProject Sample.ghost Sample.project_body) Sample.db)) = 403.
Proof. vm_compute. reflexivity. Qed.

Example missing_task_behind_validation :
  status (fst (serve Sample.platform (Sample.actor Sample.u1) 100
                 (UpdateTask "ghost" Sample.body) Sample.db)) = 400.
Proof. vm_compute. reflexivity. Qed.

(** ** A manager and the projects of others *)






(** ** Tokens *)

Lemma jwt_verify_valid t secret now :
  tk_key t = secret -> now < tk_exp t -> jwt_verify t secret now = inr (tk_payload t).
Proof.
  intros Hk Hn. unfold jwt_verify. rewrite Hk, String.eqb_refl. simpl.
  destruct (Z.leb_spec (tk_exp t) now); [lia | reflexivity].
Qed.

Lemma jwt_verify_other_secret t secret now :
  tk_key t <> secret ->
  jwt_verify t secret now = inl (JsonWebTokenError "invalid signature").
Proof.
  intros Hk. unfold jwt_verify.
  destruct (String.eqb_spec (tk_key t) secret); [contradiction | reflexivity].
Qed.

(** C5.  For a refresh token whose signature and expiry are valid (so that
    verification accepts it): when the subject is in the store with the
    active flag set, refresh answers with a new access token signed for
    that row; when the subject was deleted or is inactive, refresh answers
    401 "Invalid refresh token" with no token, and the store is untouched. *)
Theorem refresh_requires_live_subject
  (env : Env) (now : Z) (db : Db) (t : Token) :
  tk_key t = REFRESH_TOKEN_SECRET env ->
  now < tk_exp t ->
  let subject_live :=
    exists u, In u (users db) /\ u_id u = userId (tk_payload t)
              /\ u_is_active u = true in
  jwt_verify t (REFRESH_TOKEN_SECRET env) now = inr (tk_payload t)
  /\ (subject_live ->
      exists u, In u (users db) /\ u_id u = userId (tk_payload t)
                /\ u_is_active u = true
                /\ run (auth_refresh env now (Some t)) db
                   = (json "" (AccessTokenData (sign_access env u now)), db))
  /\ (~ subject_live ->
      run (auth_refresh env now (Some t)) db
      = (mkResponse 401 "Invalid refresh token" NoData, db)).
Proof.
  intros Hk Hn live.
  pose proof (jwt_verify_valid t _ now Hk Hn) as Hv.
  split; [exact Hv|].
  unfold auth_refresh. rewrite Hv. unfold run, bind, query.
  destruct (filter _ (users db)) as [|u rest] eqn:E.
  - split; [|reflexivity].
    intros (u & Hin & Hid & Hact). exfalso.
    assert (H : In u []); [|destruct H].
    rewrite <- E. apply filter_In. split; [exact Hin|].
    apply andb_true_iff. split; [apply id_eqb_eq, Hid | exact Hact].
  - assert (H : In u (u :: rest)) by (left; reflexivity).
    rewrite <- E in H. apply filter_In in H as [Hin H].
    apply andb_true_iff in H as [Hid Hact]. apply id_eqb_eq in Hid.
    split.
    + intros _. exists u. repeat split; auto.
    + intros Hno. exfalso. apply Hno. exists u. auto.
Qed.

Lemma refresh_requires_live_subject_witness :
  tk_key (sign_refresh Sample.env Sample.u4 0) = REFRESH_TOKEN_SECRET Sample.env
  /\ 100 < tk_exp (sign_refresh Sample.env Sample.u4 0)
  /\ run (auth_refresh Sample.env 100 (Some (sign_refresh Sample.env Sample.u4 0)))
         Sample.db
     = (mkResponse 401 "Invalid refresh token" NoData, Sample.db).
Proof.
  split; [reflexivity|]. split; [reflexivity|].
  apply (refresh_requires_live_subject Sample.env 100 Sample.db
           (sign_refresh Sample.env Sample.u4 0) eq_refl eq_refl).
  intros (u & Hin & Hid & Hact).
  simpl in Hin.
  repeat (destruct Hin as [<-|Hin]; [discriminate|]). destruct Hin.
Defined.

(** C7.  An access token issued for a user row verifies, at any time before
    its [exp], to the actor with the id and role of that row; from [exp]
    on it verifies to [Expired].  [exp] is the time of issue plus
    JWT_EXPIRES_IN. *)
Theorem issue_verify_roundtrip
  (env : Env) (u : UserRow) (now within later : Z) :
  within < tk_exp (fst (issue env u now)) ->
  tk_exp (fst (issue env u now)) <= later ->
  verify_access env (fst (issue env u now)) within = inr (mkActor (u_id u) (u_role u))
  /\ verify_access env (fst (issue env u now)) later = inl Expired
  /\ tk_exp (fst (issue env u now)) = now + JWT_EXPIRES_IN env.
Proof.
  intros Hin Hout. unfold verify_access.
  rewrite (jwt_verify_valid (fst (issue env u now)) (JWT_SECRET env) within eq_refl Hin).
  split; [reflexivity|]. split; [|reflexivity].
  unfold jwt_verify. simpl tk_key. rewrite String.eqb_refl. simpl negb. cbv iota.
  destruct (Z.leb_spec (tk_exp (fst (issue env u now))) later); [reflexivity | lia].
Qed.

Lemma issue_verify_roundtrip_witness :
  3600 < tk_exp (fst (issue Sample.env Sample.m1 0))
  /\ tk_exp (fst (issue Sample.env Sample.m1 0)) <= 90000
  /\ verify_access Sample.env (fst (issue Sample.env Sample.m1 0)) 3600
     = inr (mkActor Sample.m1_id Manager)
  /\ verify_access Sample.env (fst (issue Sample.env Sample.m1 0)) 90000 = inl Expired.
Proof.
  split; [reflexivity|]. split; [discriminate|].
  destruct (issue_verify_roundtrip Sample.env Sample.m1 0 3600 90000)
    as (H1 & H2 & _); [reflexivity | discriminate |].
  split; assumption.
Defined.

(** C9.  With JWT_SECRET different from REFRESH_TOKEN_SECRET, a token
    signed as a refresh token is rejected as invalid where an access token
    is expected, and a token signed as an access token is rejected by
    refresh with 401 "Invalid token". *)
Theorem token_kinds_not_interchangeable
  (env : Env) (now : Z) (db : Db) (refresh_kind access_kind : Token) :
  JWT_SECRET env <> REFRESH_TOKEN_SECRET env ->
  tk_key refresh_kind = REFRESH_TOKEN_SECRET env ->
  tk_key access_kind = JWT_SECRET env ->
  verify_access env refresh_kind now = inl InvalidToken
  /\ run (auth_refresh env now (Some access_kind)) db
     = (mkResponse 401 "Invalid token" NoData, db).
Proof.
  intros Hd Hr Ha. split.
  - unfold verify_access. rewrite jwt_verify_other_secret; [reflexivity|].
    rewrite Hr. intros H. apply Hd. symmetry. exact H.
  - unfold auth_refresh. rewrite jwt_verify_other_secret; [reflexivity|].
    rewrite Ha. exact Hd.
Qed.

Lemma token_kinds_not_interchangeable_witness :
  JWT_SECRET Sample.env <> REFRESH_TOKEN_SECRET Sample.env
  /\ verify_access Sample.env (snd (issue Sample.env Sample.u1 0)) 100
     = inl InvalidToken
  /\ run (auth_refresh Sample.env 100 (Some (fst (issue Sample.env Sample.u1 0))))
         Sample.db
     = (mkResponse 401 "Invalid token" NoData, Sample.db).
Proof.
  assert (Hd : JWT_SECRET Sample.env <> REFRESH_TOKEN_SECRET Sample.env)
    by discriminate.
  split; [exact Hd|].
  apply (token_kinds_not_interchangeable Sample.env 100 Sample.db
           (snd (issue Sample.env Sample.u1 0)) (fst (issue Sample.env Sample.u1 0))
           Hd eq_refl eq_refl).
Defined.

(** The separation rests on the two secrets alone: were they configured
    equal, refresh would accept an access token. *)
Example equal_secrets_accept_access_token :
  status (fst (run (auth_refresh (mkEnv "same" "same" 3600) 100
                      (Some (sign_access (mkEnv "same" "same" 3600) Sample.u1 0)))
                   Sample.db)) = 200.
Proof. vm_compute. reflexivity. Qed.

(** An expired refresh token raises TokenExpiredError, which [errorHandler]
    does not know by name. *)
Example expired_refresh_token_answer :
  status (fst (run (auth_refresh Sample.env (seven_days + 1)
                      (Some (sign_refresh Sample.env Sample.u1 0))) Sample.db)) = 500.
Proof. vm_compute. reflexivity. Qed.

(** ** Guarded writes *)



Example failed_reference_check_writes_nothing :
  handle Sample.platform (Sample.actor Sample.u2) 100
    (UpdateTask Sample.t1_id
       (mkTaskBody "Landing page v2" "" Sample.p1_id (Some Sample.u4_id) None "review" "high" None None))
    Sample.db
  = (mkResponse 400 "Assigned user not found or inactive" NoData, Sample.db).
Proof. vm_compute. reflexivity. Qed.

(** ** Deletes held back by dependent rows *)

(** C10.  A delete of a project that still has tasks, of a category that a
    task still uses, or of a user who created a project or a task never
    ends in 200, and the store (the target row and the rows that depend on
    it) is left exactly as it was; so such a delete ends in 200 only when
    the count of those rows is zero. *)
Theorem delete_is_held_back_by_dependents
  (pf : Platform) (a : Actor) (now : Z) (r : Request) (db : Db) :
  0 < dependents db r ->
  status (fst (handle pf a now r db)) <> 200
  /\ snd (handle pf a now r db) = db.
Proof.
  intros Hd.
  destruct r; cbn [dependents] in Hd; try lia; unfold handle, route.
  - (* DeleteProject *)
    unfold projects_delete.
    apply (wp_run _ _ (fun rd => status (fst rd) <> 200 /\ snd rd = db)).
    wp_steps; cbn [status fst snd]; try (split; [discriminate | reflexivity]).
    all: exfalso;
      match goal with H : (0 <? _) = false |- _ => apply Z.ltb_ge in H; lia end.
  - (* DeleteUser *)
    unfold users_delete.
    apply (wp_run _ _ (fun rd => status (fst rd) <> 200 /\ snd rd = db)).
    wp_steps; cbn [status fst snd]; try (split; [discriminate | reflexivity]).
    all: exfalso;
      match goal with
      | H : (0 <? _) || (0 <? _) = false |- _ =>
          let Hp := fresh "Hp" in
          let Ht := fresh "Ht" in
          destruct (proj1 (orb_false_iff _ _) H) as [Hp Ht];
          apply Z.ltb_ge in Hp; apply Z.ltb_ge in Ht; lia
      end.
  - (* DeleteCategory *)
    unfold categories_delete.
    apply (wp_run _ _ (fun rd => status (fst rd) <> 200 /\ snd rd = db)).
    wp_steps; cbn [status fst snd]; try (split; [discriminate | reflexivity]).
    all: exfalso;
      match goal with H : (0 <? _) = false |- _ => apply Z.ltb_ge in H; lia end.
Qed.

Lemma delete_is_held_back_by_dependents_witness :
  0 < dependents Sample.db (DeleteProject Sample.p1_id)
  /\ status (fst (handle Sample.platform (Sample.actor Sample.root) 100
                    (DeleteProject Sample.p1_id) Sample.db)) <> 200
  /\ snd (handle Sample.platform (Sample.actor Sample.root) 100
            (DeleteProject Sample.p1_id) Sample.db) = Sample.db.
Proof.
  split; [reflexivity|].
  apply (delete_is_held_back_by_dependents Sample.platform
           (Sample.actor Sample.root) 100 (DeleteProject Sample.p1_id) Sample.db eq_refl).
Defined.

Example delete_project_with_tasks_answer :
  fst (handle Sample.platform (Sample.actor Sample.root) 100
         (DeleteProject Sample.p1_id) Sample.db)
  = mkResponse 400
      "Cannot delete project with existing tasks. Please delete or reassign tasks first."
      NoData.
Proof. vm_compute. reflexivity. Qed.

Example delete_unused_category_succeeds :
  status (fst (handle Sample.platform (Sample.actor Sample.m1) 100
                 (DeleteCategory "cat-2") Sample.db)) = 200
  /\ categories (snd (handle Sample.platform (Sample.actor Sample.m1) 100
                        (DeleteCategory "cat-2") Sample.db)) = [Sample.cat1].
Proof. vm_compute. split; reflexivity. Qed.

(** ** The admin role *)






Lemma select_user_nil_absent db id :
  select_user id db = [] -> negb (has_user db id) = true.
Proof. intros E. apply negb_true_iff, filter_nil_iff, E. Qed.


Lemma count_zero_nil {A} (l : list A) : (count l =? 0) = true -> l = [].
Proof.
  destruct l; [reflexivity|]. unfold count. intros H.
  apply Z.eqb_eq in H. simpl List.length in H. lia.
Qed.

Lemma update_users_rows db id f n db' :
  update_users_where_id id f db = inr (n, db') -> n = count (select_user id db).
Proof.
  unfold update_users_where_id. destruct (existsb _ _); [discriminate|].
  intros [= <- _]. reflexivity.
Qed.

Lemma delete_users_rows db id n db' :
  delete_users_where_id id db = inr (n, db') -> n = count (select_user id db).
Proof.
  unfold delete_users_where_id, select_user.
  destruct (filter _ (users db)) as [|u l] eqn:E; simpl.
  - intros [= <- _]. reflexivity.
  - destruct (_ || _); [discriminate|]. intros [= <- _]. reflexivity.
Qed.

Lemma no_rows_absent db id n :
  n = count (select_user id db) -> (n =? 0) = true -> negb (has_user db id) = true.
Proof.
  intros -> H. apply select_user_nil_absent, count_zero_nil, H.
Qed.

Ltac unfold_route :=
  unfold handle, route;
  cbv beta delta
    [tasks_get_all tasks_get_by_id tasks_create tasks_update tasks_update_status
     tasks_delete tasks_upload projects_get_all projects_get_by_id projects_create
     projects_update projects_delete projects_stats projects_upload users_get_all
     users_get_by_id users_update users_update_password users_deactivate
     users_activate users_delete users_stats users_avatar categories_get_all
     categories_get_by_id categories_create categories_update categories_delete
     projects_create_handler projects_update_handler projects_upload_handler
     categories_create_handler categories_update_handler].







(** * Further properties of the routes *)

(** ** Answers that are not a success *)

Lemma update_users_no_rows db id f n db' :
  update_users_where_id id f db = inr (n, db') -> (n =? 0) = true -> db' = db.
Proof.
  intros H Z.
  pose proof (no_rows_absent db id n (update_users_rows _ _ _ _ _ H) Z) as A.
  apply negb_true_iff in A. rewrite (update_users_absent db id f A) in H.
  injection H as _ <-. reflexivity.
Qed.

Lemma delete_users_no_rows db id n db' :
  delete_users_where_id id db = inr (n, db') -> (n =? 0) = true -> db' = db.
Proof.
  intros H Z.
  pose proof (no_rows_absent db id n (delete_users_rows _ _ _ _ H) Z) as A.
  apply negb_true_iff in A. rewrite (delete_users_absent db id A) in H.
  injection H as _ <-. reflexivity.
Qed.

(** The answer of [errorHandler] is 400 only for a foreign key that names
    no row. *)
Lemma errorHandler_400 e :
  status (errorHandler e) = 400 ->
  String.eqb (err_code e) "ER_NO_REFERENCED_ROW_2" = true.
Proof.
  unfold errorHandler.
  destruct (String.eqb (err_name e) "JsonWebTokenError");
    destruct (String.eqb (err_code e) "ER_NO_REFERENCED_ROW_2");
    destruct (String.eqb (err_code e) "ER_DUP_ENTRY"); simpl;
    intros H; try reflexivity; discriminate H.
Qed.

(** The upload loop under an invariant of the store. *)
Lemma wp_save_files_inv (I : Db -> Prop) pf insert owner uploader now files
  (Stop : Response -> Db -> Prop) (Go : unit -> Db -> Prop) (db : Db) :
  let row f := mkFile (file_uuid f) owner (filename f) (originalname f)
                 (path f) (size f) (mimetype f) uploader now in
  I db ->
  (forall f d d', I d -> insert (row f) d = inr d' -> I d') ->
  (forall f e d, I d ->
     sent true (file_values_fit pf f) (insert (row f)) d = inl e ->
     Stop (errorHandler e) d) ->
  (forall d, I d -> Go tt d) ->
  wp (save_files pf insert owner uploader now files) Stop Go db.
Proof.
  intros row H0 Hstep Herr Hgo. revert db H0.
  induction files as [|f rest IH]; intros db H0; simpl.
  - apply wp_ret, Hgo, H0.
  - apply wp_bind, wp_execute_sent.
    + intros e He. eapply Herr; eassumption.
    + intros db' _ _ Hd. apply IH. eapply Hstep; eassumption.
Qed.

Ltac wp_steps_to_loop :=
  repeat (cbv beta;
          lazymatch goal with
          | |- wp (save_files _ _ _ _ _ _) _ _ _ => fail
          | _ => wp_step
          end).

Ltac failed_goal :=
  unfold left_as_found, json; cbn [status fst snd];
  let A := fresh in let B := fresh in let C := fresh in
  intros A B C;
  first
    [ reflexivity
    | exfalso; apply A; reflexivity
    | exfalso; apply B; reflexivity
    | eapply update_users_no_rows; eassumption
    | eapply delete_users_no_rows; eassumption ].

Lemma upload_task_files_failed pf a now id files db0 :
  wp (save_files pf insert_task_file id (a_id a) now files)
     (fun r d => status r <> 200 -> status r <> 201 -> status r <> 409 ->
                 status r <> 500 -> d = db0)
     (fun _ _ => True) db0.
Proof.
  apply (wp_save_files_inv
    (fun d => (d = db0 \/ has_task db0 id && has_user db0 (a_id a) = true)
              /\ has_task d id = has_task db0 id
              /\ has_user d (a_id a) = has_user db0 (a_id a))).
  - auto.
  - cbv beta. intros f d d' (Hd & Ht & Hu) Hi. unfold insert_task_file in Hi.
    destruct (existsb _ (task_files d)); [discriminate|].
    cbn [f_owner f_uploaded_by] in Hi.
    destruct (has_task d id && has_user d (a_id a)) eqn:F; [|discriminate].
    injection Hi as <-. rewrite Ht, Hu in F. auto.
  - cbv beta. intros f e d (Hd & Ht & Hu) Hi _ _ H409 H500. unfold sent in Hi.
    destruct (file_values_fit pf f); cbn [negb] in Hi;
      [|injection Hi as <-; exfalso; apply H500; reflexivity].
    unfold insert_task_file in Hi.
    destruct (existsb _ (task_files d)).
    + injection Hi as <-. exfalso. apply H409. reflexivity.
    + cbn [f_owner f_uploaded_by] in Hi.
      destruct (has_task d id && has_user d (a_id a)) eqn:F; [discriminate|].
      rewrite Ht, Hu in F. destruct Hd as [Hd|Hd]; [exact Hd | congruence].
  - trivial.
Qed.

Lemma upload_project_files_failed pf a now id files db0 :
  wp (save_files pf insert_project_file id (a_id a) now files)
     (fun r d => status r <> 200 -> status r <> 201 -> status r <> 409 ->
                 status r <> 500 -> d = db0)
     (fun _ _ => True) db0.
Proof.
  apply (wp_save_files_inv
    (fun d => (d = db0 \/ has_project db0 id && has_user db0 (a_id a) = true)
              /\ has_project d id = has_project db0 id
              /\ has_user d (a_id a) = has_user db0 (a_id a))).
  - auto.
  - cbv beta. intros f d d' (Hd & Ht & Hu) Hi. unfold insert_project_file in Hi.
    destruct (existsb _ (project_files d)); [discriminate|].
    cbn [f_owner f_uploaded_by] in Hi.
    destruct (has_project d id && has_user d (a_id a)) eqn:F; [|discriminate].
    injection Hi as <-. rewrite Ht, Hu in F. auto.
  - cbv beta. intros f e d (Hd & Ht & Hu) Hi _ _ H409 H500. unfold sent in Hi.
    destruct (file_values_fit pf f); cbn [negb] in Hi;
      [|injection Hi as <-; exfalso; apply H500; reflexivity].
    unfold insert_project_file in Hi.
    destruct (existsb _ (project_files d)).
    + injection Hi as <-. exfalso. apply H409. reflexivity.
    + cbn [f_owner f_uploaded_by] in Hi.
      destruct (has_project d id && has_user d (a_id a)) eqn:F; [discriminate|].
      rewrite Ht, Hu in F. destruct Hd as [Hd|Hd]; [exact Hd | congruence].
  - trivial.
Qed.

Lemma wp_weaken {A} (m : M A) (S1 S2 : Response -> Db -> Prop)
  (G1 G2 : A -> Db -> Prop) db :
  wp m S1 G1 db ->
  (forall r d, S1 r d -> S2 r d) -> (forall x d, G1 x d -> G2 x d) ->
  wp m S2 G2 db.
Proof.
  unfold wp. destruct (m db) as [[r|x] d]; intros H HS HG; auto.
Qed.

(** The handlers, behind the role check of their route. *)
Lemma failure_handled pf a now r db : left_as_found r db (handle pf a now r db).
Proof.
  destruct r; unfold_route;
    match goal with
    | |- left_as_found ?r db (run ?h db) => apply (wp_run h db (left_as_found r db))
    end;
    wp_steps_to_loop; try failed_goal.
  - eapply wp_weaken; [apply (upload_task_files_failed pf a now id files db) | |].
    + intros r' d' Hs. unfold left_as_found. cbn [fst snd is_upload].
      intros A B C. destruct (C eq_refl). auto.
    + intros _ d' _. apply wp_reply. failed_goal.
  - eapply wp_weaken; [apply (upload_project_files_failed pf a now id files db) | |].
    + intros r' d' Hs. unfold left_as_found. cbn [fst snd is_upload].
      intros A B C. destruct (C eq_refl). auto.
    + intros _ d' _. apply wp_reply. failed_goal.
Qed.

(** X1.  An answer that is not a success (200 or 201) leaves the store
    exactly as it was, for every caller and every route with its
    middleware.  The exception is an upload whose loop of INSERTs was
    stopped by a duplicate file id (409) or by a value that a column does
    not take (500): the rows of its earlier files stay. *)
Theorem failure_writes_nothing
  (pf : Platform) (a : Actor) (now : Z) (r : Request) (db : Db) :
  status (fst (serve pf a now r db)) <> 200 ->
  status (fst (serve pf a now r db)) <> 201 ->
  (is_upload r = true ->
   status (fst (serve pf a now r db)) <> 409
   /\ status (fst (serve pf a now r db)) <> 500) ->
  snd (serve pf a now r db) = db.
Proof.
  destruct (accepted pf now r) eqn:Hacc.
  - rewrite (serve_accepted pf a now r db Hacc).
    intros A B C. apply (failure_handled pf a now (as_handled pf r) db A B).
    intros U. apply C. destruct r; try discriminate U; reflexivity.
  - intros _ _ _. apply (serve_refused pf a now r db Hacc).
Qed.

Lemma failure_writes_nothing_witness :
  status (fst (serve Sample.platform (Sample.actor Sample.u3) 100
                 (DeleteTask Sample.t1_id) Sample.db)) <> 200
  /\ snd (serve Sample.platform (Sample.actor Sample.u3) 100
            (DeleteTask Sample.t1_id) Sample.db) = Sample.db.
Proof.
  assert (H : status (fst (serve Sample.platform (Sample.actor Sample.u3) 100
                            (DeleteTask Sample.t1_id) Sample.db)) = 403)
    by (vm_compute; reflexivity).
  split; [rewrite H; discriminate|].
  apply (failure_writes_nothing Sample.platform (Sample.actor Sample.u3) 100
           (DeleteTask Sample.t1_id) Sample.db);
    [rewrite H; discriminate | rewrite H; discriminate | discriminate].
Defined.

(** The exception is real: the second of two files with one id stops the
    upload with 409, and the first stays stored. *)
Example upload_stopped_midway :
  let f := mkUploaded Sample.fresh "a.png" "a.png" "uploads/tasks/a.png" 10 "image/png" in
  status (fst (serve Sample.platform (Sample.actor Sample.u2) 100
                 (UploadTaskFiles Sample.t1_id [f; f]) Sample.db)) = 409
  /\ List.length (task_files (snd (serve Sample.platform (Sample.actor Sample.u2) 100
                                (UploadTaskFiles Sample.t1_id [f; f]) Sample.db))) = 1%nat.
Proof. vm_compute. split; reflexivity. Qed.

(** So does a second file whose original name the column does not take:
    the answer is 500 and the first file stays stored. *)
Example upload_stopped_by_a_long_name :
  let f := mkUploaded Sample.fresh "a.png" "a.png" "uploads/tasks/a.png" 10 "image/png" in
  let g := mkUploaded Sample.ghost "b.png"
             (string_of_list_ascii (repeat "b"%char 256)) "uploads/tasks/b.png" 10
             "image/png" in
  status (fst (serve Sample.platform (Sample.actor Sample.u2) 100
                 (UploadTaskFiles Sample.t1_id [f; g]) Sample.db)) = 500
  /\ List.length (task_files (snd (serve Sample.platform (Sample.actor Sample.u2) 100
                                (UploadTaskFiles Sample.t1_id [f; g]) Sample.db))) = 1%nat.
Proof. vm_compute. split; reflexivity. Qed.

(** ** Who created a row *)

Lemma creators_kept_tables a db d :
  tasks d = tasks db -> projects d = projects db -> creators_kept a db d.
Proof.
  intros Ht Hp. unfold creators_kept. rewrite Ht, Hp.
  split; intros x Hx; left; exists x; auto.
Qed.

Lemma creators_kept_refl a db : creators_kept a db db.
Proof. apply creators_kept_tables; reflexivity. Qed.

Lemma creators_kept_sub a db d :
  (forall t, In t (tasks d) ->
     exists t0, In t0 (tasks db) /\ t_id t0 = t_id t /\ t_created_by t0 = t_created_by t) ->
  (forall p, In p (projects d) ->
     exists p0, In p0 (projects db) /\ p_id p0 = p_id p
                /\ p_created_by p0 = p_created_by p) ->
  creators_kept a db d.
Proof. intros Ht Hp. split; intros x Hx; left; auto. Qed.

Lemma In_map_where {A} (key : A -> Id) (f : A -> A) (id : Id) (l : list A) (y : A) :
  In y (map (fun x => if id_eqb (key x) id then f x else x) l) ->
  exists x, In x l /\ (y = x \/ y = f x).
Proof.
  intros H. apply in_map_iff in H as (x & Hx & Hin).
  exists x. split; [exact Hin|]. destruct (id_eqb (key x) id); auto.
Qed.

Lemma insert_task_kept a r db db' :
  insert_task r db = inr db' -> t_created_by r = a_id a -> creators_kept a db db'.
Proof.
  intros H Hc. unfold insert_task in H.
  destruct (has_task db (t_id r)) eqn:E; [discriminate|].
  destruct (negb (task_refs_ok db r)); [discriminate|]. injection H as <-.
  split; cbn [tasks projects set_tasks].
  - intros t' Hin. apply in_app_or in Hin as [Hin|[<-|[]]].
    + left. exists t'. auto.
    + right. auto.
  - intros p' Hin. left. exists p'. auto.
Qed.

Lemma insert_project_kept a r db db' :
  insert_project r db = inr db' -> p_created_by r = a_id a -> creators_kept a db db'.
Proof.
  intros H Hc. unfold insert_project in H.
  destruct (has_project db (p_id r)) eqn:E; [discriminate|].
  destruct (negb (has_user db (p_created_by r))); [discriminate|]. injection H as <-.
  split; cbn [tasks projects set_projects].
  - intros t' Hin. left. exists t'. auto.
  - intros p' Hin. apply in_app_or in Hin as [Hin|[<-|[]]].
    + left. exists p'. auto.
    + right. auto.
Qed.

Lemma update_tasks_kept a id ok f db db' :
  update_tasks_where_id id ok f db = inr db' ->
  (forall t, t_id (f t) = t_id t /\ t_created_by (f t) = t_created_by t) ->
  creators_kept a db db'.
Proof.
  intros H Hf. unfold update_tasks_where_id in H.
  destruct (_ && _); [discriminate|]. injection H as <-.
  apply creators_kept_sub; cbn [tasks projects set_tasks].
  - intros t Hin. apply In_map_where in Hin as (x & Hx & [->| ->]).
    + exists x. auto.
    + exists x. destruct (Hf x) as [H1 H2]. auto.
  - intros p Hin. exists p. auto.
Qed.

Lemma update_projects_kept a id f db db' :
  update_projects_where_id id f db = inr db' ->
  (forall p, p_id (f p) = p_id p /\ p_created_by (f p) = p_created_by p) ->
  creators_kept a db db'.
Proof.
  intros H Hf. unfold update_projects_where_id in H. injection H as <-.
  apply creators_kept_sub; cbn [tasks projects set_projects].
  - intros t Hin. exists t. auto.
  - intros p Hin. apply In_map_where in Hin as (x & Hx & [->| ->]).
    + exists x. auto.
    + exists x. destruct (Hf x) as [H1 H2]. auto.
Qed.

Lemma update_users_kept a id f db n db' :
  update_users_where_id id f db = inr (n, db') -> creators_kept a db db'.
Proof.
  unfold update_users_where_id. destruct (existsb _ _); [discriminate|].
  intros [= _ <-]. apply creators_kept_tables; reflexivity.
Qed.

Lemma update_categories_kept a id f db db' :
  update_categories_where_id id f db = inr db' -> creators_kept a db db'.
Proof.
  unfold update_categories_where_id. destruct (existsb _ _); [discriminate|].
  intros [= <-]. apply creators_kept_tables; reflexivity.
Qed.

Lemma insert_category_kept a r db db' :
  insert_category r db = inr db' -> creators_kept a db db'.
Proof.
  unfold insert_category. destruct (_ || _); [discriminate|].
  intros [= <-]. apply creators_kept_tables; reflexivity.
Qed.

Lemma delete_tasks_kept a id db db' :
  delete_tasks_where_id id db = inr db' -> creators_kept a db db'.
Proof.
  unfold delete_tasks_where_id. destruct (has_task db id); intros [= <-];
    [|apply creators_kept_refl].
  apply creators_kept_sub; cbn [tasks projects].
  - intros t Hin. apply filter_In in Hin as [Hin _]. exists t. auto.
  - intros p Hin. exists p. auto.
Qed.

Lemma delete_projects_kept a id db db' :
  delete_projects_where_id id db = inr db' -> creators_kept a db db'.
Proof.
  unfold delete_projects_where_id. destruct (has_project db id); intros [= <-];
    [|apply creators_kept_refl].
  apply creators_kept_sub; cbn [tasks projects].
  - intros t Hin. apply filter_In in Hin as [Hin _]. exists t. auto.
  - intros p Hin. apply filter_In in Hin as [Hin _]. exists p. auto.
Qed.

Lemma delete_categories_kept a id db db' :
  delete_categories_where_id id db = inr db' -> creators_kept a db db'.
Proof.
  unfold delete_categories_where_id. destruct (has_category db id); intros [= <-];
    [|apply creators_kept_refl].
  apply creators_kept_sub; cbn [tasks projects].
  - intros t Hin. apply in_map_iff in Hin as (x & Hx & Hin).
    exists x. destruct (opt_is (t_category_id x) id); subst t; auto.
  - intros p Hin. exists p. auto.
Qed.

Lemma delete_users_kept a id db n db' :
  delete_users_where_id id db = inr (n, db') -> creators_kept a db db'.
Proof.
  unfold delete_users_where_id.
  destruct (is_empty _); [intros [= _ <-]; apply creators_kept_refl|].
  destruct (_ || _); [discriminate|]. intros [= _ <-].
  apply creators_kept_sub; cbn [tasks projects].
  - intros t Hin. apply in_map_iff in Hin as (x & Hx & Hin).
    exists x. destruct (opt_is (t_assigned_to x) id); subst t; auto.
  - intros p Hin. exists p. auto.
Qed.

Lemma upload_keeps_tables pf insert owner uploader now files
  (Stop : Response -> Db -> Prop) (Go : unit -> Db -> Prop) db0 :
  (forall r d d', insert r d = inr d' ->
     tasks d' = tasks d /\ projects d' = projects d) ->
  (forall e d, tasks d = tasks db0 -> projects d = projects db0 ->
     Stop (errorHandler e) d) ->
  (forall d, tasks d = tasks db0 -> projects d = projects db0 -> Go tt d) ->
  wp (save_files pf insert owner uploader now files) Stop Go db0.
Proof.
  intros Hins Hs Hg.
  apply (wp_save_files_inv
           (fun d => tasks d = tasks db0 /\ projects d = projects db0)).
  - auto.
  - intros f d d' [Ht Hp] Hi. destruct (Hins _ _ _ Hi) as [H1 H2]. split; congruence.
  - intros f e d [Ht Hp] _. auto.
  - intros d [Ht Hp]. auto.
Qed.

Lemma insert_task_file_tables r d d' :
  insert_task_file r d = inr d' -> tasks d' = tasks d /\ projects d' = projects d.
Proof.
  unfold insert_task_file. destruct (existsb _ _); [discriminate|].
  destruct (negb _); [discriminate|]. intros [= <-]. split; reflexivity.
Qed.

Lemma insert_project_file_tables r d d' :
  insert_project_file r d = inr d' -> tasks d' = tasks d /\ projects d' = projects d.
Proof.
  unfold insert_project_file. destruct (existsb _ _); [discriminate|].
  destruct (negb _); [discriminate|]. intros [= <-]. split; reflexivity.
Qed.

Ltac kept_goal :=
  cbn [fst snd];
  first
    [ apply creators_kept_refl
    | match goal with
      | H : insert_task _ _ = inr _ |- _ =>
          apply (insert_task_kept _ _ _ _ H eq_refl)
      | H : insert_project _ _ = inr _ |- _ =>
          apply (insert_project_kept _ _ _ _ H eq_refl)
      | H : update_tasks_where_id _ _ _ _ = inr _ |- _ =>
          apply (update_tasks_kept _ _ _ _ _ _ H (fun t => conj eq_refl eq_refl))
      | H : update_projects_where_id _ _ _ = inr _ |- _ =>
          apply (update_projects_kept _ _ _ _ _ H (fun p => conj eq_refl eq_refl))
      | H : update_users_where_id _ _ _ = inr _ |- _ =>
          apply (update_users_kept _ _ _ _ _ _ H)
      | H : update_categories_where_id _ _ _ = inr _ |- _ =>
          apply (update_categories_kept _ _ _ _ _ H)
      | H : insert_category _ _ = inr _ |- _ => apply (insert_category_kept _ _ _ _ H)
      | H : delete_tasks_where_id _ _ = inr _ |- _ => apply (delete_tasks_kept _ _ _ _ H)
      | H : delete_projects_where_id _ _ = inr _ |- _ =>
          apply (delete_projects_kept _ _ _ _ H)
      | H : delete_categories_where_id _ _ = inr _ |- _ =>
          apply (delete_categories_kept _ _ _ _ H)
      | H : delete_users_where_id _ _ = inr _ |- _ =>
          apply (delete_users_kept _ _ _ _ _ H)
      end ].

(** X2.  No request changes who created a task or a project: after any
    request of any caller, every stored task (project) either was stored
    before under the same id with the same created_by, or is a new row whose
    id was free and whose created_by is the caller. *)
Theorem creator_is_never_rewritten
  (pf : Platform) (a : Actor) (now : Z) (r : Request) (db : Db) :
  creators_kept a db (snd (handle pf a now r db)).
Proof.
  destruct r; unfold_route;
    match goal with
    | |- creators_kept a db (snd (run ?h db)) =>
        apply (wp_run h db (fun rd => creators_kept a db (snd rd)))
    end;
    wp_steps_to_loop; try kept_goal.
  - apply (upload_keeps_tables _ _ _ _ _ _ _ _ _ insert_task_file_tables).
    + intros e d Ht Hp. apply creators_kept_tables; assumption.
    + intros d Ht Hp. apply wp_reply, creators_kept_tables; assumption.
  - apply (upload_keeps_tables _ _ _ _ _ _ _ _ _ insert_project_file_tables).
    + intros e d Ht Hp. apply creators_kept_tables; assumption.
    + intros d Ht Hp. apply wp_reply, creators_kept_tables; assumption.
Qed.

(** ** Creating a task *)

Lemma errorHandler_not_201 (e : Err) : status (errorHandler e) <> 201.
Proof. destruct (errorHandler_status e) as [H|[H|[H|H]]]; rewrite H; discriminate. Qed.






(** ** Deleting *)





Lemma filter_keeps_all {A} (f : A -> bool) (l : list A) :
  existsb (fun x => negb (f x)) l = false -> filter f l = l.
Proof.
  induction l as [|x l IH]; simpl; [reflexivity|].
  intros H. apply orb_false_iff in H as [H1 H2].
  apply negb_false_iff in H1. rewrite H1, (IH H2). reflexivity.
Qed.

Lemma existsb_negb_negb {A} (f : A -> bool) (l : list A) :
  existsb (fun x => negb (negb (f x))) l = existsb f l.
Proof.
  induction l as [|x l IH]; [reflexivity|]. simpl.
  rewrite negb_involutive, IH. reflexivity.
Qed.

Lemma not_positive_count_nil {A} (l : list A) : (0 <? count l) = false -> l = [].
Proof.
  destruct l; [reflexivity|]. unfold count. intros H.
  apply Z.ltb_ge in H. simpl List.length in H. lia.
Qed.

Lemma has_after_delete {A} (key : A -> Id) (id : Id) (l : list A) :
  existsb (fun x => id_eqb (key x) id)
          (filter (fun x => negb (id_eqb (key x) id)) l) = false.
Proof.
  induction l as [|x l IH]; [reflexivity|]. simpl.
  destruct (id_eqb (key x) id) eqn:F; simpl; [exact IH|]. rewrite F. exact IH.
Qed.

Lemma delete_projects_without_tasks id db db' :
  filter (fun t => id_eqb (t_project_id t) id) (tasks db) = [] ->
  delete_projects_where_id id db = inr db' ->
  tasks db' = tasks db /\ task_files db' = task_files db
  /\ users db' = users db /\ categories db' = categories db
  /\ has_project db' id = false
  /\ projects db' = filter (fun p => negb (id_eqb (p_id p) id)) (projects db).
Proof.
  intros E. unfold delete_projects_where_id.
  destruct (has_project db id) eqn:F; intros [= <-].
  - cbn [tasks task_files users categories projects]. rewrite E.
    cbn [existsb negb].
    split; [|split; [|split; [reflexivity|split; [reflexivity|split]]]].
    + apply filter_keeps_all. rewrite existsb_negb_negb.
      apply filter_nil_iff, E.
    + apply filter_keeps_all. induction (task_files db); auto.
    + apply (has_after_delete p_id).
    + reflexivity.
  - repeat split; auto. symmetry. apply filter_keeps_all.
    rewrite existsb_negb_negb. exact F.
Qed.

Lemma delete_categories_unused id db db' :
  filter (fun t => opt_is (t_category_id t) id) (tasks db) = [] ->
  delete_categories_where_id id db = inr db' ->
  tasks db' = tasks db /\ task_files db' = task_files db
  /\ users db' = users db /\ projects db' = projects db
  /\ has_category db' id = false.
Proof.
  intros E. unfold delete_categories_where_id.
  destruct (has_category db id) eqn:F; intros [= <-]; [|repeat split; auto].
  cbn [tasks task_files users projects].
  split; [|repeat split].
  - apply filter_nil_iff in E.
    induction (tasks db) as [|t l IH]; [reflexivity|]. simpl in *.
    apply orb_false_iff in E as [E1 E2]. rewrite E1, (IH E2). reflexivity.
  - apply (has_after_delete c_id).
Qed.



Lemma has_user_select db id : has_user db id = true -> is_empty (select_user id db) = false.
Proof.
  intros H. unfold select_user.
  destruct (filter _ (users db)) eqn:E; [|reflexivity].
  apply filter_nil_iff in E. unfold has_user in H. congruence.
Qed.

Lemma unassigned_everywhere id (l : list TaskRow) t' :
  In t' (map (fun t => if opt_is (t_assigned_to t) id
                       then mkTask (t_id t) (t_title t) (t_description t)
                              (t_project_id t) None (t_category_id t)
                              (t_status t) (t_priority t) (t_due_date t)
                              (t_estimated_hours t) (t_created_by t)
                              (t_created_at t) (t_updated_at t)
                       else t) l) ->
  t_assigned_to t' <> Some id.
Proof.
  intros H. apply in_map_iff in H as (t & <- & _).
  destruct (opt_is (t_assigned_to t) id) eqn:E; cbn [t_assigned_to].
  - discriminate.
  - intros X. apply opt_is_eq in X. congruence.
Qed.

(** X6.  "Delete user" by an admin, for another user who exists and created
    no project and no task: when that user uploaded a file, the DELETE is
    stopped by the foreign key of the file table and the answer is 500 with
    nothing written; otherwise the answer is 200, the user row is gone, no
    task is lost and no task is assigned to the deleted id any more. *)
Theorem user_delete_outcomes
  (pf : Platform) (a : Actor) (now : Z) (id : Id) (db : Db) :
  a_role a = Admin ->
  a_id a <> id ->
  has_user db id = true ->
  existsb (fun p => id_eqb (p_created_by p) id) (projects db) = false ->
  existsb (fun t => id_eqb (t_created_by t) id) (tasks db) = false ->
  let uploaded :=
    existsb (fun f => id_eqb (f_uploaded_by f) id) (project_files db)
    || existsb (fun f => id_eqb (f_uploaded_by f) id) (task_files db) in
  let answer := handle pf a now (DeleteUser id) db in
  (uploaded = true -> status (fst answer) = 500 /\ snd answer = db)
  /\ (uploaded = false ->
      status (fst answer) = 200
      /\ has_user (snd answer) id = false
      /\ map t_id (tasks (snd answer)) = map t_id (tasks db)
      /\ (forall t', In t' (tasks (snd answer)) -> t_assigned_to t' <> Some id)
      /\ projects (snd answer) = projects db).
Proof.
  intros Hr Hn Hu Hp Ht uploaded answer. subst answer.
  unfold handle, route, users_delete, authorizeRoles.
  rewrite Hr. cbn [existsb role_eqb orb].
  assert (Hs : id_eqb (a_id a) id = false).
  { destruct (id_eqb (a_id a) id) eqn:E; [|reflexivity].
    apply id_eqb_eq in E. contradiction. }
  unfold run, bind, query, execute_rows. rewrite Hs. cbn [stop_if ret].
  rewrite (proj2 (filter_nil_iff _ _) Hp), (proj2 (filter_nil_iff _ _) Ht).
  cbn [count List.length Z.of_nat Z.ltb Z.compare orb stop_if ret].
  unfold delete_users_where_id.
  fold (select_user id db). rewrite (has_user_select db id Hu), Hp, Ht.
  cbn [orb]. fold uploaded.
  destruct uploaded; split; intros X; try discriminate X.
  - split; reflexivity.
  - cbn [fst snd stop_if].
    assert (Hc : (count (select_user id db) =? 0) = false).
    { destruct (select_user id db) eqn:E.
      - pose proof (has_user_select db id Hu) as Y. rewrite E in Y. discriminate.
      - unfold count. simpl List.length. apply Z.eqb_neq. lia. }
    rewrite Hc. cbv beta iota delta [stop_if ret reply fst snd json status].
    cbn [tasks projects users].
    split; [reflexivity|]. split; [apply (has_after_delete u_id)|].
    split; [|split; [apply unassigned_everywhere | reflexivity]].
    rewrite map_map. apply map_ext. intros t.
    destruct (opt_is (t_assigned_to t) id); reflexivity.
Qed.

Lemma user_delete_outcomes_witness :
  status (fst (handle Sample.platform (Sample.actor Sample.root) 100
                 (DeleteUser Sample.u2_id) Sample.db)) = 200
  /\ has_user (snd (handle Sample.platform (Sample.actor Sample.root) 100
                      (DeleteUser Sample.u2_id) Sample.db)) Sample.u2_id = false.
Proof.
  destruct (user_delete_outcomes Sample.platform (Sample.actor Sample.root) 100
              Sample.u2_id Sample.db) as [_ H]; try reflexivity; [discriminate|].
  destruct (H eq_refl) as (H1 & H2 & _). split; assumption.
Defined.

(** The other outcome on a store where [u2] has uploaded a file. *)
Example delete_user_with_uploads :
  let db := mkDb (users Sample.db) (categories Sample.db) (projects Sample.db)
              (tasks Sample.db) []
              [mkFile Sample.fresh Sample.t1_id "a.png" "a.png" "uploads/tasks/a.png" 10
                 "image/png" Sample.u2_id 50] in
  status (fst (handle Sample.platform (Sample.actor Sample.root) 100
                 (DeleteUser Sample.u2_id) db)) = 500.
Proof. vm_compute. reflexivity. Qed.

(** ** The user routes for a caller who is not an admin *)

Lemma Forall2_map_self {A} (R : A -> A -> Prop) (g : A -> A) (l : list A) :
  (forall x, R x (g x)) -> Forall2 R l (map g l).
Proof. intros H. induction l; simpl; constructor; auto. Qed.

Lemma own_row_only_refl a db : own_row_only a db db.
Proof.
  split; [|auto]. rewrite <- (map_id (users db)) at 2.
  apply Forall2_map_self. intros u. auto.
Qed.

Lemma update_own_row a id f db n db' :
  update_users_where_id id f db = inr (n, db') ->
  id = a_id a ->
  (forall u, u_id (f u) = u_id u /\ u_role (f u) = u_role u
             /\ u_is_active (f u) = u_is_active u) ->
  own_row_only a db db'.
Proof.
  unfold update_users_where_id. destruct (existsb _ _); [discriminate|].
  intros [= _ <-] -> Hf. split; [|auto]. cbn [users set_users].
  apply Forall2_map_self. intros u.
  destruct (id_eqb (u_id u) (a_id a)) eqn:E.
  - destruct (Hf u) as (H1 & H2 & H3). repeat split; auto.
    apply id_eqb_eq in E. intros X. contradiction.
  - auto.
Qed.

Lemma caller_is_target (x id : Id) :
  negb (id_eqb x id) && true = false -> id = x.
Proof.
  rewrite andb_true_r. intros H. apply negb_false_iff, id_eqb_eq in H. auto.
Qed.

Lemma avatar_own_row_only pf a now id file db :
  role_eqb (a_role a) Admin = false ->
  own_row_only a db (snd (handle pf a now (UploadUserAvatar id file) db)).
Proof.
  intros Hne. unfold_route. rewrite ?Hne. cbn [negb andb].
  match goal with
  | |- context [run ?h db] =>
      apply (wp_run h db (fun rd => own_row_only a db (snd rd)))
  end.
  wp_steps; cbn [fst snd]; try apply own_row_only_refl.
  all: match goal with
  | H : update_users_where_id _ _ _ = inr _,
    Hself : negb (id_eqb _ _) && true = false |- _ =>
      apply (update_own_row a _ _ _ _ _ H (caller_is_target _ _ Hself))
  end; intros u0; cbn [u_id u_role u_is_active]; auto.
Qed.

(** X7.  A caller who is not an admin changes, through "Update user",
    "Update user password" and "Upload user avatar", no row but the one of
    their own id, and on that row neither the role nor the active flag;
    none of the five other tables is touched.  "Update user" also leaves
    every password as it was. *)
Theorem non_admin_changes_own_row_only
  (pf : Platform) (a : Actor) (now : Z) (id : Id) (b : UserBody)
  (cur new : string) (file : option UploadedFile) (db : Db) :
  a_role a <> Admin ->
  own_row_only a db (snd (serve pf a now (UpdateUser id b) db))
  /\ map u_password (users (snd (serve pf a now (UpdateUser id b) db)))
     = map u_password (users db)
  /\ own_row_only a db (snd (serve pf a now (UpdateUserPassword id cur new) db))
  /\ own_row_only a db (snd (serve pf a now (UploadUserAvatar id file) db)).
Proof.
  intros Hr.
  assert (Hne : role_eqb (a_role a) Admin = false).
  { destruct (role_eqb (a_role a) Admin) eqn:E; [|reflexivity].
    apply role_eqb_eq in E. contradiction. }
  rewrite (serve_accepted pf a now (UpdateUser id b) db eq_refl),
    (serve_accepted pf a now (UpdateUserPassword id cur new) db eq_refl).
  cbn [as_handled].
  split; [|split; [|split]].
  - unfold_route. rewrite ?Hne. cbn [negb andb].
    match goal with
    | |- context [run ?h db] =>
        apply (wp_run h db (fun rd => own_row_only a db (snd rd)))
    end.
    wp_steps; cbn [fst snd]; try apply own_row_only_refl.
    match goal with
    | H : update_users_where_id _ _ _ = inr _,
      Hself : negb (id_eqb _ _) && true = false |- _ =>
        apply (update_own_row a _ _ _ _ _ H (caller_is_target _ _ Hself))
    end.
    intros u. cbn [u_id u_role u_is_active].
    destruct (ub_role b); auto.
  - unfold_route. rewrite ?Hne. cbn [negb andb].
    match goal with
    | |- context [run ?h db] =>
        apply (wp_run h db (fun rd =>
          map u_password (users (snd rd)) = map u_password (users db)))
    end.
    wp_steps; cbn [fst snd]; try reflexivity.
    match goal with
    | H : update_users_where_id _ _ _ = inr _ |- _ =>
        unfold update_users_where_id in H;
        destruct (existsb _ _); [discriminate H|]; injection H as _ <-
    end.
    cbn [users set_users]. rewrite map_map. apply map_ext. intros u.
    destruct (id_eqb (u_id u) id); reflexivity.
  - unfold_route. rewrite ?Hne. cbn [negb andb].
    match goal with
    | |- context [run ?h db] =>
        apply (wp_run h db (fun rd => own_row_only a db (snd rd)))
    end.
    wp_steps; cbn [fst snd]; try apply own_row_only_refl.
    all: match goal with
    | H : update_users_where_id _ _ _ = inr _,
      Hself : negb (id_eqb _ _) && true = false |- _ =>
        apply (update_own_row a _ _ _ _ _ H (caller_is_target _ _ Hself))
    end; intros u0; cbn [u_id u_role u_is_active]; auto.
  - destruct (accepted pf now (UploadUserAvatar id file)) eqn:Hacc.
    + rewrite (serve_accepted pf a now _ db Hacc). cbn [as_handled].
      apply avatar_own_row_only, Hne.
    + rewrite (proj1 (serve_refused pf a now _ db Hacc)).
      apply own_row_only_refl.
Qed.

Lemma non_admin_changes_own_row_only_witness :
  a_role (Sample.actor Sample.u1) <> Admin
  /\ own_row_only (Sample.actor Sample.u1) Sample.db
       (snd (serve Sample.platform (Sample.actor Sample.u1) 100
               (UpdateUser Sample.u1_id (mkUserBody "New name" "" None)) Sample.db)).
Proof.
  assert (H : a_role (Sample.actor Sample.u1) <> Admin) by discriminate.
  split; [exact H|].
  apply (non_admin_changes_own_row_only Sample.platform (Sample.actor Sample.u1) 100
           Sample.u1_id (mkUserBody "New name" "" None) "" "" None Sample.db H).
Defined.

Example update_own_name :
  map u_name (users (snd (serve Sample.platform (Sample.actor Sample.u1) 100
                            (UpdateUser Sample.u1_id (mkUserBody "New name" "" None))
                            Sample.db)))
  = ["root"; "m1"; "m2"; "New name"; "u2"; "u3"; "u4"].
Proof. vm_compute. reflexivity. Qed.

(** ** Passwords, the active flag and login *)

Lemma update_users_same_email id f db :
  (forall u, u_email (f u) = u_email u) ->
  update_users_where_id id f db
  = inr (count (select_user id db),
         set_users db
           (map (fun u => if id_eqb (u_id u) id then f u else u) (users db))).
Proof.
  intros Hf. unfold update_users_where_id.
  assert (E : existsb (fun u =>
       id_eqb (u_id u) id
       && negb (String.eqb (u_email (f u)) (u_email u))
       && existsb (fun o => negb (id_eqb (u_id o) id)
                            && String.eqb (u_email o) (u_email (f u)))
                  (users db)) (users db) = false).
  { generalize (users db) at 1. intros inner.
    induction (users db) as [|u l IH]; [reflexivity|]. simpl.
    rewrite Hf, String.eqb_refl, andb_false_r. exact IH. }
  rewrite E. reflexivity.
Qed.


Lemma filter_map_commute {A} (p : A -> bool) (g : A -> A) (l : list A) :
  (forall x, p (g x) = p x) -> filter p (map g l) = map g (filter p l).
Proof.
  intros H. induction l as [|x l IH]; [reflexivity|]. simpl.
  rewrite H. destruct (p x); simpl; rewrite IH; reflexivity.
Qed.

Lemma filter_only {A} (P : A -> bool) (l : list A) (u : A) :
  NoDup l -> In u l -> P u = true -> (forall v, In v l -> P v = true -> v = u) ->
  filter P l = [u].
Proof.
  induction l as [|x l IH]; simpl; intros Hnd Hin Hu Hall; [contradiction|].
  inversion Hnd as [|? ? Hnot Hnd']; subst.
  destruct Hin as [->|Hin].
  - rewrite Hu. f_equal. apply filter_nil_iff.
    destruct (existsb P l) eqn:E; [|reflexivity].
    apply existsb_exists in E as (y & Hy & Hp).
    exfalso. apply Hnot. rewrite <- (Hall y (or_intror Hy) Hp). exact Hy.
  - destruct (P x) eqn:Hx.
    + exfalso. apply Hnot. rewrite (Hall x (or_introl eq_refl) Hx). exact Hin.
    + apply IH; auto.
Qed.

(** The row a lookup by email finds in a table whose emails are unique. *)
Lemma email_lookup pf db u :
  emails_unique pf db -> In u (users db) ->
  filter (fun x => sql_equal pf (u_email x) (u_email u)) (users db) = [u].
Proof.
  intros [Hnd Hci] Hin. apply filter_only.
  - apply (NoDup_map_inv u_email), Hnd.
  - exact Hin.
  - apply sql_equal_refl.
  - intros v Hv Hp. apply (NoDup_map_inj u_email (users db)); auto.
Qed.

(** The rows login finds by email after an update that keeps the emails. *)
Lemma email_lookup_after_update pf id f db u :
  (forall x, u_email (f x) = u_email x) ->
  emails_unique pf db -> In u (users db) -> u_id u = id ->
  filter (fun x => sql_equal pf (u_email x) (u_email u))
    (map (fun x => if id_eqb (u_id x) id then f x else x) (users db)) = [f u].
Proof.
  intros Hf Hnd Hin Hid.
  rewrite filter_map_commute.
  - rewrite (email_lookup pf db u Hnd Hin). simpl.
    rewrite Hid, id_eqb_refl. reflexivity.
  - intros x. destruct (id_eqb (u_id x) id); [rewrite Hf|]; reflexivity.
Qed.

(** The emails of the sample store are unique. *)
Ltac sample_emails_unique :=
  split;
  [ simpl; repeat constructor; simpl; intuition discriminate
  | let v := fresh "v" in let w := fresh "w" in
    let Hv := fresh "Hv" in let Hw := fresh "Hw" in let H := fresh "H" in
    intros v w Hv Hw; simpl in Hv, Hw;
    repeat (destruct Hv as [<-|Hv]; [|]);
    try contradiction;
    repeat (destruct Hw as [<-|Hw]; [|]);
    try contradiction;
    intros H; first [reflexivity | vm_compute in H; discriminate H] ].

(** What a 200 of "Update user password" rests on. *)
Lemma password_updated pf a now id cur new db :
  status (fst (handle pf a now (UpdateUserPassword id cur new) db)) = 200 ->
  truthy new = true
  /\ snd (handle pf a now (UpdateUserPassword id cur new) db)
     = set_users db
         (map (fun u => if id_eqb (u_id u) id
                        then mkUser (u_id u) (u_name u) (u_email u)
                               (bcrypt_hash pf new) (u_role u) (u_is_active u)
                               (u_avatar_url u) (u_created_at u) now (u_last_login u)
                        else u) (users db)).
Proof.
  unfold_route.
  match goal with
  | |- context [run ?h db] =>
      apply (wp_run h db (fun rd =>
        status (fst rd) = 200 ->
        truthy new = true
        /\ snd rd = set_users db
          (map (fun u => if id_eqb (u_id u) id
                         then mkUser (u_id u) (u_name u) (u_email u)
                                (bcrypt_hash pf new) (u_role u) (u_is_active u)
                                (u_avatar_url u) (u_created_at u) now
                                (u_last_login u)
                         else u) (users db))))
  end.
  wp_steps; cbn [status fst snd]; try discriminate;
    try (intros X; exfalso; eapply errorHandler_not_200; exact X).
  all: intros _; split;
    [ match goal with
      | H : negb (truthy _) || _ = false |- _ =>
          apply orb_false_iff in H as [H _]; apply negb_false_iff in H; exact H
      end
    | match goal with
      | H : update_users_where_id _ _ _ = inr _ |- _ =>
          rewrite update_users_same_email in H by (intros; reflexivity);
          injection H as _ <-; reflexivity
      end ].
Qed.

Lemma login_of_single_row pf env now e pw db u :
  filter (fun x => sql_equal pf (u_email x) e) (users db) = [u] ->
  u_is_active u = true ->
  bcrypt_compare pf pw (u_password u) = true ->
  fst (run (auth_login pf env now e pw) db)
  = json "Login successful" (LoginData u (sign_access env u now) (sign_refresh env u now)).
Proof.
  intros Hf Ha Hp. unfold auth_login, run, bind, query. rewrite Hf.
  rewrite Ha, Hp. cbn [negb stop_if ret].
  unfold execute_rows. rewrite update_users_same_email by (intros; reflexivity).
  reflexivity.
Qed.

(** The login route on an email and a password that [schemas.login]
    accepts. *)
Lemma login_accepted pf env now e pw :
  joi_email pf e = true -> truthy pw = true ->
  login pf env now e pw = auth_login pf env now e pw.
Proof.
  intros He Hp. unfold login, schemas_login. rewrite He, Hp. reflexivity.
Qed.

(** X8.  With a bcrypt whose compare accepts what its hash produced, and
    emails that are unique in the users table: after a 200 of "Update user
    password" for the id of an active user whose email [schemas.login]
    accepts, a login with that email and the new password succeeds, and the
    tokens it issues are signed for that user's id and role. *)
Theorem password_change_then_login
  (pf : Platform) (env : Env) (a : Actor) (now now' : Z) (id : Id)
  (cur new : string) (db : Db) (u : UserRow) :
  (forall p, bcrypt_compare pf p (bcrypt_hash pf p) = true) ->
  emails_unique pf db ->
  In u (users db) -> u_id u = id -> u_is_active u = true ->
  joi_email pf (u_email u) = true ->
  status (fst (serve pf a now (UpdateUserPassword id cur new) db)) = 200 ->
  exists u',
    fst (run (login pf env now' (u_email u) new)
             (snd (serve pf a now (UpdateUserPassword id cur new) db)))
    = json "Login successful"
        (LoginData u' (sign_access env u' now') (sign_refresh env u' now'))
    /\ u_id u' = id /\ u_role u' = u_role u.
Proof.
  intros Hb Hnd Hin Hid Hact Hmail H.
  rewrite (serve_accepted pf a now (UpdateUserPassword id cur new) db eq_refl) in *.
  cbn [as_handled] in *.
  destruct (password_updated pf a now id cur new db H) as [Hnew Hdb].
  rewrite Hdb, (login_accepted pf env now' _ _ Hmail Hnew).
  eexists. split; [|split].
  - apply login_of_single_row.
    + cbn [users set_users].
      apply (email_lookup_after_update pf id _ db u); auto.
    + exact Hact.
    + apply Hb.
  - exact Hid.
  - reflexivity.
Qed.

Lemma password_change_then_login_witness :
  status (fst (run (login Sample.platform Sample.env 101 (u_email Sample.u1)
                      "correct horse")
                   (snd (serve Sample.platform (Sample.actor Sample.u1) 100
                           (UpdateUserPassword Sample.u1_id "u1" "correct horse")
                           Sample.db)))) = 200.
Proof.
  assert (Hnd : emails_unique Sample.platform Sample.db) by sample_emails_unique.
  destruct (password_change_then_login Sample.platform Sample.env
              (Sample.actor Sample.u1) 100 101 Sample.u1_id "u1" "correct horse"
              Sample.db Sample.u1) as (u' & H & _).
  - intros p. simpl. apply String.eqb_refl.
  - exact Hnd.
  - simpl. tauto.
  - reflexivity.
  - reflexivity.
  - reflexivity.
  - vm_compute. reflexivity.
  - rewrite H. reflexivity.
Defined.

(** What a 200 of "Deactivate user" rests on. *)
Lemma user_deactivated pf a now id db :
  status (fst (handle pf a now (DeactivateUser id) db)) = 200 ->
  snd (handle pf a now (DeactivateUser id) db)
  = set_users db
      (map (fun u => if id_eqb (u_id u) id then set_is_active false now u else u)
           (users db)).
Proof.
  unfold_route.
  match goal with
  | |- context [run ?h db] =>
      apply (wp_run h db (fun rd =>
        status (fst rd) = 200 ->
        snd rd = set_users db
          (map (fun u => if id_eqb (u_id u) id then set_is_active false now u else u)
               (users db))))
  end.
  wp_steps; cbn [status fst snd]; try discriminate;
    try (intros X; exfalso; eapply errorHandler_not_200; exact X).
  intros _.
  match goal with
  | H : update_users_where_id _ _ _ = inr _ |- _ =>
      rewrite update_users_same_email in H by (intros; reflexivity);
      injection H as _ <-; reflexivity
  end.
Qed.

Lemma no_active_row_after_deactivation id now (l : list UserRow) subject :
  subject = id ->
  filter (fun u => id_eqb (u_id u) subject && u_is_active u)
    (map (fun u => if id_eqb (u_id u) id then set_is_active false now u else u) l)
  = [].
Proof.
  intros ->. induction l as [|u l IH]; [reflexivity|]. simpl.
  destruct (id_eqb (u_id u) id) eqn:E.
  - cbn [set_is_active u_id u_is_active]. rewrite E. simpl. exact IH.
  - rewrite E. simpl. exact IH.
Qed.

(** X9.  After a 200 of "Deactivate user" for an id, the account is locked
    out of both ways to a new access token: a login with the email of a user
    of that id is answered 401 "Account is deactivated" whatever the
    password, for an email and a password that [schemas.login] lets through
    (emails being unique in the users table), and a refresh with a valid
    refresh token whose subject is that id is answered 401 "Invalid refresh
    token"; neither writes. *)
Theorem deactivation_locks_out
  (pf : Platform) (env : Env) (a : Actor) (now now' : Z) (id : Id) (db : Db)
  (u : UserRow) (pw : string) (t : Token) :
  emails_unique pf db ->
  In u (users db) -> u_id u = id ->
  joi_email pf (u_email u) = true -> pw <> "" ->
  tk_key t = REFRESH_TOKEN_SECRET env -> now' < tk_exp t ->
  userId (tk_payload t) = id ->
  status (fst (serve pf a now (DeactivateUser id) db)) = 200 ->
  let db' := snd (serve pf a now (DeactivateUser id) db) in
  run (login pf env now' (u_email u) pw) db'
  = (mkResponse 401 "Account is deactivated" NoData, db')
  /\ run (auth_refresh env now' (Some t)) db'
     = (mkResponse 401 "Invalid refresh token" NoData, db').
Proof.
  intros Hnd Hin Hid Hmail Hpw Hk He Hs H db'. subst db'.
  rewrite (serve_accepted pf a now (DeactivateUser id) db eq_refl) in *.
  cbn [as_handled] in *.
  assert (Hpw' : truthy pw = true).
  { unfold truthy. destruct (String.eqb_spec pw ""); [contradiction | reflexivity]. }
  rewrite (login_accepted pf env now' _ _ Hmail Hpw').
  rewrite (user_deactivated pf a now id db H). split.
  - unfold auth_login, run, bind, query. cbn [users set_users].
    rewrite (email_lookup_after_update pf id (set_is_active false now) db u); auto.
  - unfold auth_refresh. rewrite (jwt_verify_valid t _ now' Hk He).
    unfold run, bind, query. cbn [users set_users].
    rewrite (no_active_row_after_deactivation id now (users db) _ Hs).
    reflexivity.
Qed.

Lemma deactivation_locks_out_witness :
  status (fst (serve Sample.platform (Sample.actor Sample.root) 100
                 (DeactivateUser Sample.u1_id) Sample.db)) = 200
  /\ status (fst (run (login Sample.platform Sample.env 101
                         (u_email Sample.u1) "u1")
                      (snd (serve Sample.platform (Sample.actor Sample.root) 100
                              (DeactivateUser Sample.u1_id) Sample.db)))) = 401.
Proof.
  assert (H : status (fst (serve Sample.platform (Sample.actor Sample.root) 100
                            (DeactivateUser Sample.u1_id) Sample.db)) = 200)
    by (vm_compute; reflexivity).
  assert (Hnd : emails_unique Sample.platform Sample.db) by sample_emails_unique.
  split; [exact H|].
  assert (Hin : In Sample.u1 (users Sample.db)) by (simpl; tauto).
  assert (He : 101 < tk_exp (sign_refresh Sample.env Sample.u1 0))
    by (vm_compute; reflexivity).
  assert (Hpw : "u1" <> "") by discriminate.
  destruct (deactivation_locks_out Sample.platform Sample.env
              (Sample.actor Sample.root) 100 101 Sample.u1_id Sample.db Sample.u1 "u1"
              (sign_refresh Sample.env Sample.u1 0)
              Hnd Hin eq_refl eq_refl Hpw eq_refl He eq_refl H) as [Hl _].
  rewrite Hl. reflexivity.
Defined.

(** X10.  The refusals of refresh: no token is answered 401 "Refresh token
    required"; a token not signed with REFRESH_TOKEN_SECRET is answered 401
    "Invalid token"; a token signed with it whose [exp] has passed is
    answered 500 "jwt expired", since [errorHandler] knows JsonWebTokenError
    by name but not TokenExpiredError.  Refresh never writes. *)
Theorem refresh_refusals (env : Env) (now : Z) (db : Db) (t : Token)
  (any : option Token) :
  snd (run (auth_refresh env now any) db) = db
  /\ run (auth_refresh env now None) db
     = (mkResponse 401 "Refresh token required" NoData, db)
  /\ (tk_key t <> REFRESH_TOKEN_SECRET env ->
      run (auth_refresh env now (Some t)) db
      = (mkResponse 401 "Invalid token" NoData, db))
  /\ (tk_key t = REFRESH_TOKEN_SECRET env -> tk_exp t <= now ->
      run (auth_refresh env now (Some t)) db
      = (mkResponse 500 "jwt expired" NoData, db)).
Proof.
  split; [|split; [reflexivity|split]].
  - unfold auth_refresh. destruct any as [t0|]; [|reflexivity].
    destruct (jwt_verify t0 _ now); [reflexivity|].
    unfold run, bind, query. destruct (filter _ _); reflexivity.
  - intros Hk. unfold auth_refresh.
    rewrite (jwt_verify_other_secret t _ now Hk). reflexivity.
  - intros Hk He. unfold auth_refresh, jwt_verify.
    rewrite Hk, String.eqb_refl. cbn [negb].
    destruct (Z.leb_spec (tk_exp t) now); [reflexivity | lia].
Qed.

Lemma refresh_refusals_witness :
  run (auth_refresh Sample.env (seven_days + 1)
         (Some (sign_refresh Sample.env Sample.u1 0))) Sample.db
  = (mkResponse 500 "jwt expired" NoData, Sample.db).
Proof.
  apply (refresh_refusals Sample.env (seven_days + 1) Sample.db
           (sign_refresh Sample.env Sample.u1 0) None);
    [reflexivity | discriminate].
Defined.

(** ** Ordering and paging of the list routes *)

Lemma insert_by_Permutation {A} (before : A -> A -> bool) (x : A) (l : list A) :
  Permutation (insert_by before x l) (x :: l).
Proof.
  induction l as [|y l IH]; simpl; [reflexivity|].
  destruct (before x y); [reflexivity|].
  rewrite IH. apply perm_swap.
Qed.

Lemma order_by_Permutation {A} (before : A -> A -> bool) (l : list A) :
  Permutation (order_by before l) l.
Proof.
  unfold order_by. induction l as [|x l IH]; simpl; [reflexivity|].
  rewrite insert_by_Permutation. constructor. exact IH.
Qed.

Section Sorting.

Context {A : Type} (before : A -> A -> bool) (R : A -> A -> Prop).
Hypothesis before_R : forall x y, before x y = true -> R x y.
Hypothesis before_total : forall x y, before x y = false -> R y x.
Hypothesis R_trans : forall x y z, R x y -> R y z -> R x z.

Lemma insert_by_sorted (x : A) (l : list A) :
  StronglySorted R l -> StronglySorted R (insert_by before x l).
Proof.
  induction l as [|y l IH]; intros Hs; simpl.
  - constructor; constructor.
  - inversion Hs as [|y' l' Hl Hy]; subst.
    destruct (before x y) eqn:E.
    + constructor; [exact Hs|]. constructor; [auto|].
      eapply Forall_impl; [|exact Hy]. intros z Hz. eapply R_trans; eauto.
    + constructor; [auto|].
      apply Forall_forall. intros z Hz. apply insert_by_In in Hz as [->|Hz].
      * auto.
      * rewrite Forall_forall in Hy. auto.
Qed.

Lemma order_by_sorted (l : list A) : StronglySorted R (order_by before l).
Proof.
  unfold order_by. induction l as [|x l IH]; simpl.
  - constructor.
  - apply insert_by_sorted, IH.
Qed.

(** Where no two rows tie, the order leaves one answer. *)
Lemma sorted_unique (s1 s2 : list A) :
  (forall x y, In x s1 -> In y s1 -> R x y -> R y x -> x = y) ->
  Permutation s1 s2 -> StronglySorted R s1 -> StronglySorted R s2 -> s1 = s2.
Proof.
  revert s2. induction s1 as [|x s1 IH]; intros s2 Hanti Hp H1 H2.
  - apply Permutation_nil in Hp. auto.
  - destruct s2 as [|y s2].
    { symmetry in Hp. apply Permutation_nil in Hp. discriminate. }
    assert (Hxy : x = y).
    { assert (Hx : In x (y :: s2)).
      { apply (Permutation_in x Hp). left. reflexivity. }
      assert (Hy : In y (x :: s1)).
      { apply (Permutation_in y (Permutation_sym Hp)). left. reflexivity. }
      destruct Hx as [Hx|Hx]; [auto|]. destruct Hy as [Hy|Hy]; [auto|].
      inversion H1 as [|? ? _ F1]; subst. inversion H2 as [|? ? _ F2]; subst.
      rewrite Forall_forall in F1, F2.
      apply Hanti; [left; reflexivity | right; exact Hy | auto | auto]. }
    subst y. f_equal. apply IH.
    + intros a b Ha Hb. apply Hanti; right; assumption.
    + apply (Permutation_cons_inv Hp).
    + inversion H1; assumption.
    + inversion H2; assumption.
Qed.

End Sorting.

Lemma StronglySorted_firstn {A} (R : A -> A -> Prop) (n : nat) (l : list A) :
  StronglySorted R l -> StronglySorted R (firstn n l).
Proof.
  revert n. induction l as [|x l IH]; intros [|n] Hs; simpl; try constructor.
  - inversion Hs; subst. auto.
  - inversion Hs as [|? ? _ Hx]; subst. rewrite Forall_forall in *.
    intros z Hz. apply Hx. rewrite <- (firstn_skipn n l).
    apply in_or_app. left. exact Hz.
Qed.

Lemma StronglySorted_map {A B} (f : A -> B) (R : B -> B -> Prop) (l : list A) :
  StronglySorted (fun x y => R (f x) (f y)) l -> StronglySorted R (map f l).
Proof.
  induction 1 as [|x l _ IH Hx]; simpl; constructor; auto.
  rewrite Forall_forall in *. intros z Hz.
  apply in_map_iff in Hz as (y & <- & Hy). auto.
Qed.

Lemma firstn_plus {A} (a b : nat) (l : list A) :
  firstn (a + b) l = (firstn a l ++ firstn b (skipn a l))%list.
Proof.
  revert l. induction a as [|a IH]; intros l; [reflexivity|].
  destruct l as [|x l]; simpl.
  - rewrite firstn_nil. reflexivity.
  - rewrite IH. reflexivity.
Qed.

(** The pages 1 .. n of a result, one after the other, are its first
    [n * limit] rows. *)
Lemma walk_paginate {A} (limit : positive) (l : list A) (n : nat) :
  walk (fun k => paginate k limit l) n = firstn (n * Pos.to_nat limit) l.
Proof.
  unfold walk. induction n as [|n IH]; [reflexivity|].
  rewrite seq_S, map_app, concat_app, IH. cbn [map List.concat].
  rewrite app_nil_r. unfold paginate.
  rewrite Nat2Pos.id by lia.
  replace (1 + n - 1)%nat with n by lia.
  replace (S n * Pos.to_nat limit)%nat
    with (n * Pos.to_nat limit + Pos.to_nat limit)%nat by lia.
  symmetry. apply firstn_plus.
Qed.

Lemma walk_map {A B} (f : A -> B) (page : positive -> list A) (n : nat) :
  walk (fun k => map f (page k)) n = map f (walk page n).
Proof.
  unfold walk. rewrite concat_map, map_map. reflexivity.
Qed.

Lemma paginate_length {A} (page limit : positive) (l : list A) :
  (List.length (paginate page limit l) <= Pos.to_nat limit)%nat.
Proof. unfold paginate. apply firstn_le_length. Qed.

Lemma walk_all {A} (limit : positive) (l : list A) (n : nat) :
  count l <= Z.of_nat n * Z.pos limit ->
  walk (fun k => paginate k limit l) n = l.
Proof.
  intros H. rewrite walk_paginate. apply firstn_all2.
  unfold count in H. nia.
Qed.

Lemma task_before_order x y : task_before x y = true -> task_order (fst x) (fst y).
Proof.
  unfold task_before, task_order. intros H.
  apply orb_true_iff in H as [H|H].
  - left. apply Z.ltb_lt. exact H.
  - right. apply andb_true_iff in H as [H1 H2].
    apply Z.eqb_eq in H1. apply Z.leb_le in H2. auto.
Qed.

Lemma task_before_total x y : task_before x y = false -> task_order (fst y) (fst x).
Proof.
  unfold task_before, task_order. intros H.
  apply orb_false_iff in H as [H1 H2]. apply Z.ltb_ge in H1.
  apply andb_false_iff in H2 as [H2|H2].
  - apply Z.eqb_neq in H2. left. lia.
  - apply Z.leb_gt in H2. destruct (Z.eq_dec (priority_index (t_priority (fst y)))
                                      (priority_index (t_priority (fst x)))).
    + right. lia.
    + left. lia.
Qed.

Lemma task_order_trans x y z : task_order x y -> task_order y z -> task_order x z.
Proof. unfold task_order. lia. Qed.

(** X11.  "Get all tasks", asked page after page with the same filters:
    no page is longer than [limit]; the pages 1 .. n one after the other are
    in the order priority descending, then created_at descending, across the
    page borders too; the total does not depend on the page; once
    [n * limit] reaches the total, the pages hold as many rows as the total
    says.  And where no two of the rows that pass the filters tie on
    priority and created_at, ORDER BY leaves the database one answer, and
    the pages then hold the rows that pass the filters, each as often as
    the join has it. *)
Theorem task_pages_walk
  (pf : Platform) (a : Actor) (now : Z) (q : TaskQuery) (db : Db) (n : nat) :
  let answer k := data (fst (handle pf a now (GetTasks (task_page q k)) db)) in
  let pages := walk (fun k => task_rows (answer k)) n in
  let total := list_total (answer 1%positive) in
  let matching := filter (task_list_where pf a q) (tasks_join_projects db) in
  (forall k, (List.length (task_rows (answer k)) <= Pos.to_nat (tq_limit q))%nat)
  /\ (forall k, list_total (answer k) = total)
  /\ StronglySorted task_order pages
  /\ (total <= Z.of_nat n * Z.pos (tq_limit q) -> count pages = total)
  /\ ((forall x y, In x matching -> In y matching ->
         priority_index (t_priority (fst x)) = priority_index (t_priority (fst y)) ->
         t_created_at (fst x) = t_created_at (fst y) -> x = y) ->
      (forall s, Permutation s matching ->
         StronglySorted (fun x y => task_order (fst x) (fst y)) s ->
         s = order_by task_before matching)
      /\ (total <= Z.of_nat n * Z.pos (tq_limit q) ->
          Permutation pages (map fst matching))).
Proof.
  cbv zeta.
  set (l := filter (task_list_where pf a q) (tasks_join_projects db)).
  assert (Hrows : forall k,
    task_rows (data (fst (handle pf a now (GetTasks (task_page q k)) db)))
    = map fst (paginate k (tq_limit q) (order_by task_before l))) by reflexivity.
  assert (Htot : forall k,
    list_total (data (fst (handle pf a now (GetTasks (task_page q k)) db)))
    = count l) by reflexivity.
  assert (Hw : walk (fun k => task_rows
             (data (fst (handle pf a now (GetTasks (task_page q k)) db)))) n
           = map fst (firstn (n * Pos.to_nat (tq_limit q)) (order_by task_before l))).
  { rewrite <- walk_paginate, <- walk_map. reflexivity. }
  assert (Hsorted : StronglySorted (fun x y => task_order (fst x) (fst y))
                      (order_by task_before l)).
  { apply (order_by_sorted task_before).
    - apply task_before_order.
    - apply task_before_total.
    - intros x y z. apply task_order_trans. }
  assert (Hall : count l <= Z.of_nat n * Z.pos (tq_limit q) ->
                 firstn (n * Pos.to_nat (tq_limit q)) (order_by task_before l)
                 = order_by task_before l).
  { intros H. apply firstn_all2.
    rewrite (Permutation_length (order_by_Permutation task_before l)).
    unfold count in H. nia. }
  split; [|split; [|split; [|split]]].
  - intros k. rewrite Hrows, length_map. apply paginate_length.
  - intros k. rewrite !Htot. reflexivity.
  - rewrite Hw. apply StronglySorted_map, StronglySorted_firstn, Hsorted.
  - rewrite Htot, Hw. intros H. rewrite (Hall H).
    unfold count. rewrite length_map.
    rewrite (Permutation_length (order_by_Permutation task_before l)).
    reflexivity.
  - intros Hties. split.
    + intros s Hp Hs.
      apply (sorted_unique (fun x y => task_order (fst x) (fst y))); auto.
      * intros x y Hx Hy Hxy Hyx.
        apply Hties; try (apply (Permutation_in _ Hp); assumption);
          unfold task_order in Hxy, Hyx; lia.
      * rewrite Hp. symmetry. apply order_by_Permutation.
    + rewrite Htot, Hw. intros H. rewrite (Hall H).
      apply Permutation_map, order_by_Permutation.
Qed.

Lemma task_pages_walk_witness :
  Permutation
    (walk (fun k => task_rows (data (fst (handle Sample.platform
            (Sample.actor Sample.root) 0
            (GetTasks (task_page (all_tasks 1 1) k)) Sample.db)))) 2)
    (map fst (filter (task_list_where Sample.platform (Sample.actor Sample.root)
                        (all_tasks 1 1))
                (tasks_join_projects Sample.db))).
Proof.
  apply (task_pages_walk Sample.platform (Sample.actor Sample.root) 0
           (all_tasks 1 1) Sample.db 2).
  - intros x y [<-|[<-|[]]] [<-|[<-|[]]]; intros H1 H2;
      try reflexivity; discriminate.
  - vm_compute. discriminate.
Defined.

(** X12.  "Get all projects", asked page after page with the same filters:
    no page is longer than [limit]; the pages 1 .. n one after the other are
    in the order created_at descending, across the page borders too; the
    total does not depend on the page; once [n * limit] reaches the total,
    the pages hold as many rows as the total says.  And where no two of the
    projects that pass the filters have one created_at, ORDER BY leaves the
    database one answer, and the pages then hold exactly the rows of the
    projects table that pass the filters, each once per row. *)
Theorem project_pages_walk
  (pf : Platform) (a : Actor) (now : Z) (q : ProjectQuery) (db : Db) (n : nat) :
  let answer k := data (fst (handle pf a now (GetProjects (project_page q k)) db)) in
  let pages := walk (fun k => project_rows (answer k)) n in
  let total := list_total (answer 1%positive) in
  let matching := filter (project_list_where pf a q db) (projects db) in
  (forall k, (List.length (project_rows (answer k)) <= Pos.to_nat (pq_limit q))%nat)
  /\ (forall k, list_total (answer k) = total)
  /\ StronglySorted project_order pages
  /\ (total <= Z.of_nat n * Z.pos (pq_limit q) -> count pages = total)
  /\ ((forall x y, In x matching -> In y matching ->
         p_created_at x = p_created_at y -> x = y) ->
      (forall s, Permutation s matching -> StronglySorted project_order s ->
         s = order_by project_before matching)
      /\ (total <= Z.of_nat n * Z.pos (pq_limit q) -> Permutation pages matching)).
Proof.
  cbv zeta.
  set (l := filter (project_list_where pf a q db) (projects db)).
  assert (Hrows : forall k,
    project_rows (data (fst (handle pf a now (GetProjects (project_page q k)) db)))
    = paginate k (pq_limit q) (order_by project_before l)) by reflexivity.
  assert (Htot : forall k,
    list_total (data (fst (handle pf a now (GetProjects (project_page q k)) db)))
    = count l) by reflexivity.
  assert (Hw : walk (fun k => project_rows
             (data (fst (handle pf a now (GetProjects (project_page q k)) db)))) n
           = firstn (n * Pos.to_nat (pq_limit q)) (order_by project_before l)).
  { rewrite <- walk_paginate. reflexivity. }
  assert (Hsorted : StronglySorted project_order (order_by project_before l)).
  { apply (order_by_sorted project_before); unfold project_before, project_order.
    - intros x y H. apply Z.leb_le. exact H.
    - intros x y H. apply Z.leb_gt in H. lia.
    - intros x y z. lia. }
  assert (Hall : count l <= Z.of_nat n * Z.pos (pq_limit q) ->
                 firstn (n * Pos.to_nat (pq_limit q)) (order_by project_before l)
                 = order_by project_before l).
  { intros H. apply firstn_all2.
    rewrite (Permutation_length (order_by_Permutation project_before l)).
    unfold count in H. nia. }
  split; [|split; [|split; [|split]]].
  - intros k. rewrite Hrows. apply paginate_length.
  - intros k. rewrite !Htot. reflexivity.
  - rewrite Hw. apply StronglySorted_firstn, Hsorted.
  - rewrite Htot, Hw. intros H. rewrite (Hall H).
    unfold count.
    rewrite (Permutation_length (order_by_Permutation project_before l)).
    reflexivity.
  - intros Hties. split.
    + intros s Hp Hs.
      apply (sorted_unique project_order); auto.
      * intros x y Hx Hy Hxy Hyx.
        apply Hties; try (apply (Permutation_in _ Hp); assumption).
        unfold project_order in Hxy, Hyx. lia.
      * rewrite Hp. symmetry. apply order_by_Permutation.
    + rewrite Htot, Hw. intros H. rewrite (Hall H).
      apply order_by_Permutation.
Qed.

Lemma project_pages_walk_witness :
  Permutation
    (walk (fun k => project_rows (data (fst (handle Sample.platform
            (Sample.actor Sample.root) 0
            (GetProjects (project_page (all_projects 1 2) k)) Sample.db)))) 2)
    (filter (project_list_where Sample.platform (Sample.actor Sample.root)
               (all_projects 1 2) Sample.db)
       (projects Sample.db)).
Proof.
  apply (project_pages_walk Sample.platform (Sample.actor Sample.root) 0
           (all_projects 1 2) Sample.db 2).
  - intros x y [<-|[<-|[<-|[]]]] [<-|[<-|[<-|[]]]]; intros H;
      try reflexivity; discriminate.
  - vm_compute. discriminate.
Defined.

(** ** What a project answer shows *)






(** ** Register, and the default data of the migration *)

Lemma filter_app_last {A} (f : A -> bool) (l : list A) (x : A) :
  filter f l = [] -> f x = true -> filter f (l ++ [x]) = [x].
Proof.
  intros Hl Hx. rewrite filter_app, Hl. simpl. rewrite Hx. reflexivity.
Qed.

(** A login with the email and the password of a row that is the only one
    of its email, is active and stores the hash of the password. *)
Lemma login_of_new_row pf env now db u pw :
  (forall p, bcrypt_compare pf p (bcrypt_hash pf p) = true) ->
  filter (fun x => sql_equal pf (u_email x) (u_email u)) (users db) = [u] ->
  u_is_active u = true -> u_password u = bcrypt_hash pf pw ->
  fst (run (auth_login pf env now (u_email u) pw) db)
  = json "Login successful"
      (LoginData u (sign_access env u now) (sign_refresh env u now)).
Proof.
  intros Hb Hf Ha Hp. unfold auth_login, run, bind, query. rewrite Hf.
  rewrite Ha, Hp, Hb. cbn [negb stop_if ret].
  unfold execute_rows.
  rewrite update_users_same_email by (intros; reflexivity).
  reflexivity.
Qed.

Lemma long_password_truthy (p : string) : (8 <=? js_length p)%nat = true -> truthy p = true.
Proof.
  destruct p; [discriminate | reflexivity].
Qed.

(** A value that the database finds in no row is in no row. *)
Lemma none_sql_equal_string {A} pf (key : A -> string) (x : string) (l : list A) :
  existsb (fun r => sql_equal pf (key r) x) l = false ->
  existsb (fun r => String.eqb (key r) x) l = false.
Proof.
  intros H. apply (none_sql_equal pf key x l). rewrite H. reflexivity.
Qed.

(** What a 201 of the register handler rests on. *)
Lemma registered pf now userId name email password r db :
  status (fst (run (auth_register pf now userId name email password r) db)) = 201 ->
  is_some r = true
  /\ stores pf (VARCHAR 100) name && stores pf (VARCHAR 191) email = true
  /\ filter (fun x => sql_equal pf (u_email x) email) (users db) = []
  /\ has_user db userId = false
  /\ snd (run (auth_register pf now userId name email password r) db)
     = set_users db
         (users db ++ [new_user userId name email (bcrypt_hash pf password)
                         (role_or_user r) now]).
Proof.
  unfold auth_register, run, bind, query.
  destruct (filter _ (users db)) eqn:Ef; [|discriminate].
  cbn [is_empty negb stop_if ret]. unfold execute, sent.
  destruct (is_some r);
    [|cbn [negb fst]; intros X; exfalso; eapply errorHandler_not_201; exact X].
  destruct (stores pf (VARCHAR 100) name && stores pf (VARCHAR 191) email);
    [|cbn [negb fst]; intros X; exfalso; eapply errorHandler_not_201; exact X].
  cbn [negb]. unfold insert_user. cbn [new_user u_id u_email].
  destruct (has_user db userId) eqn:Hu;
    [cbn [orb fst]; intros X; exfalso; eapply errorHandler_not_201; exact X|].
  destruct (existsb _ (users db)) eqn:Hx;
    [cbn [orb fst]; intros X; exfalso; eapply errorHandler_not_201; exact X|].
  cbn [orb fst snd]. intros _. repeat split; auto.
Qed.

(** X14.  Register and login, each behind its schema.  A body that
    [schemas.register] refuses is answered 400.  An accepted body with an
    email that the database takes for that of a user is answered 409
    "Email already registered".  An accepted body with a free email and
    without a role is answered 500: the default of the schema does not
    reach the INSERT.  None of the three writes.  After a 201 the body was
    accepted and named a role, the email was free, and the store has one
    more user: active, with the role the body named (admin included; no
    caller is asked for); a login with the same email and password
    succeeds for that row. *)
Theorem register_then_login
  (pf : Platform) (env : Env) (now now' : Z) (userId : Id)
  (name email password : string) (r : option Role) (db : Db) :
  (forall p, bcrypt_compare pf p (bcrypt_hash pf p) = true) ->
  let reg := run (register pf now userId name email password r) db in
  let u := new_user userId name email (bcrypt_hash pf password) (role_or_user r) now in
  let taken := existsb (fun x => sql_equal pf (u_email x) email) (users db) in
  (schemas_register pf name email password = false ->
   reg = (validation_error, db))
  /\ (schemas_register pf name email password = true -> taken = true ->
      reg = (mkResponse 409 "Email already registered" NoData, db))
  /\ (schemas_register pf name email password = true -> taken = false ->
      r = None ->
      status (fst reg) = 500 /\ snd reg = db)
  /\ (status (fst reg) = 201 ->
      schemas_register pf name email password = true
      /\ r <> None /\ taken = false
      /\ has_user db userId = false
      /\ snd reg = set_users db (users db ++ [u])
      /\ fst (run (login pf env now' email password) (snd reg))
         = json "Login successful"
             (LoginData u (sign_access env u now') (sign_refresh env u now'))).
Proof.
  intros Hb. cbv zeta. unfold register.
  destruct (schemas_register pf name email password) eqn:Hs;
    cbn [validateRequest].
  - split; [discriminate|]. split; [|split].
    + intros _ He. unfold auth_register, run, bind, query.
      destruct (filter _ (users db)) eqn:Ef; [|reflexivity].
      apply filter_nil_iff in Ef. rewrite He in Ef. discriminate.
    + intros _ He ->. unfold auth_register, run, bind, query.
      apply filter_nil_iff in He. rewrite He. split; reflexivity.
    + intros H.
      destruct (registered pf now userId name email password r db H)
        as (Hr & _ & Ef & Hu & Hdb).
      split; [reflexivity|]. split; [destruct r; [discriminate | discriminate Hr]|].
      split; [apply filter_nil_iff, Ef|]. split; [exact Hu|]. split; [exact Hdb|].
      unfold schemas_register in Hs.
      apply andb_true_iff in Hs as [Hs _]. apply andb_true_iff in Hs as [Hs Hl].
      apply andb_true_iff in Hs as [_ Hm].
      rewrite Hdb, (login_accepted pf env now' _ _ Hm (long_password_truthy _ Hl)).
      apply (login_of_new_row pf env now'
               (set_users db (users db ++ [new_user userId name email
                                             (bcrypt_hash pf password)
                                             (role_or_user r) now]))
               (new_user userId name email (bcrypt_hash pf password)
                  (role_or_user r) now) password);
        auto.
      cbn [users set_users new_user u_email]. apply filter_app_last; [exact Ef|].
      apply sql_equal_refl.
  - split; [reflexivity|]. split; [discriminate|]. split; [discriminate|].
    discriminate.
Qed.

Lemma register_then_login_witness :
  status (fst (run (login Sample.platform Sample.env 101
                      "eve@example.com" "Secret#1")
                   (snd (run (register Sample.platform 100 Sample.fresh "Eve"
                                "eve@example.com" "Secret#1" (Some Admin))
                             Sample.db)))) = 200.
Proof.
  destruct (register_then_login Sample.platform Sample.env 100 101 Sample.fresh "Eve"
              "eve@example.com" "Secret#1" (Some Admin) Sample.db) as (_ & _ & _ & H).
  - intros p. simpl. apply String.eqb_refl.
  - destruct H as (_ & _ & _ & _ & _ & H); [vm_compute; reflexivity|].
    rewrite H. reflexivity.
Defined.

(** A body without a role, which the schema accepts, is answered 500. *)
Example register_without_role :
  status (fst (run (register Sample.platform 100 Sample.fresh "Eve"
                      "eve@example.com" "Secret#1" None) Sample.db)) = 500.
Proof. vm_compute. reflexivity. Qed.

Lemma insert_ignore_category_grows r db :
  users (insert_ignore_category r db) = users db
  /\ projects (insert_ignore_category r db) = projects db
  /\ tasks (insert_ignore_category r db) = tasks db
  /\ project_files (insert_ignore_category r db) = project_files db
  /\ task_files (insert_ignore_category r db) = task_files db
  /\ exists cs, categories (insert_ignore_category r db)
                = (categories db ++ cs)%list.
Proof.
  unfold insert_ignore_category, insert_category.
  destruct (has_category db (c_id r) || existsb _ (categories db)).
  - repeat split. exists []. rewrite app_nil_r. reflexivity.
  - repeat split. exists [r]. reflexivity.
Qed.

Lemma default_categories_grow now (l : list (Id * string * string * string)) db :
  let db' := fold_left (fun d c =>
               match c with
               | (id, name, description, color) =>
                   insert_ignore_category
                     (mkCategory id name description color now now) d
               end) l db in
  users db' = users db /\ projects db' = projects db /\ tasks db' = tasks db
  /\ project_files db' = project_files db /\ task_files db' = task_files db
  /\ exists cs, categories db' = (categories db ++ cs)%list.
Proof.
  revert db. induction l as [|[[[id name] description] color] l IH];
    intros db; cbv zeta.
  - repeat split. exists []. rewrite app_nil_r. reflexivity.
  - cbn [fold_left].
    destruct (insert_ignore_category_grows
                (mkCategory id name description color now now) db)
      as (U & P & T & PF & TF & cs & C).
    destruct (IH (insert_ignore_category
                    (mkCategory id name description color now now) db))
      as (U' & P' & T' & PF' & TF' & cs' & C').
    rewrite U', P', T', PF', TF', C', U, P, T, PF, TF, C.
    repeat split. exists (cs ++ cs')%list. rewrite app_assoc. reflexivity.
Qed.

(** The first of the rows always goes into an empty table. *)
Lemma default_categories_nonempty now c l db :
  categories db = [] ->
  categories (fold_left (fun d c =>
               match c with
               | (id, name, description, color) =>
                   insert_ignore_category
                     (mkCategory id name description color now now) d
               end) (c :: l) db) <> [].
Proof.
  intros He. cbn [fold_left]. destruct c as [[[id name] description] color].
  destruct (default_categories_grow now l
              (insert_ignore_category
                 (mkCategory id name description color now now) db))
    as (_ & _ & _ & _ & _ & cs & C).
  cbv zeta in C. rewrite C.
  unfold insert_ignore_category, insert_category, has_category.
  rewrite He. cbn [existsb orb categories set_categories app].
  discriminate.
Qed.

Lemma count_zero_iff {A} (l : list A) : (count l =? 0) = true <-> l = [].
Proof.
  unfold count. destruct l; simpl; split; intros H;
    try reflexivity; discriminate.
Qed.

(** X15.  The default data of the migration.  [insertDefaultData] changes
    no row and removes none: it only appends categories and at most one
    user.  It leaves the categories table not empty.  When no user had the
    role admin, and the database took no id for the new id and no email
    for admin@system.local, the admin row is there afterwards, and a login
    with admin@system.local and Admin@123 is answered as [schemas.login]
    takes that email: with 400 when Joi refuses it, and else with success,
    for a user with the role admin.  And once a user with the role admin
    exists, running it again changes nothing. *)
Theorem default_data_of_the_migration
  (pf : Platform) (env : Env) (now now' : Z) (adminId : Id) (db : Db) :
  (forall p, bcrypt_compare pf p (bcrypt_hash pf p) = true) ->
  let db' := insertDefaultData pf now adminId db in
  let admin := new_user adminId "System Admin" "admin@system.local"
                 (bcrypt_hash pf "Admin@123") Admin now in
  ((exists cs, categories db' = (categories db ++ cs)%list)
   /\ (users db' = users db \/ users db' = (users db ++ [admin])%list)
   /\ projects db' = projects db /\ tasks db' = tasks db
   /\ project_files db' = project_files db /\ task_files db' = task_files db)
  /\ categories db' <> []
  /\ (existsb (fun u => role_eqb (u_role u) Admin) (users db) = false ->
      existsb (fun u => sql_equal pf (u_id u) adminId) (users db) = false ->
      existsb (fun u => sql_equal pf (u_email u) "admin@system.local") (users db)
      = false ->
      users db' = (users db ++ [admin])%list
      /\ (joi_email pf "admin@system.local" = false ->
          run (login pf env now' "admin@system.local" "Admin@123") db'
          = (validation_error, db'))
      /\ (joi_email pf "admin@system.local" = true ->
          fst (run (login pf env now' "admin@system.local" "Admin@123") db')
          = json "Login successful"
              (LoginData admin (sign_access env admin now')
                 (sign_refresh env admin now'))))
  /\ (existsb (fun u => role_eqb (u_role u) Admin) (users db') = true ->
      forall now2 id2, insertDefaultData pf now2 id2 db' = db').
Proof.
  intros Hb. cbv zeta.
  set (admin := new_user adminId "System Admin" "admin@system.local"
                  (bcrypt_hash pf "Admin@123") Admin now).
  set (cats := fun d : Db =>
         if count (categories d) =? 0
         then fold_left (fun d c =>
                match c with
                | (id, name, description, color) =>
                    insert_ignore_category
                      (mkCategory id name description color now now) d
                end) defaultCategories d
         else d).
  assert (Hc : users (cats db) = users db /\ projects (cats db) = projects db
               /\ tasks (cats db) = tasks db
               /\ project_files (cats db) = project_files db
               /\ task_files (cats db) = task_files db
               /\ (exists cs, categories (cats db) = (categories db ++ cs)%list)
               /\ categories (cats db) <> []).
  { unfold cats. destruct (count (categories db) =? 0) eqn:E.
    - destruct (default_categories_grow now defaultCategories db)
        as (U & P & T & PF & TF & C).
      apply count_zero_iff in E.
      repeat split; auto. unfold defaultCategories.
      apply default_categories_nonempty. exact E.
    - repeat split; auto.
      + exists []. rewrite app_nil_r. reflexivity.
      + intros N. rewrite N in E. discriminate. }
  destruct Hc as (U & P & T & PF & TF & C & CN).
  assert (Hd : insertDefaultData pf now adminId db
               = if count (filter (fun u => role_eqb (u_role u) Admin)
                             (users (cats db))) =? 0
                 then match insert_user admin (cats db) with
                      | inl _ => cats db
                      | inr d => d
                      end
                 else cats db) by reflexivity.
  rewrite Hd. clear Hd. rewrite U.
  destruct (count (filter (fun u => role_eqb (u_role u) Admin) (users db)) =? 0)
    eqn:Ea.
  - assert (Hh : has_user (cats db) adminId = has_user db adminId)
      by (unfold has_user; rewrite U; reflexivity).
    unfold insert_user. rewrite U.
    change (u_id admin) with adminId.
    change (u_email admin) with "admin@system.local".
    rewrite Hh.
    destruct (has_user db adminId
              || existsb (fun u => String.eqb (u_email u) "admin@system.local")
                   (users db))
      eqn:Ei.
    + split; [repeat split; auto|]. split; [exact CN|]. split.
      * intros _ Hid Hem. apply none_sql_equal_string in Hid, Hem.
        unfold has_user, id_eqb in Ei. rewrite Hid, Hem in Ei. discriminate.
      * intros Hex. apply count_zero_iff, filter_nil_iff in Ea.
        rewrite U, Ea in Hex. discriminate.
    + cbn [users projects tasks project_files task_files categories set_users].
      split; [repeat split; auto|]. split; [exact CN|]. split.
      * intros _ _ Hem. split; [reflexivity|]. split.
        -- intros Hj. unfold login, schemas_login. rewrite Hj. reflexivity.
        -- intros Hj.
           rewrite (login_accepted pf env now' _ "Admin@123" Hj eq_refl).
           apply (login_of_new_row pf env now'
                    (set_users (cats db) (users db ++ [admin])) admin "Admin@123");
             auto.
           cbn [users set_users]. apply filter_app_last.
           ++ apply filter_nil_iff. exact Hem.
           ++ apply sql_equal_refl.
      * intros _ now2 id2. unfold insertDefaultData.
        cbn [categories set_users users].
        destruct (count (categories (cats db)) =? 0) eqn:E0;
          [apply count_zero_iff in E0; contradiction|].
        cbn [users set_users].
        rewrite filter_app. unfold admin. cbn [filter new_user u_role role_eqb].
        match goal with
        | |- context [count (?l ++ ?m)%list =? 0] =>
            destruct (count (l ++ m)%list =? 0) eqn:E1; [|reflexivity]
        end.
        apply count_zero_iff, app_eq_nil in E1. destruct E1. discriminate.
  - split; [repeat split; auto|]. split; [exact CN|]. split.
    + intros Hex. apply filter_nil_iff in Hex. rewrite Hex in Ea. discriminate.
    + intros _ now2 id2. unfold insertDefaultData.
      destruct (count (categories (cats db)) =? 0) eqn:E0;
        [apply count_zero_iff in E0; contradiction|].
      rewrite U, Ea. reflexivity.
Qed.

Lemma default_data_of_the_migration_witness :
  status (fst (run (login Sample.platform Sample.env 1
                      "admin@system.local" "Admin@123")
                   (insertDefaultData Sample.platform 0 Sample.fresh
                      (mkDb [] [] [] [] [] [])))) = 400.
Proof.
  destruct (default_data_of_the_migration Sample.platform Sample.env 0 1 Sample.fresh
              (mkDb [] [] [] [] [] [])) as (_ & _ & H & _).
  - intros p. simpl. apply String.eqb_refl.
  - destruct (H eq_refl eq_refl eq_refl) as (_ & H400 & _).
    rewrite H400; reflexivity.
Defined.

(** ** The keys and the foreign keys of the schema *)





































Example delete_user_unassigns :
  map t_assigned_to
      (tasks (snd (handle Sample.platform (Sample.actor Sample.root) 30
                     (DeleteUser Sample.u2_id) Sample.db)))
  = [None; None].
Proof. reflexivity. Qed.

(** ** What an upload records *)

Lemma set_task_files_same db : set_task_files db (task_files db) = db.
Proof. destruct db; reflexivity. Qed.

(** The loop over the files of a task whose row and whose uploader exist:
    it records them in turn, and stops only at an id that is taken (409) or
    at a value that a column does not take (500). *)
Lemma save_task_files_from pf a now id files d :
  has_task d id && has_user d (a_id a) = true ->
  match save_files pf insert_task_file id (a_id a) now files d with
  | (inr _, d') =>
      d' = set_task_files d (task_files d ++ map (task_file_row a now id) files)
  | (inl r, d') =>
      (status r = 409 \/ status r = 500)
      /\ exists k, (k < List.length files)%nat
           /\ d' = set_task_files d
                     (task_files d ++ map (task_file_row a now id) (firstn k files))
  end.
Proof.
  revert d. induction files as [|f rest IH]; intros d FK.
  - cbn [save_files ret map]. rewrite app_nil_r. symmetry. apply set_task_files_same.
  - cbn [save_files]. unfold bind, execute, sent. cbn [negb].
    fold (task_file_row a now id f).
    destruct (file_values_fit pf f); cbn [negb].
    2:{ split; [right; reflexivity|]. exists 0%nat. split; [simpl; lia|].
        cbn [firstn map]. rewrite app_nil_r. symmetry. apply set_task_files_same. }
    destruct (insert_task_file (task_file_row a now id f) d) as [e|d1] eqn:Ei.
    + unfold insert_task_file in Ei. cbn [task_file_row f_id f_owner f_uploaded_by] in Ei.
      rewrite FK in Ei. cbn [negb] in Ei.
      destruct (existsb _ (task_files d)); [|discriminate].
      injection Ei as <-.
      split; [left; reflexivity|]. exists 0%nat. split; [simpl; lia|].
      cbn [firstn map]. rewrite app_nil_r. symmetry. apply set_task_files_same.
    + unfold insert_task_file in Ei. cbn [task_file_row f_id f_owner f_uploaded_by] in Ei.
      rewrite FK in Ei. cbn [negb] in Ei.
      destruct (existsb _ (task_files d)); [discriminate|].
      injection Ei as <-.
      match goal with
      | |- context [save_files _ _ _ _ _ rest ?d1] => specialize (IH d1 FK)
      end.
      destruct (save_files pf insert_task_file id (a_id a) now rest _) as [[r|x] d'].
      * destruct IH as (Hs & k & Hk & ->). split; [exact Hs|].
        exists (S k). split; [simpl; lia|].
        cbn [firstn map task_files set_task_files]. rewrite <- app_assoc.
        reflexivity.
      * rewrite IH. cbn [map task_files set_task_files]. rewrite <- app_assoc.
        reflexivity.
Qed.

(** What the handler of "Upload files to task" records. *)
Lemma upload_recorded pf a now id files db :
  let rd := handle pf a now (UploadTaskFiles id files) db in
  exists k, (k <= List.length files)%nat
    /\ snd rd = set_task_files db
                  (task_files db ++ map (task_file_row a now id) (firstn k files))
    /\ (status (fst rd) = 200 -> k = List.length files)
    /\ ((0 < k)%nat -> (k < List.length files)%nat ->
        status (fst rd) = 409 \/ status (fst rd) = 500).
Proof.
  cbv zeta.
  assert (Hnone : forall r, status r <> 200 ->
            exists k, (k <= List.length files)%nat
              /\ snd (r, db) = set_task_files db
                   (task_files db ++ map (task_file_row a now id) (firstn k files))
              /\ (status (fst (r, db)) = 200 -> k = List.length files)
              /\ ((0 < k)%nat -> (k < List.length files)%nat ->
                  status (fst (r, db)) = 409 \/ status (fst (r, db)) = 500)).
  { intros r Hr. exists 0%nat. cbn [fst snd firstn map]. rewrite app_nil_r.
    split; [lia|]. split; [symmetry; apply set_task_files_same|].
    split; [intros X; contradiction | lia]. }
  unfold handle, route, tasks_upload, run, bind, query.
  destruct (task_check_query id db) as [|task rest] eqn:Eq.
  - apply Hnone; discriminate.
  - destruct (canUpload a task); [|apply Hnone; discriminate].
    destruct files as [|f files']; [apply Hnone; discriminate|].
    cbv beta iota delta [negb is_empty stop_if ret].
    set (files := f :: files').
    destruct (has_task db id && has_user db (a_id a)) eqn:FK.
    + pose proof (save_task_files_from pf a now id files db FK) as L.
      destruct (save_files pf insert_task_file id (a_id a) now files db)
        as [[r|x] d'].
      * destruct L as (Hs & k & Hk & ->). exists k. cbn [fst snd].
        split; [lia|]. split; [reflexivity|].
        split; [intros X; destruct Hs as [Hs|Hs]; rewrite Hs in X; discriminate
               | auto].
      * exists (List.length files). cbn [fst snd]. rewrite firstn_all.
        split; [lia|]. split; [exact L|]. split; [auto | lia].
    + unfold files. cbn [save_files]. unfold bind, execute.
      destruct (sent true (file_values_fit pf f) _ db) as [e|d1] eqn:Ei.
      * apply Hnone, errorHandler_not_200.
      * apply sent_inr in Ei as (_ & _ & Ei).
        unfold insert_task_file in Ei. cbn [f_id f_owner f_uploaded_by] in Ei.
        rewrite FK in Ei. cbn [negb] in Ei.
        destruct (existsb _ (task_files db)); discriminate.
Qed.

(** X17.  What "Upload files to task" records.  Whatever the answer, the
    store afterwards is the store before with the rows of the first [k] of
    the files appended to task_files, in their order, each with the task as
    task_id and the caller as uploaded_by; after a 200, [k] is the number of
    files; and when some but not all were recorded the answer is 409 or
    500: the loop stopped at a file id that was taken, or at a file one of
    whose values a column does not take, and the rows written before it
    stayed. *)
Theorem upload_records_a_prefix
  (pf : Platform) (a : Actor) (now : Z) (id : Id) (files : list UploadedFile)
  (db : Db) :
  let rd := serve pf a now (UploadTaskFiles id files) db in
  exists k, (k <= List.length files)%nat
    /\ snd rd = set_task_files db
                  (task_files db ++ map (task_file_row a now id) (firstn k files))
    /\ (status (fst rd) = 200 -> k = List.length files)
    /\ ((0 < k)%nat -> (k < List.length files)%nat ->
        status (fst rd) = 409 \/ status (fst rd) = 500).
Proof.
  cbv zeta. destruct (accepted pf now (UploadTaskFiles id files)) eqn:Hacc.
  - rewrite (serve_accepted pf a now _ db Hacc). cbn [as_handled].
    apply upload_recorded.
  - destruct (serve_refused pf a now _ db Hacc) as [Hdb Hst].
    exists 0%nat. rewrite Hdb. cbn [firstn map]. rewrite app_nil_r.
    split; [lia|]. split; [symmetry; apply set_task_files_same|].
    split; [|lia].
    intros X. destruct Hst as [Hst|Hst]; rewrite Hst in X; discriminate.
Qed.

(** ** The answers of login *)

(** X18.  Login answers 400, 200 or 401 and nothing else.  It answers 400
    exactly when [schemas.login] refuses the email or the password is
    empty, and writes nothing.  Behind the schema it answers 200 exactly
    when the first user the database finds for the email is active and the
    password matches its hash; the data are that user and the two tokens
    signed for it, and the only write is last_login (with updated_at) of
    the rows of its id.  Every 401 leaves the store as it was, and its
    message is "Account is deactivated" exactly when the first user of the
    email is not active, whatever the password; otherwise it is "Invalid
    credentials", for an unknown email as for a wrong password. *)
Theorem login_outcomes
  (pf : Platform) (env : Env) (now : Z) (e password : string) (db : Db) :
  let rd := run (login pf env now e password) db in
  let found := filter (fun u => sql_equal pf (u_email u) e) (users db) in
  (schemas_login pf e password = false /\ rd = (validation_error, db))
  \/ (schemas_login pf e password = true
      /\ status (fst rd) = 200
      /\ exists u rest,
           found = u :: rest /\ u_is_active u = true
           /\ bcrypt_compare pf password (u_password u) = true
           /\ fst rd = json "Login successful"
                         (LoginData u (sign_access env u now) (sign_refresh env u now))
           /\ snd rd = set_users db
                         (map (fun r => if id_eqb (u_id r) (u_id u)
                                        then logged_in now r else r) (users db)))
  \/ (schemas_login pf e password = true
      /\ status (fst rd) = 401 /\ snd rd = db
      /\ (message (fst rd) = "Account is deactivated"
          /\ (exists u rest, found = u :: rest /\ u_is_active u = false)
          \/ message (fst rd) = "Invalid credentials"
             /\ (found = []
                 \/ exists u rest, found = u :: rest /\ u_is_active u = true
                      /\ bcrypt_compare pf password (u_password u) = false))).
Proof.
  cbv zeta. unfold login.
  destruct (schemas_login pf e password); cbn [validateRequest];
    [right | left; split; reflexivity].
  unfold auth_login, run, bind, query.
  destruct (filter _ (users db)) as [|u rest] eqn:Ef.
  - right. cbn [fst snd status message]. auto 7.
  - destruct (u_is_active u) eqn:Ea; cbv beta iota delta [negb stop_if ret reply].
    + destruct (bcrypt_compare pf password (u_password u)) eqn:Eb;
        cbv beta iota delta [negb stop_if ret reply].
      * left. unfold execute_rows.
        rewrite update_users_same_email by (intros; reflexivity).
        cbn [fst snd status json]. split; [reflexivity|]. split; [reflexivity|].
        exists u, rest. repeat split; auto.
      * right. cbn [fst snd status message]. repeat split; auto.
        right. split; [reflexivity|]. right. exists u, rest. auto.
    + right. cbn [fst snd status message]. repeat split; auto.
      left. split; [reflexivity|]. exists u, rest. auto.
Qed.

(** The email of a login is compared as the database compares it. *)
Example login_in_capitals :
  status (fst (run (login Sample.platform Sample.env 100 "U1@EXAMPLE.COM" "u1")
                   Sample.db)) = 200
  /\ message (fst (run (login Sample.platform Sample.env 100 "u4@example.com" "u4")
                      Sample.db)) = "Account is deactivated"
  /\ status (fst (run (login Sample.platform Sample.env 100 "u1" "u1")
                      Sample.db)) = 400.
Proof. vm_compute. repeat split; reflexivity. Qed.

(** ** The tables a route writes *)

Lemma rows_kept_refl t db : rows_kept t db db.
Proof. destruct t; reflexivity. Qed.

Lemma rows_kept_trans t db d d' :
  rows_kept t db d -> rows_kept t d d' -> rows_kept t db d'.
Proof. destruct t; simpl; congruence. Qed.

Ltac other_table :=
  match goal with
  | t : Table |- _ =>
      destruct t; try reflexivity;
      match goal with
      | N : _ <> _ |- _ => exfalso; apply N; reflexivity
      end
  end.

Lemma insert_task_frame r db db' t :
  insert_task r db = inr db' -> t <> TasksT -> rows_kept t db db'.
Proof.
  unfold insert_task. destruct (has_task _ _); [discriminate|].
  destruct (negb _); [discriminate|]. intros [= <-] N. other_table.
Qed.

Lemma update_tasks_frame id ok f db db' t :
  update_tasks_where_id id ok f db = inr db' -> t <> TasksT -> rows_kept t db db'.
Proof.
  unfold update_tasks_where_id. destruct (_ && _); [discriminate|].
  intros [= <-] N. other_table.
Qed.

Lemma delete_tasks_frame id db db' t :
  delete_tasks_where_id id db = inr db' -> t <> TasksT -> t <> TaskFilesT ->
  rows_kept t db db'.
Proof.
  unfold delete_tasks_where_id.
  destruct (has_task _ _); intros [= <-] N M; [|apply rows_kept_refl].
  destruct t; try reflexivity; exfalso; [apply N | apply M]; reflexivity.
Qed.

Lemma insert_task_file_frame r db db' t :
  insert_task_file r db = inr db' -> t <> TaskFilesT -> rows_kept t db db'.
Proof.
  unfold insert_task_file. destruct (existsb _ _); [discriminate|].
  destruct (negb _); [discriminate|]. intros [= <-] N. other_table.
Qed.

Lemma insert_project_file_frame r db db' t :
  insert_project_file r db = inr db' -> t <> ProjectFilesT -> rows_kept t db db'.
Proof.
  unfold insert_project_file. destruct (existsb _ _); [discriminate|].
  destruct (negb _); [discriminate|]. intros [= <-] N. other_table.
Qed.

Lemma insert_project_frame r db db' t :
  insert_project r db = inr db' -> t <> ProjectsT -> rows_kept t db db'.
Proof.
  unfold insert_project. destruct (has_project _ _); [discriminate|].
  destruct (negb _); [discriminate|]. intros [= <-] N. other_table.
Qed.

Lemma update_projects_frame id f db db' t :
  update_projects_where_id id f db = inr db' -> t <> ProjectsT ->
  rows_kept t db db'.
Proof. unfold update_projects_where_id. intros [= <-] N. other_table. Qed.

(** [DELETE FROM projects] behind the check that no task is in the project:
    the cascade to the tasks and their files finds nothing. *)
Lemma delete_projects_frame id db db' t :
  filter (fun x => id_eqb (t_project_id x) id) (tasks db) = [] ->
  delete_projects_where_id id db = inr db' ->
  t <> ProjectsT -> t <> ProjectFilesT -> rows_kept t db db'.
Proof.
  intros Z H N M.
  destruct (delete_projects_without_tasks id db db' Z H)
    as (K1 & K2 & K3 & K4 & _).
  destruct t; simpl; auto; exfalso; [apply N | apply M]; reflexivity.
Qed.

Lemma update_users_frame id f db n db' t :
  update_users_where_id id f db = inr (n, db') -> t <> UsersT -> rows_kept t db db'.
Proof.
  unfold update_users_where_id. destruct (existsb _ _); [discriminate|].
  intros [= _ <-] N. other_table.
Qed.

Lemma delete_users_frame id db n db' t :
  delete_users_where_id id db = inr (n, db') -> t <> UsersT -> t <> TasksT ->
  rows_kept t db db'.
Proof.
  unfold delete_users_where_id.
  destruct (is_empty _); [intros [= _ <-] _ _; apply rows_kept_refl|].
  destruct (_ || _); [discriminate|]. intros [= _ <-] N M.
  destruct t; try reflexivity; exfalso; [apply N | apply M]; reflexivity.
Qed.

Lemma insert_category_frame r db db' t :
  insert_category r db = inr db' -> t <> CategoriesT -> rows_kept t db db'.
Proof.
  unfold insert_category. destruct (_ || _); [discriminate|].
  intros [= <-] N. other_table.
Qed.

Lemma update_categories_frame id f db db' t :
  update_categories_where_id id f db = inr db' -> t <> CategoriesT ->
  rows_kept t db db'.
Proof.
  unfold update_categories_where_id. destruct (existsb _ _); [discriminate|].
  intros [= <-] N. other_table.
Qed.

(** [DELETE FROM categories] behind the check that no task uses the
    category: SET NULL finds nothing. *)
Lemma delete_categories_frame id db db' t :
  filter (fun x => opt_is (t_category_id x) id) (tasks db) = [] ->
  delete_categories_where_id id db = inr db' ->
  t <> CategoriesT -> rows_kept t db db'.
Proof.
  intros Z H N.
  destruct (delete_categories_unused id db db' Z H) as (K1 & K2 & K3 & K4 & _).
  assert (K5 : project_files db' = project_files db).
  { unfold delete_categories_where_id in H.
    destruct (has_category db id); injection H as <-; reflexivity. }
  destruct t; simpl; auto. exfalso. apply N. reflexivity.
Qed.

Ltac not_written Ht :=
  let E := fresh in intros E; apply Ht; rewrite E; simpl; tauto.

Ltac frame_goal :=
  cbn [fst snd];
  let t := fresh "t" in let Ht := fresh "Ht" in
  intros t Ht;
  first
    [ apply rows_kept_refl
    | match goal with
      | H : insert_task _ _ = inr _ |- _ =>
          apply (insert_task_frame _ _ _ _ H); not_written Ht
      | H : update_tasks_where_id _ _ _ _ = inr _ |- _ =>
          apply (update_tasks_frame _ _ _ _ _ _ H); not_written Ht
      | H : delete_tasks_where_id _ _ = inr _ |- _ =>
          apply (delete_tasks_frame _ _ _ _ H); not_written Ht
      | H : insert_project _ _ = inr _ |- _ =>
          apply (insert_project_frame _ _ _ _ H); not_written Ht
      | H : update_projects_where_id _ _ _ = inr _ |- _ =>
          apply (update_projects_frame _ _ _ _ _ H); not_written Ht
      | Z : (0 <? count _) = false, H : delete_projects_where_id _ _ = inr _ |- _ =>
          apply (delete_projects_frame _ _ _ _ (not_positive_count_nil _ Z) H);
          not_written Ht
      | H : update_users_where_id _ _ _ = inr _ |- _ =>
          apply (update_users_frame _ _ _ _ _ _ H); not_written Ht
      | H : delete_users_where_id _ _ = inr _ |- _ =>
          apply (delete_users_frame _ _ _ _ _ H); not_written Ht
      | H : insert_category _ _ = inr _ |- _ =>
          apply (insert_category_frame _ _ _ _ H); not_written Ht
      | H : update_categories_where_id _ _ _ = inr _ |- _ =>
          apply (update_categories_frame _ _ _ _ _ H); not_written Ht
      | Z : (0 <? count _) = false, H : delete_categories_where_id _ _ = inr _ |- _ =>
          apply (delete_categories_frame _ _ _ _ (not_positive_count_nil _ Z) H);
          not_written Ht
      end ].

(** X19.  Every route writes its own tables only.  A GET writes nothing.
    The task routes leave users, categories, projects and project files as
    they were; the project routes leave users, categories, tasks and task
    files; the user routes leave categories, projects and both file tables,
    and only "Delete user" reaches the tasks (assigned_to SET NULL); the
    category routes leave every table but categories.  In particular the
    cascades of "Delete project" and "Delete category" into the tasks never
    happen, the handlers having refused before. *)
Theorem route_writes_its_tables_only
  (pf : Platform) (a : Actor) (now : Z) (r : Request) (db : Db) (t : Table) :
  ~ In t (written_by r) ->
  rows_kept t db (snd (handle pf a now r db)).
Proof.
  revert t.
  destruct r; unfold_route;
    match goal with
    | |- forall t, ~ In t (written_by ?r) -> rows_kept t db (snd (run ?h db)) =>
        apply (wp_run h db (fun rd =>
          forall t, ~ In t (written_by r) -> rows_kept t db (snd rd)))
    end;
    wp_steps_to_loop; try frame_goal.
  - apply (wp_save_files_inv
             (fun d => forall t, t <> TaskFilesT -> rows_kept t db d)); cbv beta.
    + intros t _. apply rows_kept_refl.
    + intros f d d' Hd Hi t Ht. apply (rows_kept_trans t db d d'); [auto|].
      apply (insert_task_file_frame _ _ _ _ Hi Ht).
    + intros f e d Hd _ t Ht. cbn [snd]. apply Hd. not_written Ht.
    + intros d Hd. wp_steps. intros t Ht. cbn [snd]. apply Hd. not_written Ht.
  - apply (wp_save_files_inv
             (fun d => forall t, t <> ProjectFilesT -> rows_kept t db d)); cbv beta.
    + intros t _. apply rows_kept_refl.
    + intros f d d' Hd Hi t Ht. apply (rows_kept_trans t db d d'); [auto|].
      apply (insert_project_file_frame _ _ _ _ Hi Ht).
    + intros f e d Hd _ t Ht. cbn [snd]. apply Hd. not_written Ht.
    + intros d Hd. wp_steps. intros t Ht. cbn [snd]. apply Hd. not_written Ht.
Qed.

Lemma route_writes_its_tables_only_witness :
  rows_kept TasksT Sample.db
    (snd (handle Sample.platform (Sample.actor Sample.m2) 100
            (DeleteProject Sample.p3_id) Sample.db)).
Proof.
  apply (route_writes_its_tables_only Sample.platform (Sample.actor Sample.m2) 100
           (DeleteProject Sample.p3_id) Sample.db TasksT).
  simpl. intros [H|[H|[]]]; discriminate H.
Defined.

(** ** Moving a task to another project *)





